(** * Mental-health screening assistant: session store, crisis guardrail and
      conversation state machine.

    A shallow embedding of [session_manager.py], [safety_monitor.py] and
    [conversation_flow.py] (backend of the AI voice mental-health assistant),
    followed by the properties of the store, the detector and the flow.

    Conventions of the embedding.
    - Python [str] is [string]; a character is a code point below 256.
    - Python [int] is [Z]; [len] is a [nat].
    - [datetime] values are [Z] microseconds; every [datetime.now()] of the
      source is one reading of the clock oracle carried by the world.
    - A Python [dict] is an association list in insertion order.
    - Methods that touch the store, the clock, [uuid.uuid4] or [random] are
      computations in the monad [M]: they transform the world and either
      return, raise a Python exception, or do not return. *)

From Stdlib Require Import String Ascii List ZArith Bool Lia Arith.
From Stdlib Require Import DecimalString.
Import ListNotations.
Open Scope string_scope.
Open Scope Z_scope.

Set Implicit Arguments.

(* ===================================================================== *)
(** ** Python strings *)
(* ===================================================================== *)

Module PyStr.

(** [c.isspace()] for a code point below 256. *)
Definition isspace (c : ascii) : bool :=
  let n := nat_of_ascii c in
  ((9 <=? n) && (n <=? 13) || (28 <=? n) && (n <=? 32)
   || (n =? 133) || (n =? 160))%nat.

(** [c.lower()] for a code point below 256: A-Z and the accented capitals
    of Latin-1 (all of 0xC0-0xDE but the multiplication sign) move by 32. *)
Definition lower_char (c : ascii) : ascii :=
  let n := nat_of_ascii c in
  if ((65 <=? n) && (n <=? 90)
      || (192 <=? n) && (n <=? 222) && negb (n =? 215))%nat
  then ascii_of_nat (n + 32) else c.

(** [s.lower()] *)
Fixpoint lower (s : string) : string :=
  match s with
  | EmptyString => EmptyString
  | String c r => String (lower_char c) (lower r)
  end.

Fixpoint lstrip (s : string) : string :=
  match s with
  | EmptyString => EmptyString
  | String c r => if isspace c then lstrip r else s
  end.

Definition is_empty (s : string) : bool :=
  match s with EmptyString => true | String _ _ => false end.

Fixpoint rstrip (s : string) : string :=
  match s with
  | EmptyString => EmptyString
  | String c r =>
      let r' := rstrip r in
      if isspace c && is_empty r' then EmptyString else String c r'
  end.

(** [s.strip()] *)
Definition strip (s : string) : string := rstrip (lstrip s).

(** [s.startswith(p)] *)
Fixpoint starts_with (p s : string) : bool :=
  match p, s with
  | EmptyString, _ => true
  | String _ _, EmptyString => false
  | String a p', String b s' => Ascii.eqb a b && starts_with p' s'
  end.

(** [sub in s] *)
Fixpoint str_in (sub s : string) : bool :=
  match s with
  | EmptyString => starts_with sub EmptyString
  | String _ s' => starts_with sub s || str_in sub s'
  end.

(** [any(k in text for k in keywords)] *)
Definition any_in (text : string) (keywords : list string) : bool :=
  existsb (fun k => str_in k text) keywords.

End PyStr.
Import PyStr.

(* ===================================================================== *)
(** ** Python dicts, in insertion order *)
(* ===================================================================== *)

Definition dict (V : Type) : Type := list (string * V).

Section Dict.
Variable V : Type.

(** [d.get(k)] *)
Fixpoint dict_get (k : string) (d : dict V) : option V :=
  match d with
  | [] => None
  | (k', v) :: r => if String.eqb k k' then Some v else dict_get k r
  end.

(** [k in d] *)
Definition dict_mem (k : string) (d : dict V) : bool :=
  match dict_get k d with Some _ => true | None => false end.

(** [d[k] = v]: an existing key keeps its place, a new one goes last. *)
Fixpoint dict_set (k : string) (v : V) (d : dict V) : dict V :=
  match d with
  | [] => [(k, v)]
  | (k', v') :: r =>
      if String.eqb k k' then (k, v) :: r else (k', v') :: dict_set k v r
  end.

(** [del d[k]] *)
Fixpoint dict_del (k : string) (d : dict V) : dict V :=
  match d with
  | [] => []
  | (k', v') :: r =>
      if String.eqb k k' then dict_del k r else (k', v') :: dict_del k r
  end.

(** [d.keys()] *)
Definition dict_keys (d : dict V) : list string := map fst d.

End Dict.

(** [min(l, key=key)]: the first element with the smallest key, [None] for
    the empty sequence (where Python raises [ValueError]). *)
Fixpoint py_min_from {A : Type} (key : A -> Z) (best : A) (l : list A) : A :=
  match l with
  | [] => best
  | x :: r => if key x <? key best then py_min_from key x r
              else py_min_from key best r
  end.

Definition py_min {A : Type} (key : A -> Z) (l : list A) : option A :=
  match l with
  | [] => None
  | x :: r => Some (py_min_from key x r)
  end.

(* ===================================================================== *)
(** ** Data model ([session_manager.py]) *)
(* ===================================================================== *)

Inductive ConversationPhase : Type :=
| GREETING | TRIAGE | SCREENING | RESULTS | CRISIS_RESPONSE.

Inductive ScreeningTool : Type := PHQ9 | GAD7 | GHQ12.

(** [phase.value] (equal to [phase.name]) *)
Definition phase_value (p : ConversationPhase) : string :=
  match p with
  | GREETING => "GREETING" | TRIAGE => "TRIAGE" | SCREENING => "SCREENING"
  | RESULTS => "RESULTS" | CRISIS_RESPONSE => "CRISIS_RESPONSE"
  end.

(** [tool.name] (equal to [tool.value]) *)
Definition tool_name_of (t : ScreeningTool) : string :=
  match t with PHQ9 => "PHQ9" | GAD7 => "GAD7" | GHQ12 => "GHQ12" end.

(** [ConversationPhase(value)]: lookup by value, [None] where Python raises
    [ValueError]. *)
Definition phase_of_value (v : string) : option ConversationPhase :=
  if String.eqb v "GREETING" then Some GREETING
  else if String.eqb v "TRIAGE" then Some TRIAGE
  else if String.eqb v "SCREENING" then Some SCREENING
  else if String.eqb v "RESULTS" then Some RESULTS
  else if String.eqb v "CRISIS_RESPONSE" then Some CRISIS_RESPONSE
  else None.

(** [ScreeningTool(value)] *)
Definition tool_of_value (v : string) : option ScreeningTool :=
  if String.eqb v "PHQ9" then Some PHQ9
  else if String.eqb v "GAD7" then Some GAD7
  else if String.eqb v "GHQ12" then Some GHQ12
  else None.

Record QuestionResponse : Type := {
  question_id : string;
  user_text : string;
  mapped_score : Z;
  timestamp : Z
}.

(** One entry of [conversation_history]. *)
Record ConversationEntry : Type := {
  user_message : string;
  ai_response : string;
  phase : string;
  entry_timestamp : Z
}.

Record SessionData : Type := {
  session_id : string;
  user_name : option string;
  country : option string;
  start_time : Z;
  last_activity : Z;
  current_phase : ConversationPhase;
  selected_tool : option ScreeningTool;
  responses : list QuestionResponse;
  has_past_diagnosis : option bool;
  crisis_detected : bool;
  completed : bool;
  conversation_history : list ConversationEntry
}.

Definition set_user_name (v : option string) (s : SessionData) :=
  {| session_id := session_id s; user_name := v; country := country s;
     start_time := start_time s; last_activity := last_activity s;
     current_phase := current_phase s; selected_tool := selected_tool s;
     responses := responses s; has_past_diagnosis := has_past_diagnosis s;
     crisis_detected := crisis_detected s; completed := completed s;
     conversation_history := conversation_history s |}.

Definition set_country (v : option string) (s : SessionData) :=
  {| session_id := session_id s; user_name := user_name s; country := v;
     start_time := start_time s; last_activity := last_activity s;
     current_phase := current_phase s; selected_tool := selected_tool s;
     responses := responses s; has_past_diagnosis := has_past_diagnosis s;
     crisis_detected := crisis_detected s; completed := completed s;
     conversation_history := conversation_history s |}.

Definition set_last_activity (v : Z) (s : SessionData) :=
  {| session_id := session_id s; user_name := user_name s;
     country := country s;
     start_time := start_time s; last_activity := v;
     current_phase := current_phase s; selected_tool := selected_tool s;
     responses := responses s; has_past_diagnosis := has_past_diagnosis s;
     crisis_detected := crisis_detected s; completed := completed s;
     conversation_history := conversation_history s |}.

Definition set_current_phase (v : ConversationPhase) (s : SessionData) :=
  {| session_id := session_id s; user_name := user_name s;
     country := country s;
     start_time := start_time s; last_activity := last_activity s;
     current_phase := v; selected_tool := selected_tool s;
     responses := responses s; has_past_diagnosis := has_past_diagnosis s;
     crisis_detected := crisis_detected s; completed := completed s;
     conversation_history := conversation_history s |}.

Definition set_selected_tool (v : option ScreeningTool) (s : SessionData) :=
  {| session_id := session_id s; user_name := user_name s;
     country := country s;
     start_time := start_time s; last_activity := last_activity s;
     current_phase := current_phase s; selected_tool := v;
     responses := responses s; has_past_diagnosis := has_past_diagnosis s;
     crisis_detected := crisis_detected s; completed := completed s;
     conversation_history := conversation_history s |}.

Definition set_responses (v : list QuestionResponse) (s : SessionData) :=
  {| session_id := session_id s; user_name := user_name s;
     country := country s;
     start_time := start_time s; last_activity := last_activity s;
     current_phase := current_phase s; selected_tool := selected_tool s;
     responses := v; has_past_diagnosis := has_past_diagnosis s;
     crisis_detected := crisis_detected s; completed := completed s;
     conversation_history := conversation_history s |}.

Definition set_has_past_diagnosis (v : option bool) (s : SessionData) :=
  {| session_id := session_id s; user_name := user_name s;
     country := country s;
     start_time := start_time s; last_activity := last_activity s;
     current_phase := current_phase s; selected_tool := selected_tool s;
     responses := responses s; has_past_diagnosis := v;
     crisis_detected := crisis_detected s; completed := completed s;
     conversation_history := conversation_history s |}.

Definition set_crisis_detected (v : bool) (s : SessionData) :=
  {| session_id := session_id s; user_name := user_name s;
     country := country s;
     start_time := start_time s; last_activity := last_activity s;
     current_phase := current_phase s; selected_tool := selected_tool s;
     responses := responses s; has_past_diagnosis := has_past_diagnosis s;
     crisis_detected := v; completed := completed s;
     conversation_history := conversation_history s |}.

Definition set_completed (v : bool) (s : SessionData) :=
  {| session_id := session_id s; user_name := user_name s;
     country := country s;
     start_time := start_time s; last_activity := last_activity s;
     current_phase := current_phase s; selected_tool := selected_tool s;
     responses := responses s; has_past_diagnosis := has_past_diagnosis s;
     crisis_detected := crisis_detected s; completed := v;
     conversation_history := conversation_history s |}.

Definition set_conversation_history (v : list ConversationEntry)
    (s : SessionData) :=
  {| session_id := session_id s; user_name := user_name s;
     country := country s;
     start_time := start_time s; last_activity := last_activity s;
     current_phase := current_phase s; selected_tool := selected_tool s;
     responses := responses s; has_past_diagnosis := has_past_diagnosis s;
     crisis_detected := crisis_detected s; completed := completed s;
     conversation_history := v |}.

(** [timedelta(minutes=m)], in microseconds. *)
Definition timedelta_minutes (m : Z) : Z := m * 60000000.

(** [SessionData.is_expired], at the clock reading [now]. *)
Definition is_expired_at (now : Z) (timeout_minutes : Z) (s : SessionData)
  : bool :=
  let expiry_time := last_activity s + timedelta_minutes timeout_minutes in
  now >? expiry_time.

(** [sum(...)] over a list of integers. *)
Definition py_sum (l : list Z) : Z := fold_left Z.add l 0.

(** [SessionData.get_total_score] *)
Definition get_total_score (s : SessionData) : Z :=
  py_sum (map mapped_score (responses s)).

(* ===================================================================== *)
(** ** The world and the monad of effects *)
(* ===================================================================== *)

(** Python exceptions that the modelled code can raise. *)
Inductive Exn : Type :=
| ValueError (msg : string)
| IndexError (msg : string)
| AttributeError (msg : string)
| OutOfModel (msg : string).

(** [str(e)] *)
Definition exn_str (e : Exn) : string :=
  match e with
  | ValueError m | IndexError m | AttributeError m | OutOfModel m => m
  end.

(** The [SessionManager] object together with the environment it reads:
    [clock k] is the value of the [k]-th call of [datetime.now()],
    [uuid4 k] the [k]-th [str(uuid.uuid4())], [rng k] the [k]-th draw of
    [random]; the counters say how many have been consumed. *)
Record World : Type := {
  timeout_minutes : Z;
  max_sessions : Z;
  sessions : dict SessionData;
  clock : nat -> Z;
  ticks : nat;
  uuid4 : nat -> string;
  draws : nat;
  rng : nat -> nat;
  rolls : nat
}.

Definition with_sessions (d : dict SessionData) (w : World) : World :=
  {| timeout_minutes := timeout_minutes w; max_sessions := max_sessions w;
     sessions := d;
     clock := clock w; ticks := ticks w;
     uuid4 := uuid4 w; draws := draws w;
     rng := rng w; rolls := rolls w |}.

Definition with_ticks (n : nat) (w : World) : World :=
  {| timeout_minutes := timeout_minutes w; max_sessions := max_sessions w;
     sessions := sessions w;
     clock := clock w; ticks := n;
     uuid4 := uuid4 w; draws := draws w;
     rng := rng w; rolls := rolls w |}.

Definition with_draws (n : nat) (w : World) : World :=
  {| timeout_minutes := timeout_minutes w; max_sessions := max_sessions w;
     sessions := sessions w;
     clock := clock w; ticks := ticks w;
     uuid4 := uuid4 w; draws := n;
     rng := rng w; rolls := rolls w |}.

Definition with_rolls (n : nat) (w : World) : World :=
  {| timeout_minutes := timeout_minutes w; max_sessions := max_sessions w;
     sessions := sessions w;
     clock := clock w; ticks := ticks w;
     uuid4 := uuid4 w; draws := draws w;
     rng := rng w; rolls := n |}.

(** Outcome of a call: a value, a raised exception, or no return (a loop
    that outlived its fuel). *)
Inductive Res (A : Type) : Type :=
| Ok (a : A)
| Raise (e : Exn)
| NoReturn.
Arguments Raise {A} e.
Arguments NoReturn {A}.

Definition M (A : Type) : Type := World -> Res A * World.

Definition ret {A : Type} (a : A) : M A := fun w => (Ok a, w).

Definition bind {A B : Type} (m : M A) (k : A -> M B) : M B :=
  fun w =>
    match m w with
    | (Ok a, w') => k a w'
    | (Raise e, w') => (Raise e, w')
    | (NoReturn, w') => (NoReturn, w')
    end.

Definition raise {A : Type} (e : Exn) : M A := fun w => (Raise e, w).

(** A step that does not touch the world. *)
Definition lift_res {A : Type} (r : Res A) : M A := fun w => (r, w).

(** [try: m  except Exception as e: h e] *)
Definition try_catch {A : Type} (m : M A) (h : Exn -> M A) : M A :=
  fun w =>
    match m w with
    | (Raise e, w') => h e w'
    | other => other
    end.

Declare Scope monad_scope.
Delimit Scope monad_scope with monad.
Notation "x <- m ;; k" := (bind m (fun x => k))
  (at level 61, m at next level, right associativity) : monad_scope.
Notation "m ;;; k" := (bind m (fun _ => k))
  (at level 61, right associativity) : monad_scope.
Open Scope monad_scope.

(** [datetime.now()] *)
Definition now : M Z :=
  fun w => (Ok (clock w (ticks w)), with_ticks (S (ticks w)) w).

(** [str(uuid.uuid4())] *)
Definition new_uuid : M string :=
  fun w => (Ok (uuid4 w (draws w)), with_draws (S (draws w)) w).

(** [random.choice(l)] on a non-empty list (the callers guard it). *)
Definition random_choice (l : list string) : M string :=
  fun w => (Ok (nth (rng w (rolls w) mod length l)%nat l EmptyString),
            with_rolls (S (rolls w)) w).

Definition get_sessions : M (dict SessionData) := fun w => (Ok (sessions w), w).
Definition put_sessions (d : dict SessionData) : M unit :=
  fun w => (Ok tt, with_sessions d w).
Definition get_timeout_minutes : M Z := fun w => (Ok (timeout_minutes w), w).
Definition get_max_sessions : M Z := fun w => (Ok (max_sessions w), w).

(* ===================================================================== *)
(** ** [SessionData] methods *)
(* ===================================================================== *)

(** The methods mutate [self]; here they return the mutated object, and the
    store operation that called them writes it back under its key. *)

(** [SessionData.update_activity] *)
Definition update_activity (s : SessionData) : M SessionData :=
  t <- now ;;
  ret (set_last_activity t s).

(** [SessionData.add_response] *)
Definition session_add_response (s : SessionData)
    (question_id user_text : string) (mapped_score : Z) : M SessionData :=
  t <- now ;;
  let response := {| question_id := question_id; user_text := user_text;
                     mapped_score := mapped_score; timestamp := t |} in
  update_activity (set_responses (responses s ++ [response]) s).

(** [SessionData.add_conversation_entry] *)
Definition session_add_conversation_entry (s : SessionData)
    (user_message ai_response phase : string) : M SessionData :=
  t <- now ;;
  let entry := {| user_message := user_message; ai_response := ai_response;
                  phase := phase; entry_timestamp := t |} in
  update_activity
    (set_conversation_history (conversation_history s ++ [entry]) s).

(** [SessionData.is_expired] *)
Definition is_expired (timeout_minutes : Z) (s : SessionData) : M bool :=
  t <- now ;;
  ret (is_expired_at t timeout_minutes s).

(* ===================================================================== *)
(** ** [SessionManager] *)
(* ===================================================================== *)

(** [x or y] on an optional integer: [None] and [0] are falsy. *)
Definition int_or (x : option Z) (y : Z) : Z :=
  match x with
  | Some v => if v =? 0 then y else v
  | None => y
  end.

(** [SessionManager.__init__]; [cfg_timeout] and [cfg_max] stand for
    [config.SESSION_TIMEOUT_MINUTES] and [config.MAX_SESSIONS]. *)
Definition SessionManager_init (timeout_minutes max_sessions : option Z)
    (cfg_timeout cfg_max : Z)
    (clock : nat -> Z) (uuid4 : nat -> string) (rng : nat -> nat) : World :=
  {| timeout_minutes := int_or timeout_minutes cfg_timeout;
     max_sessions := int_or max_sessions cfg_max;
     sessions := [];
     clock := clock; ticks := 0%nat;
     uuid4 := uuid4; draws := 0%nat;
     rng := rng; rolls := 0%nat |}.

(** Write the object back under its key: the in-place mutation of the
    stored object. *)
Definition store (session_id : string) (s : SessionData) : M unit :=
  d <- get_sessions ;;
  put_sessions (dict_set session_id s d).

(** [del self.sessions[session_id]] *)
Definition del_session (session_id : string) : M unit :=
  d <- get_sessions ;;
  put_sessions (dict_del session_id d).

(** [SessionManager.get_session] *)
Definition get_session (session_id : string) : M (option SessionData) :=
  d <- get_sessions ;;
  match dict_get session_id d with
  | Some session =>
      tm <- get_timeout_minutes ;;
      expired <- is_expired tm session ;;
      if negb expired then
        session' <- update_activity session ;;
        store session_id session' ;;;
        ret (Some session')
      else
        del_session session_id ;;;
        ret None
  | None => ret None
  end.

(** Python values that reach [update_session] as keyword values. *)
Inductive PyVal : Type :=
| PyNone
| PyBool (b : bool)
| PyInt (z : Z)
| PyStr (s : string)
| PyEmptyDict
| PyPhase (p : ConversationPhase)
| PyTool (t : ScreeningTool).

Definition allowed_fields : list string :=
  ["current_phase"; "selected_tool"; "has_past_diagnosis";
   "crisis_detected"; "completed"; "user_name"; "country"].

Definition str_mem (x : string) (l : list string) : bool :=
  existsb (String.eqb x) l.

(** The two conversions of [update_session]: a string given for
    [current_phase] or [selected_tool] is turned into the enum member. *)
Definition coerce_update (field : string) (value : PyVal) : Res PyVal :=
  match value with
  | PyStr v =>
      if String.eqb field "current_phase" then
        match phase_of_value v with
        | Some p => Ok (PyPhase p)
        | None =>
            Raise (ValueError ("'" ++ v ++ "' is not a valid ConversationPhase"))
        end
      else if String.eqb field "selected_tool" then
        match tool_of_value v with
        | Some t => Ok (PyTool t)
        | None =>
            Raise (ValueError ("'" ++ v ++ "' is not a valid ScreeningTool"))
        end
      else Ok value
  | _ => Ok value
  end.

(** [setattr(session, field, value)] for a whitelisted field. A value that
    is not of the field's declared type is outside this model (Python would
    store it as it is); it is signalled as [OutOfModel]. *)
Definition setattr (s : SessionData) (field : string) (value : PyVal)
  : Res SessionData :=
  let bad := Raise (OutOfModel ("ill-typed value for " ++ field)) in
  if String.eqb field "current_phase" then
    match value with PyPhase p => Ok (set_current_phase p s) | _ => bad end
  else if String.eqb field "selected_tool" then
    match value with
    | PyTool t => Ok (set_selected_tool (Some t) s)
    | PyNone => Ok (set_selected_tool None s)
    | _ => bad
    end
  else if String.eqb field "has_past_diagnosis" then
    match value with
    | PyBool b => Ok (set_has_past_diagnosis (Some b) s)
    | PyNone => Ok (set_has_past_diagnosis None s)
    | _ => bad
    end
  else if String.eqb field "crisis_detected" then
    match value with PyBool b => Ok (set_crisis_detected b s) | _ => bad end
  else if String.eqb field "completed" then
    match value with PyBool b => Ok (set_completed b s) | _ => bad end
  else if String.eqb field "user_name" then
    match value with
    | PyStr v => Ok (set_user_name (Some v) s)
    | PyNone => Ok (set_user_name None s)
    | _ => bad
    end
  else if String.eqb field "country" then
    match value with
    | PyStr v => Ok (set_country (Some v) s)
    | PyNone => Ok (set_country None s)
    | _ => bad
    end
  else bad.

(** The loop [for field, value in updates.items()] of [update_session]:
    fields outside the whitelist are skipped. *)
Fixpoint apply_updates (session_id : string) (updates : dict PyVal)
    (s : SessionData) : M SessionData :=
  match updates with
  | [] => ret s
  | (field, value) :: rest =>
      if str_mem field allowed_fields then
        value' <- lift_res (coerce_update field value) ;;
        s' <- lift_res (setattr s field value') ;;
        store session_id s' ;;;
        apply_updates session_id rest s'
      else apply_updates session_id rest s
  end.

(** [SessionManager.update_session] *)
Definition update_session (session_id : string) (updates : dict PyVal)
  : M bool :=
  session <- get_session session_id ;;
  match session with
  | None => ret false
  | Some session =>
      session' <- apply_updates session_id updates session ;;
      session'' <- update_activity session' ;;
      store session_id session'' ;;;
      ret true
  end.

(** [SessionManager.add_response] *)
Definition add_response (session_id question_id user_text : string)
    (mapped_score : Z) : M bool :=
  session <- get_session session_id ;;
  match session with
  | None => ret false
  | Some session =>
      session' <- session_add_response session question_id user_text
                    mapped_score ;;
      store session_id session' ;;;
      ret true
  end.

(** [SessionManager.add_conversation] *)
Definition add_conversation (session_id user_message ai_response phase : string)
  : M bool :=
  session <- get_session session_id ;;
  match session with
  | None => ret false
  | Some session =>
      session' <- session_add_conversation_entry session user_message
                    ai_response phase ;;
      store session_id session' ;;;
      ret true
  end.

(** [SessionManager.delete_session] *)
Definition delete_session (session_id : string) : M bool :=
  d <- get_sessions ;;
  if dict_mem session_id d then
    del_session session_id ;;;
    ret true
  else ret false.

(** The list comprehension of [cleanup_expired_sessions]: one clock reading
    per stored session, in the order of the dict. *)
Fixpoint expired_sessions (timeout_minutes : Z) (items : dict SessionData)
  : M (list string) :=
  match items with
  | [] => ret []
  | (session_id, session) :: rest =>
      expired <- is_expired timeout_minutes session ;;
      more <- expired_sessions timeout_minutes rest ;;
      ret (if expired then session_id :: more else more)
  end.

Fixpoint del_sessions (ids : list string) : M unit :=
  match ids with
  | [] => ret tt
  | session_id :: rest => del_session session_id ;;; del_sessions rest
  end.

(** [SessionManager.cleanup_expired_sessions] *)
Definition cleanup_expired_sessions : M nat :=
  d <- get_sessions ;;
  tm <- get_timeout_minutes ;;
  expired <- expired_sessions tm d ;;
  del_sessions expired ;;;
  ret (length expired).

(** The loop [while session_id in self.sessions: session_id = uuid4()].
    It has no bound in the source; [fuel] bounds the number of redraws and
    running out of it is [NoReturn]. *)
Fixpoint unique_session_id (fuel : nat) (session_id : string) : M string :=
  d <- get_sessions ;;
  if dict_mem session_id d then
    match fuel with
    | O => fun w => (NoReturn, w)
    | S fuel' =>
        session_id' <- new_uuid ;;
        unique_session_id fuel' session_id'
    end
  else ret session_id.

(** The key function of the eviction: [self.sessions[sid].last_activity]. *)
Definition activity_of (d : dict SessionData) (sid : string) : Z :=
  match dict_get sid d with
  | Some s => last_activity s
  | None => 0
  end.

(** [SessionData(session_id=..., user_name=..., country=...)]: the two
    [default_factory] timestamps are read in field order. *)
Definition new_session_data (session_id : string)
    (user_name country : option string) : M SessionData :=
  t_start <- now ;;
  t_last <- now ;;
  ret {| session_id := session_id; user_name := user_name;
         country := country;
         start_time := t_start; last_activity := t_last;
         current_phase := GREETING; selected_tool := None;
         responses := []; has_past_diagnosis := None;
         crisis_detected := false; completed := false;
         conversation_history := [] |}.

(** The capacity guard at the head of [create_session]. *)
Definition enforce_max_sessions : M unit :=
  d <- get_sessions ;;
  mx <- get_max_sessions ;;
  if Z.of_nat (length d) >=? mx then
    cleanup_expired_sessions ;;;
    d' <- get_sessions ;;
    if Z.of_nat (length d') >=? mx then
      match py_min (activity_of d') (dict_keys d') with
      | Some oldest_session_id => del_session oldest_session_id
      | None => raise (ValueError "min() arg is an empty sequence")
      end
    else ret tt
  else ret tt.

(** [SessionManager.create_session] *)
Definition create_session (fuel : nat) (user_name country : option string)
  : M string :=
  enforce_max_sessions ;;;
  first_id <- new_uuid ;;
  session_id <- unique_session_id fuel first_id ;;
  session_data <- new_session_data session_id user_name country ;;
  store session_id session_data ;;;
  ret session_id.

(** [SessionManager.get_session_count] *)
Definition get_session_count : M nat :=
  d <- get_sessions ;;
  ret (length d).

(* ===================================================================== *)
(** ** Crisis guardrail ([safety_monitor.py]) *)
(* ===================================================================== *)

Inductive CrisisLevel : Type := NONE | WARNING | CRITICAL.

Record CrisisResponse : Type := {
  level : CrisisLevel;
  triggered_words : list string;
  message : string;
  crisis_timestamp : Z;
  requires_override : bool
}.

(** The fields of [SafetyMonitor] read by the detector, as loaded from the
    ["crisis"] section of the configuration. *)
Record SafetyMonitor : Type := {
  critical_triggers : list string;
  crisis_response_message : string
}.

(** Truth value of a Python object. *)
Definition truthy (v : PyVal) : bool :=
  match v with
  | PyNone => false
  | PyBool b => b
  | PyInt z => negb (z =? 0)
  | PyStr s => negb (is_empty s)
  | PyEmptyDict => false
  | PyPhase _ | PyTool _ => true
  end.

(** [SafetyMonitor._get_crisis_message] *)
Definition _get_crisis_message (sm : SafetyMonitor) : string :=
  crisis_response_message sm.

(** The loop over [critical_triggers] of [check_for_crisis]. *)
Definition matched_triggers (sm : SafetyMonitor) (normalized_text : string)
  : list string :=
  filter (fun trigger => str_in (lower trigger) normalized_text)
         (critical_triggers sm).

Definition no_crisis : M CrisisResponse :=
  t <- now ;;
  ret {| level := NONE; triggered_words := []; message := "";
         crisis_timestamp := t; requires_override := false |}.

(** [SafetyMonitor.check_for_crisis]; the argument is any Python value, as
    the source tests [isinstance(text, str)] itself. *)
Definition check_for_crisis (sm : SafetyMonitor) (text : PyVal)
  : M CrisisResponse :=
  match text with
  | PyStr s =>
      if negb (truthy text) then no_crisis
      else
        let normalized_text := strip (lower s) in
        let triggered := matched_triggers sm normalized_text in
        match triggered with
        | _ :: _ =>
            t <- now ;;
            ret {| level := CRITICAL; triggered_words := triggered;
                   message := _get_crisis_message sm;
                   crisis_timestamp := t; requires_override := true |}
        | [] => no_crisis
        end
  | _ => no_crisis
  end.

(* ===================================================================== *)
(** ** Configuration ([botConfig.json]) *)
(* ===================================================================== *)

(** The configuration file is read with [dict.get] and defaults. A key whose
    every reader uses the same default is a plain field holding the default
    when the key is missing; a key read with different defaults, or whose
    absence is observable, is an [option]. *)

Record IntroConfig : Type := {
  welcome : string;
  yesKeywords : list string;
  noKeywords : list string;
  exitResponse : option string
}.

Record MoodSelection : Type := {
  prompt : string;
  routing : dict (list string)
}.

Record Questionnaire : Type := {
  questions : list string;
  crisisQuestionIndex : option Z;
  thresholds : dict (Z * Z)
}.

Record AnswerMapping : Type := {
  standardScale : option (dict (list string));
  ghqScale : option (dict (list string));
  clarifyPrompt : option string
}.

(** An entry of ["results"]; the empty object has neither key. *)
Record ResultConfig : Type := {
  result_message : option string;
  suggestions : option (list string)
}.

Record BotConfig : Type := {
  intro : IntroConfig;
  moodSelection : MoodSelection;
  questionnaires : dict Questionnaire;
  answerMapping : AnswerMapping;
  results : dict ResultConfig
}.

Definition or_default {A : Type} (o : option A) (d : A) : A :=
  match o with Some a => a | None => d end.

(** [{}] where a questionnaire is missing. *)
Definition empty_questionnaire : Questionnaire :=
  {| questions := []; crisisQuestionIndex := None; thresholds := [] |}.

Definition empty_result : ResultConfig :=
  {| result_message := None; suggestions := None |}.

(** [self.config.get("questionnaires", {}).get(tool_name, {})] *)
Definition questionnaire_of (cfg : BotConfig) (tool_name : string)
  : Questionnaire :=
  or_default (dict_get tool_name (questionnaires cfg)) empty_questionnaire.

(** [self.config.get("results", {}).get(severity, {})] *)
Definition result_of (cfg : BotConfig) (severity : string) : ResultConfig :=
  or_default (dict_get severity (results cfg)) empty_result.

(** [not result_config] *)
Definition result_is_empty (r : ResultConfig) : bool :=
  match result_message r, suggestions r with
  | None, None => true
  | _, _ => false
  end.

(* ===================================================================== *)
(** ** Replies of [process_user_message] *)
(* ===================================================================== *)

Module Reply.
(** The dict returned to the API layer; an absent key is [None]. *)
Record t : Type := {
  error : option string;
  ai_response : option string;
  current_phase : option string;
  crisis_detected : option bool;
  next_action : option string;
  completed : option bool;
  selected_tool : option string;
  question_number : option Z;
  total_score : option Z;
  severity_level : option string;
  crisis_trigger : option string
}.

Definition empty : t :=
  {| error := None; ai_response := None; current_phase := None;
     crisis_detected := None; next_action := None; completed := None;
     selected_tool := None; question_number := None; total_score := None;
     severity_level := None; crisis_trigger := None |}.

(** The three keys that every regular reply carries. *)
Definition basic (ai : string) (ph : ConversationPhase) (crisis : bool) : t :=
  {| error := None; ai_response := Some ai;
     current_phase := Some (phase_value ph);
     crisis_detected := Some crisis; next_action := None;
     completed := None; selected_tool := None; question_number := None;
     total_score := None; severity_level := None; crisis_trigger := None |}.

Definition with_error (v : string) (r : t) : t :=
  {| error := Some v; ai_response := ai_response r;
     current_phase := current_phase r;
     crisis_detected := crisis_detected r; next_action := next_action r;
     completed := completed r; selected_tool := selected_tool r;
     question_number := question_number r; total_score := total_score r;
     severity_level := severity_level r;
     crisis_trigger := crisis_trigger r |}.

Definition with_next_action (v : string) (r : t) : t :=
  {| error := error r; ai_response := ai_response r;
     current_phase := current_phase r;
     crisis_detected := crisis_detected r; next_action := Some v;
     completed := completed r; selected_tool := selected_tool r;
     question_number := question_number r; total_score := total_score r;
     severity_level := severity_level r;
     crisis_trigger := crisis_trigger r |}.

Definition with_completed (v : bool) (r : t) : t :=
  {| error := error r; ai_response := ai_response r;
     current_phase := current_phase r;
     crisis_detected := crisis_detected r; next_action := next_action r;
     completed := Some v; selected_tool := selected_tool r;
     question_number := question_number r; total_score := total_score r;
     severity_level := severity_level r;
     crisis_trigger := crisis_trigger r |}.

Definition with_selected_tool (v : string) (r : t) : t :=
  {| error := error r; ai_response := ai_response r;
     current_phase := current_phase r;
     crisis_detected := crisis_detected r; next_action := next_action r;
     completed := completed r; selected_tool := Some v;
     question_number := question_number r; total_score := total_score r;
     severity_level := severity_level r;
     crisis_trigger := crisis_trigger r |}.

Definition with_question_number (v : Z) (r : t) : t :=
  {| error := error r; ai_response := ai_response r;
     current_phase := current_phase r;
     crisis_detected := crisis_detected r; next_action := next_action r;
     completed := completed r; selected_tool := selected_tool r;
     question_number := Some v; total_score := total_score r;
     severity_level := severity_level r;
     crisis_trigger := crisis_trigger r |}.

Definition with_total_score (v : Z) (r : t) : t :=
  {| error := error r; ai_response := ai_response r;
     current_phase := current_phase r;
     crisis_detected := crisis_detected r; next_action := next_action r;
     completed := completed r; selected_tool := selected_tool r;
     question_number := question_number r; total_score := Some v;
     severity_level := severity_level r;
     crisis_trigger := crisis_trigger r |}.

Definition with_severity_level (v : string) (r : t) : t :=
  {| error := error r; ai_response := ai_response r;
     current_phase := current_phase r;
     crisis_detected := crisis_detected r; next_action := next_action r;
     completed := completed r; selected_tool := selected_tool r;
     question_number := question_number r; total_score := total_score r;
     severity_level := Some v;
     crisis_trigger := crisis_trigger r |}.

Definition with_crisis_trigger (v : string) (r : t) : t :=
  {| error := error r; ai_response := ai_response r;
     current_phase := current_phase r;
     crisis_detected := crisis_detected r; next_action := next_action r;
     completed := completed r; selected_tool := selected_tool r;
     question_number := question_number r; total_score := total_score r;
     severity_level := severity_level r;
     crisis_trigger := Some v |}.
End Reply.

(* ===================================================================== *)
(** ** Conversation flow ([conversation_flow.py]) *)
(* ===================================================================== *)

Record ConversationFlowManager : Type := {
  safety_monitor : SafetyMonitor;
  config : BotConfig
}.

(** [self.tool_mapping] *)
Definition tool_mapping : dict ScreeningTool :=
  [("PHQ9", PHQ9); ("GAD7", GAD7); ("GHQ12", GHQ12)].

(** The tool that the triage handler selects for a routing key. *)
Definition routed_tool (name : string) : ScreeningTool :=
  or_default (dict_get name tool_mapping) GHQ12.

(** The local variable [session] of the handlers is a reference to the
    object the store holds. [deref] reads that object: the store's entry
    while the object is stored, else the object as this call last saw it.
    The handlers re-read after every store operation whose effect they
    observe later. *)
Definition deref (session_id : string) (session : SessionData)
  : M SessionData :=
  d <- get_sessions ;;
  ret (or_default (dict_get session_id d) session).

Definition sorry_message : string :=
  "I'm sorry, I encountered an error. Let's try again.".

(** [ConversationFlowManager._get_error_response] (with a session) *)
Definition _get_error_response (session : SessionData) (error_message : string)
  : Reply.t :=
  Reply.with_error error_message
    (Reply.basic sorry_message (current_phase session) false).

(** The [except Exception as e] clause shared by the phase handlers. *)
Definition on_error (session_id : string) (session : SessionData) (e : Exn)
  : M Reply.t :=
  session' <- deref session_id session ;;
  ret (_get_error_response session' (exn_str e)).

Definition greeting_retry_message : string :=
  "I didn't quite catch that. Would you like to continue? Please say 'yes' or 'no'.".

(** [ConversationFlowManager._handle_greeting_phase] *)
Definition _handle_greeting_phase (fm : ConversationFlowManager)
    (session_id user_message : string) (session : SessionData) : M Reply.t :=
  try_catch
    (let intro_config := intro (config fm) in
     let welcome_msg := welcome intro_config in
     match conversation_history session with
     | [] =>
         let ai_response := welcome_msg in
         add_conversation session_id user_message ai_response
           (phase_value GREETING) ;;;
         ret (Reply.with_next_action "wait_for_intro_response"
                (Reply.basic ai_response GREETING false))
     | _ :: _ =>
         let user_text_lower := strip (lower user_message) in
         if any_in user_text_lower (yesKeywords intro_config) then
           let mood_prompt := prompt (moodSelection (config fm)) in
           update_session session_id
             [("current_phase", PyStr (phase_value TRIAGE))] ;;;
           add_conversation session_id user_message mood_prompt
             (phase_value TRIAGE) ;;;
           ret (Reply.with_next_action "get_mood"
                  (Reply.basic mood_prompt TRIAGE false))
         else if any_in user_text_lower (noKeywords intro_config) then
           let exit_msg := or_default (exitResponse intro_config) "" in
           add_conversation session_id user_message exit_msg
             (phase_value GREETING) ;;;
           ret (Reply.with_completed true
                  (Reply.basic exit_msg GREETING false))
         else
           let retry_msg := greeting_retry_message in
           add_conversation session_id user_message retry_msg
             (phase_value GREETING) ;;;
           ret (Reply.basic retry_msg GREETING false)
     end)
    (on_error session_id session).

(** The routing loop of the triage handler: the first tool, in the order of
    the ["routing"] object, one of whose keywords occurs in the text. *)
Fixpoint route (user_text_lower : string) (routing : dict (list string))
  : option string :=
  match routing with
  | [] => None
  | (tool_name, keywords) :: rest =>
      if any_in user_text_lower keywords then Some tool_name
      else route user_text_lower rest
  end.

Definition triage_retry_message : string :=
  "Could you tell me if you are feeling more sad, anxious, or just generally stressed?".

Definition triage_transition_prefix : string :=
  "I understand. Let's talk a bit more about that. ".

(** [questions[i]] *)
Definition list_item {A : Type} (l : list A) (i : nat) : M A :=
  match nth_error l i with
  | Some x => ret x
  | None => raise (IndexError "list index out of range")
  end.

(** [ConversationFlowManager._handle_triage_phase] *)
Definition _handle_triage_phase (fm : ConversationFlowManager)
    (session_id user_message : string) (session : SessionData) : M Reply.t :=
  try_catch
    (let user_text_lower := lower user_message in
     let routing := routing (moodSelection (config fm)) in
     let selected_tool_name := route user_text_lower routing in
     (* [not selected_tool_name]: [None] or the empty string *)
     if is_empty (or_default selected_tool_name "") then
       let retry_msg := triage_retry_message in
       add_conversation session_id user_message retry_msg
         (phase_value TRIAGE) ;;;
       ret (Reply.basic retry_msg TRIAGE false)
     else
       let selected_tool_name := or_default selected_tool_name "" in
       let '(tool_enum, selected_tool_name) :=
         match dict_get selected_tool_name tool_mapping with
         | Some tool => (tool, selected_tool_name)
         | None => (GHQ12, "GHQ12")
         end in
       update_session session_id
         [("selected_tool", PyStr (tool_name_of tool_enum));
          ("current_phase", PyStr (phase_value SCREENING));
          ("responses", PyEmptyDict)] ;;;
       let questions := questions (questionnaire_of (config fm)
                                     selected_tool_name) in
       first_q <- list_item questions 0 ;;
       let transition_msg := triage_transition_prefix ++ first_q in
       add_conversation session_id user_message transition_msg
         (phase_value SCREENING) ;;;
       ret (Reply.with_question_number 1
              (Reply.with_selected_tool (tool_name_of tool_enum)
                 (Reply.basic transition_msg SCREENING false))))
    (on_error session_id session).

(** The loop [for score_val in ["3", "2", "1", "0"]] of
    [_map_response_to_score]. *)
Fixpoint first_score (text : string) (scale : dict (list string))
    (score_vals : list (string * Z)) : Z :=
  match score_vals with
  | [] => -1
  | (score_val, n) :: rest =>
      let keywords := or_default (dict_get score_val scale) [] in
      if any_in text keywords then n else first_score text scale rest
  end.

(** [ConversationFlowManager._map_response_to_score] *)
Definition _map_response_to_score (fm : ConversationFlowManager)
    (user_text tool_name : string) : M Z :=
  let text := lower user_text in
  let mapping_config := answerMapping (config fm) in
  let scale := if String.eqb tool_name "GHQ12" then ghqScale mapping_config
               else standardScale mapping_config in
  match scale with
  | Some scale =>
      ret (first_score text scale [("3", 3); ("2", 2); ("1", 1); ("0", 0)])
  | None =>
      raise (AttributeError "'NoneType' object has no attribute 'get'")
  end.

(** The severity loop of [_transition_to_results]. *)
Fixpoint find_severity (total_score : Z) (thresholds : dict (Z * Z))
    (default : string) : string :=
  match thresholds with
  | [] => default
  | (sev_name, (lo, hi)) :: rest =>
      if (lo <=? total_score) && (total_score <=? hi) then sev_name
      else find_severity total_score rest default
  end.

Definition newline : string := String (ascii_of_nat 10) EmptyString.

(** [ConversationFlowManager._handle_unknown_phase] *)
Definition _handle_unknown_phase (fm : ConversationFlowManager)
    (session_id user_message : string) : M Reply.t :=
  update_session session_id
    [("current_phase", PyStr (phase_value GREETING))] ;;;
  let msg := "Let's start over. " ++ welcome (intro (config fm)) in
  add_conversation session_id user_message msg (phase_value GREETING) ;;;
  ret (Reply.basic msg GREETING false).

(** [ConversationFlowManager._transition_to_results] *)
Definition _transition_to_results (fm : ConversationFlowManager)
    (session_id user_message : string) (session : SessionData) : M Reply.t :=
  try_catch
    (update_session session_id
       [("current_phase", PyStr (phase_value RESULTS));
        ("completed", PyBool true)] ;;;
     session <- deref session_id session ;;
     let total_score := get_total_score session in
     match selected_tool session with
     | None =>
         raise (AttributeError "'NoneType' object has no attribute 'name'")
     | Some tool =>
         let tool_name := tool_name_of tool in
         let thresholds := thresholds (questionnaire_of (config fm)
                                         tool_name) in
         let severity := find_severity total_score thresholds "minimal" in
         let severity :=
           if String.eqb severity "normal" then "minimal" else severity in
         let result_config := result_of (config fm) severity in
         let '(result_config, severity) :=
           if result_is_empty result_config then
             if String.eqb severity "moderately_severe" then
               (result_of (config fm) "severe", "severe")
             else (result_of (config fm) "moderate", severity)
           else (result_config, severity) in
         let msg := or_default (result_message result_config) "" in
         let suggestions := or_default (suggestions result_config) [] in
         sugg_text <-
           match suggestions with
           | [] => ret ""
           | _ :: _ =>
               choice <- random_choice suggestions ;;
               ret (newline ++ newline ++ "Suggestion: " ++ choice)
           end ;;
         let full_response := msg ++ sugg_text in
         add_conversation session_id user_message full_response
           (phase_value RESULTS) ;;;
         ret (Reply.with_completed true
                (Reply.with_severity_level severity
                   (Reply.with_total_score total_score
                      (Reply.basic full_response RESULTS false))))
     end)
    (on_error session_id session).

(** [ConversationFlowManager._handle_crisis_response] *)
Definition _handle_crisis_response (session_id user_message : string)
    (crisis_response : CrisisResponse) : M Reply.t :=
  try_catch
    (update_session session_id
       [("crisis_detected", PyBool true);
        ("current_phase", PyStr (phase_value CRISIS_RESPONSE))] ;;;
     let crisis_message := message crisis_response in
     add_conversation session_id user_message crisis_message
       (phase_value CRISIS_RESPONSE) ;;;
     ret (Reply.with_next_action "stop"
            (Reply.basic crisis_message CRISIS_RESPONSE true)))
    (fun e => ret (Reply.with_error (exn_str e) Reply.empty)).

(** [ConversationFlowManager._handle_phq9_q9_crisis] *)
Definition _handle_phq9_q9_crisis (fm : ConversationFlowManager)
    (session_id user_message : string) (score : Z) : M Reply.t :=
  try_catch
    (update_session session_id
       [("crisis_detected", PyBool true);
        ("current_phase", PyStr (phase_value CRISIS_RESPONSE))] ;;;
     add_response session_id "phq9_9" user_message score ;;;
     let crisis_message := _get_crisis_message (safety_monitor fm) in
     add_conversation session_id user_message crisis_message
       (phase_value CRISIS_RESPONSE) ;;;
     ret (Reply.with_crisis_trigger "PHQ9_Q9"
            (Reply.basic crisis_message CRISIS_RESPONSE true)))
    (fun e => ret (Reply.with_error (exn_str e) Reply.empty)).

(** [str(n)] for a natural number. *)
Definition str_of_nat (n : nat) : string :=
  NilZero.string_of_uint (Nat.to_uint n).

(** The tail of [_handle_screening_phase], from the comment "Save
    response" on: it runs when the crisis check of question 9 does not
    return. *)
Definition screening_save_response (fm : ConversationFlowManager)
    (session_id user_message : string) (session : SessionData)
    (tool_name : string) (questions : list string) (current_idx : nat)
    (score : Z) : M Reply.t :=
  let qid := lower tool_name ++ "_" ++ str_of_nat (current_idx + 1) in
  add_response session_id qid user_message score ;;;
  session <- deref session_id session ;;
  let next_idx := (current_idx + 1)%nat in
  if (next_idx <? length questions)%nat then
    next_q <- list_item questions next_idx ;;
    add_conversation session_id user_message next_q
      (phase_value SCREENING) ;;;
    ret (Reply.with_question_number (Z.of_nat next_idx + 1)
           (Reply.basic next_q SCREENING false))
  else
    _transition_to_results fm session_id user_message session.

(** [ConversationFlowManager._handle_screening_phase] *)
Definition _handle_screening_phase (fm : ConversationFlowManager)
    (session_id user_message : string) (session : SessionData) : M Reply.t :=
  try_catch
    (match selected_tool session with
     | None => _handle_unknown_phase fm session_id user_message
     | Some tool =>
         let tool_name := tool_name_of tool in
         let questions := questions (questionnaire_of (config fm) tool_name) in
         let current_idx := length (responses session) in
         score <- _map_response_to_score fm user_message tool_name ;;
         if score =? -1 then
           let clarify_msg :=
             or_default (clarifyPrompt (answerMapping (config fm)))
                        "Could you clarify?" in
           add_conversation session_id user_message clarify_msg
             (phase_value SCREENING) ;;;
           ret (Reply.basic clarify_msg SCREENING false)
         else
           let crisis_idx :=
             crisisQuestionIndex (questionnaire_of (config fm) tool_name) in
           let save_response :=
             screening_save_response fm session_id user_message session
               tool_name questions current_idx score in
           if String.eqb tool_name "PHQ9"
              && match crisis_idx with
                 | Some idx => Z.of_nat current_idx =? idx
                 | None => false
                 end
           then
             if score >? 0 then
               _handle_phq9_q9_crisis fm session_id user_message score
             else save_response
           else save_response
     end)
    (on_error session_id session).

Definition session_not_found : Reply.t :=
  {| Reply.error := Some "Session not found or expired";
     Reply.ai_response := None; Reply.current_phase := None;
     Reply.crisis_detected := Some false; Reply.next_action := None;
     Reply.completed := None; Reply.selected_tool := None;
     Reply.question_number := None; Reply.total_score := None;
     Reply.severity_level := None; Reply.crisis_trigger := None |}.

(** [ConversationFlowManager.process_user_message]. The lookup of the
    session stands before the [try] here: it raises nothing, and the
    [except] clause of the source reads the variable it binds. *)
Definition process_user_message (fm : ConversationFlowManager)
    (session_id user_message : string) : M Reply.t :=
  session <- get_session session_id ;;
  match session with
  | None => ret session_not_found
  | Some session =>
      try_catch
        (crisis_response <- check_for_crisis (safety_monitor fm)
                              (PyStr user_message) ;;
         if requires_override crisis_response then
           _handle_crisis_response session_id user_message crisis_response
         else
           let current_phase := current_phase session in
           if crisis_detected session then
             ret (Reply.with_next_action "stop"
                    (Reply.basic (_get_crisis_message (safety_monitor fm))
                                 CRISIS_RESPONSE true))
           else
             match current_phase with
             | GREETING =>
                 _handle_greeting_phase fm session_id user_message session
             | TRIAGE =>
                 _handle_triage_phase fm session_id user_message session
             | SCREENING =>
                 _handle_screening_phase fm session_id user_message session
             | RESULTS =>
                 ret (Reply.basic
                        (or_default (exitResponse (intro (config fm)))
                                    "Take care.")
                        RESULTS false)
             | CRISIS_RESPONSE =>
                 ret (Reply.basic (_get_crisis_message (safety_monitor fm))
                                  CRISIS_RESPONSE true)
             end)
        (fun e =>
           session' <- deref session_id session ;;
           ret (Reply.with_error
                  ("Failed to process message: " ++ exn_str e)
                  (_get_error_response session' "")))
  end.

(* ===================================================================== *)
(** ** Vocabulary of the statements *)
(* ===================================================================== *)

(** The world [w] with its table replaced by [d] and [n] clock readings
    consumed. *)
Definition world_at (w : World) (d : dict SessionData) (n : nat) : World :=
  {| timeout_minutes := timeout_minutes w; max_sessions := max_sessions w;
     sessions := d;
     clock := clock w; ticks := n;
     uuid4 := uuid4 w; draws := draws w;
     rng := rng w; rolls := rolls w |}.

(** The net effect of the loop of [update_session] on the object, when no
    step raises. *)
Fixpoint updates_result (updates : dict PyVal) (s : SessionData)
  : Res SessionData :=
  match updates with
  | [] => Ok s
  | (field, value) :: rest =>
      if str_mem field allowed_fields then
        match coerce_update field value with
        | Ok value' =>
            match setattr s field value' with
            | Ok s' => updates_result rest s'
            | other => other
            end
        | Raise e => Raise e
        | NoReturn => NoReturn
        end
      else updates_result rest s
  end.

(** The session [s] is not expired at the reading [t] of the clock. *)
Definition live_at (w : World) (t : Z) (s : SessionData) : Prop :=
  t <= last_activity s + timedelta_minutes (timeout_minutes w).

(** Among the next [n] readings of the clock, none is more than the timeout
    later than the reading before it or the one before that: a session
    touched during these readings does not expire between two store
    operations of the same call. *)
Definition calm (w : World) (n : nat) : Prop :=
  forall i j, (ticks w <= i)%nat -> (i <= j)%nat -> (j <= i + 2)%nat ->
    (j < ticks w + n)%nat ->
    clock w j <= clock w i + timedelta_minutes (timeout_minutes w).

(** The stored keys are pairwise distinct, as in a Python dict. *)
Definition well_keyed (w : World) : Prop := NoDup (dict_keys (sessions w)).

(** The level the detector assigns to [text] when called in world [w]. *)
Definition detector_level (sm : SafetyMonitor) (text : PyVal) (w : World)
  : option CrisisLevel :=
  match fst (check_for_crisis sm text w) with
  | Ok r => Some (level r)
  | _ => None
  end.

(** The reply of the crisis override. *)
Definition crisis_stop_reply (fm : ConversationFlowManager) : Reply.t :=
  Reply.with_next_action "stop"
    (Reply.basic (crisis_response_message (safety_monitor fm))
                 CRISIS_RESPONSE true).

(** The history entry written by the crisis override. *)
Definition crisis_entry (fm : ConversationFlowManager) (user_message : string)
    (t : Z) : ConversationEntry :=
  {| user_message := user_message;
     ai_response := crisis_response_message (safety_monitor fm);
     phase := "CRISIS_RESPONSE";
     entry_timestamp := t |}.

(* ===================================================================== *)
(** ** A small configuration and sample worlds *)
(* ===================================================================== *)

(** The configuration file of the repository is not part of the modelled
    sources; the statements below quantify over every configuration. This
    one, of the same shape, serves to run the model on concrete inputs. *)

Definition demo_monitor : SafetyMonitor :=
  {| critical_triggers := ["suicide"; "kill myself"; "end it all"];
     crisis_response_message :=
       "Please call your local emergency number now." |}.

Definition demo_scale : dict (list string) :=
  [("0", ["not at all"; "never"]);
   ("1", ["several days"; "sometimes"]);
   ("2", ["more than half"; "often"]);
   ("3", ["nearly every day"; "always"])].

Definition demo_config : BotConfig :=
  {| intro := {| welcome := "Welcome. Shall we begin?";
                 yesKeywords := ["yes"; "sure"];
                 noKeywords := ["no"];
                 exitResponse := Some "Take care of yourself." |};
     moodSelection :=
       {| prompt := "How have you been feeling?";
          routing := [("PHQ9", ["sad"; "down"]);
                      ("GAD7", ["anxious"; "worried"]);
                      ("GHQ12", ["stressed"])] |};
     questionnaires :=
       [("PHQ9",
         {| questions := ["Little interest?"; "Feeling down?";
                          "Thoughts of self-harm?"];
            crisisQuestionIndex := Some 2;
            thresholds := [("minimal", (0, 2)); ("mild", (3, 5));
                           ("severe", (6, 9))] |});
        ("GAD7",
         {| questions := ["Feeling nervous?"; "Unable to stop worrying?"];
            crisisQuestionIndex := Some 1;
            thresholds := [("mild", (3, 4)); ("moderate", (5, 6))] |});
        ("GHQ12",
         {| questions := ["Able to concentrate?"];
            crisisQuestionIndex := None;
            thresholds := [("normal", (0, 1));
                           ("moderately_severe", (2, 3))] |})];
     answerMapping := {| standardScale := Some demo_scale;
                         ghqScale := Some demo_scale;
                         clarifyPrompt := None |};
     results :=
       [("minimal", {| result_message := Some "You seem fine.";
                       suggestions := Some ["Keep it up"; "Stay active"] |});
        ("mild", {| result_message := Some "Mild."; suggestions := None |});
        ("moderate", {| result_message := Some "Moderate.";
                        suggestions := None |});
        ("severe", {| result_message := Some "Severe.";
                      suggestions := Some ["Seek help"] |})] |}.

Definition demo_flow : ConversationFlowManager :=
  {| safety_monitor := demo_monitor; config := demo_config |}.

(** A clock that advances one second per reading. *)
Definition demo_clock (k : nat) : Z := 1000000 * Z.of_nat k.

Definition demo_uuid (k : nat) : string := "id" ++ str_of_nat k.

(** A manager with a 30 minute timeout and room for two sessions. *)
Definition demo_world : World :=
  SessionManager_init (Some 30) (Some 2) 30 1000
    demo_clock demo_uuid (fun k => k).

Definition demo_session (ph : ConversationPhase)
    (tool : option ScreeningTool) (rs : list QuestionResponse)
    (hist : list ConversationEntry) : SessionData :=
  {| session_id := "id0"; user_name := None; country := None;
     start_time := 0; last_activity := 0;
     current_phase := ph; selected_tool := tool;
     responses := rs; has_past_diagnosis := None;
     crisis_detected := false; completed := false;
     conversation_history := hist |}.

Definition demo_response (qid text : string) (score : Z) : QuestionResponse :=
  {| question_id := qid; user_text := text; mapped_score := score;
     timestamp := 0 |}.

Definition demo_entry : ConversationEntry :=
  {| user_message := "hello"; ai_response := "Welcome. Shall we begin?";
     phase := "GREETING"; entry_timestamp := 0 |}.

(** [demo_world] holding one session under the key ["id0"]. *)
Definition demo_world_with (s : SessionData) : World :=
  with_sessions [("id0", s)] demo_world.

(** A session in the middle of the PHQ9 questionnaire. *)
Definition mid_screening : SessionData :=
  demo_session SCREENING (Some PHQ9)
    [demo_response "phq9_1" "sometimes" 1] [demo_entry].

(** Successive [process_user_message] calls for one session, as the API
    layer issues them for a conversation. *)
Fixpoint converse (fm : ConversationFlowManager) (session_id : string)
    (messages : list string) : M (list Reply.t) :=
  match messages with
  | [] => ret []
  | user_message :: rest =>
      reply <- process_user_message fm session_id user_message ;;
      replies <- converse fm session_id rest ;;
      ret (reply :: replies)
  end.

(** A reply that shows the crisis message in phase CRISIS_RESPONSE. *)
Definition is_crisis_reply (fm : ConversationFlowManager) (r : Reply.t)
  : Prop :=
  Reply.ai_response r = Some (crisis_response_message (safety_monitor fm))
  /\ Reply.current_phase r = Some "CRISIS_RESPONSE"
  /\ Reply.crisis_detected r = Some true
  /\ Reply.error r = None.

(** What a session in crisis keeps across a call: the flag, and everything
    the phase handlers would write. *)
Definition crisis_frozen (s s' : SessionData) : Prop :=
  crisis_detected s' = true
  /\ responses s' = responses s
  /\ selected_tool s' = selected_tool s
  /\ completed s' = completed s.

(** A session in crisis. *)
Definition in_crisis : SessionData :=
  set_crisis_detected true (set_current_phase CRISIS_RESPONSE mid_screening).

(** The keys that a sweep starting at reading [n] of the clock finds
    expired: the [i]-th stored session is tested at reading [n + i]. *)
Fixpoint expired_ids (clock : nat -> Z) (timeout_minutes : Z) (n : nat)
    (items : dict SessionData) : list string :=
  match items with
  | [] => []
  | (session_id, session) :: rest =>
      if is_expired_at (clock n) timeout_minutes session
      then session_id :: expired_ids clock timeout_minutes (S n) rest
      else expired_ids clock timeout_minutes (S n) rest
  end.

(** [d] after [del d[k]] for every [k] of [ids]. *)
Definition dict_del_all {V : Type} (ids : list string) (d : dict V) : dict V :=
  fold_left (fun acc k => dict_del k acc) ids d.

(** A session that was last active an hour before the first reading of a
    clock that starts at two hours. *)
Definition late_clock (k : nat) : Z := 7200000000 + 1000000 * Z.of_nat k.

Definition stale_session : SessionData :=
  set_last_activity 3600000000 mid_screening.

Definition fresh_session : SessionData :=
  set_last_activity 7000000000 mid_screening.

Definition late_world (d : dict SessionData) : World :=
  with_sessions d
    (SessionManager_init (Some 30) (Some 2) 30 1000
       late_clock demo_uuid (fun k => k)).

(** The operations of the store, as a client may issue them. The sweep of
    the background thread is an [OpCleanup] at the point where it takes the
    lock. *)
Inductive StoreOp : Type :=
| OpCreate (fuel : nat) (user_name country : option string)
| OpGet (session_id : string)
| OpUpdate (session_id : string) (updates : dict PyVal)
| OpAddResponse (session_id question_id user_text : string) (mapped_score : Z)
| OpAddConversation (session_id user_message ai_response phase : string)
| OpDelete (session_id : string)
| OpCleanup.

(** The world after one operation, whatever it returned or raised. *)
Definition run_op (op : StoreOp) (w : World) : World :=
  match op with
  | OpCreate fuel user_name country =>
      snd (create_session fuel user_name country w)
  | OpGet session_id => snd (get_session session_id w)
  | OpUpdate session_id updates => snd (update_session session_id updates w)
  | OpAddResponse session_id question_id user_text mapped_score =>
      snd (add_response session_id question_id user_text mapped_score w)
  | OpAddConversation session_id user_message ai_response phase =>
      snd (add_conversation session_id user_message ai_response phase w)
  | OpDelete session_id => snd (delete_session session_id w)
  | OpCleanup => snd (cleanup_expired_sessions w)
  end.

Definition run_ops (ops : list StoreOp) (w : World) : World :=
  fold_left (fun acc op => run_op op acc) ops w.

(** The store holds at most [max_sessions] sessions, under distinct keys. *)
Definition within_capacity (w : World) : Prop :=
  well_keyed w /\ Z.of_nat (length (sessions w)) <= max_sessions w.

(** The object that [create_session] stores for a new session. *)
Definition initial_session (session_id : string)
    (user_name country : option string) (t_start t_last : Z) : SessionData :=
  {| session_id := session_id; user_name := user_name; country := country;
     start_time := t_start; last_activity := t_last;
     current_phase := GREETING; selected_tool := None;
     responses := []; has_past_diagnosis := None;
     crisis_detected := false; completed := false;
     conversation_history := [] |}.

(** No stored session was active before [s]. *)
Definition oldest_in (d : dict SessionData) (s : SessionData) : Prop :=
  forall k s', dict_get k d = Some s' -> last_activity s <= last_activity s'.

(** One of the first [fuel + 1] identifiers drawn in [w] is not a key of
    the table. *)
Definition fresh_draw_within (fuel : nat) (w : World) : Prop :=
  exists k, (k <= fuel)%nat
            /\ dict_get (uuid4 w (draws w + k)) (sessions w) = None.

(** A full store of two live sessions, ["b"] the less recently active, at
    a time when neither is expired. *)
Definition full_world : World :=
  late_world [("a", set_last_activity 7100000000 mid_screening);
              ("b", set_last_activity 7000000000 mid_screening)].

(** [w'] has the capacity of [w], no more sessions, and distinct keys if
    [w] has. *)
Definition narrows (w w' : World) : Prop :=
  max_sessions w' = max_sessions w
  /\ (length (sessions w') <= length (sessions w))%nat
  /\ (well_keyed w -> well_keyed w').

(** [sub] occurs in [s]: [s] is a prefix, then [sub], then a suffix. *)
Definition occurs_in (sub s : string) : Prop :=
  exists pre post, s = pre ++ sub ++ post.

(** The response of the detector when nothing is found. *)
Definition is_none_response (r : CrisisResponse) : Prop :=
  level r = NONE /\ triggered_words r = [] /\ message r = ""
  /\ requires_override r = false.

(** The handler that [process_user_message] selects for a session that is
    not in crisis. *)
Definition phase_handler (fm : ConversationFlowManager)
    (session_id user_message : string) (session : SessionData) : M Reply.t :=
  match current_phase session with
  | GREETING => _handle_greeting_phase fm session_id user_message session
  | TRIAGE => _handle_triage_phase fm session_id user_message session
  | SCREENING => _handle_screening_phase fm session_id user_message session
  | RESULTS =>
      ret (Reply.basic
             (or_default (exitResponse (intro (config fm))) "Take care.")
             RESULTS false)
  | CRISIS_RESPONSE =>
      ret (Reply.basic (_get_crisis_message (safety_monitor fm))
                       CRISIS_RESPONSE true)
  end.

(** A session in TRIAGE that still carries an answer of an earlier
    questionnaire. *)
Definition triage_with_stale_response : SessionData :=
  demo_session TRIAGE None [demo_response "gad7_1" "often" 2] [demo_entry].

(** The first band, in the order of the thresholds, whose inclusive range
    contains the total. *)
Definition band_of (total : Z) (thresholds : dict (Z * Z)) : option string :=
  option_map fst
    (find (fun band => (fst (snd band) <=? total) && (total <=? snd (snd band)))
          thresholds).

(** The severity that the specification announces: the first matching band,
    and ["moderate"] when no band matches. *)
Definition severity_as_claimed (cfg : BotConfig) (total : Z)
    (thresholds : dict (Z * Z)) : string :=
  or_default (band_of total thresholds) "moderate".

(** The severity that the results step reports: the first matching band,
    with ["normal"] reported as ["minimal"], and ["moderately_severe"]
    reported as ["severe"] when the results table has no entry for it;
    ["minimal"] when no band matches. *)
Definition severity_reported (cfg : BotConfig) (total : Z)
    (thresholds : dict (Z * Z)) : string :=
  match band_of total thresholds with
  | None => "minimal"
  | Some band =>
      if String.eqb band "normal" then "minimal"
      else if String.eqb band "moderately_severe"
              && result_is_empty (result_of cfg band)
      then "severe"
      else band
  end.

(** The answer [score], given as the next response of [s], is one that the
    screening handler hands to the PHQ9 question 9 crisis path. *)
Definition is_phq9_crisis_answer (fm : ConversationFlowManager)
    (s : SessionData) (tool : ScreeningTool) (score : Z) : Prop :=
  tool = PHQ9
  /\ crisisQuestionIndex (questionnaire_of (config fm) "PHQ9")
     = Some (Z.of_nat (length (responses s)))
  /\ score > 0.

(** The setting shared by the statements on the screening phase: a live
    session in SCREENING on [tool], not in crisis, a message that is not
    critical and that the answer scale of the tool maps to [score]. *)
Definition screening_answer (fm : ConversationFlowManager)
    (id msg : string) (w : World) (s : SessionData) (tool : ScreeningTool)
    (score : Z) : Prop :=
  dict_get id (sessions w) = Some s
  /\ live_at w (clock w (ticks w)) s
  /\ calm w 14
  /\ detector_level (safety_monitor fm) (PyStr msg) w <> Some CRITICAL
  /\ crisis_detected s = false
  /\ current_phase s = SCREENING
  /\ selected_tool s = Some tool
  /\ fst (_map_response_to_score fm msg (tool_name_of tool) w) = Ok score
  /\ score <> -1.

(** C6 for the tool [tool]: answering the question at the crisis question
    index of the tool with a positive score records the response, sets the
    flag and moves the session to CRISIS_RESPONSE. *)
Definition crisis_question_routes (fm : ConversationFlowManager)
    (id msg : string) (w : World) (s : SessionData) (tool : ScreeningTool)
  : Prop :=
  forall score,
    screening_answer fm id msg w s tool score ->
    crisisQuestionIndex (questionnaire_of (config fm) (tool_name_of tool))
    = Some (Z.of_nat (length (responses s))) ->
    score > 0 ->
    exists r w' s' resp,
      process_user_message fm id msg w = (Ok r, w')
      /\ dict_get id (sessions w') = Some s'
      /\ responses s' = (responses s ++ [resp])%list
      /\ user_text resp = msg
      /\ mapped_score resp = score
      /\ crisis_detected s' = true
      /\ current_phase s' = CRISIS_RESPONSE
      /\ Reply.current_phase r = Some "CRISIS_RESPONSE"
      /\ Reply.crisis_detected r = Some true.

(** C7 with the severity rule [severity_of] and the side condition
    [regular] on the answer: answering the last question of the tool moves
    the session to RESULTS with [completed], and the reply carries the sum
    of the recorded scores and the severity given by [severity_of]. *)
Definition final_answer_scores
    (severity_of : BotConfig -> Z -> dict (Z * Z) -> string)
    (regular : SessionData -> ScreeningTool -> Z -> Prop)
    (fm : ConversationFlowManager) (id msg : string) (w : World)
    (s : SessionData) (tool : ScreeningTool) : Prop :=
  forall score,
    screening_answer fm id msg w s tool score ->
    S (length (responses s))
    = length (questions (questionnaire_of (config fm) (tool_name_of tool))) ->
    regular s tool score ->
    exists r w' s',
      process_user_message fm id msg w = (Ok r, w')
      /\ dict_get id (sessions w') = Some s'
      /\ current_phase s' = RESULTS
      /\ completed s' = true
      /\ Reply.error r = None
      /\ Reply.current_phase r = Some "RESULTS"
      /\ Reply.completed r = Some true
      /\ get_total_score s' = get_total_score s + score
      /\ Reply.total_score r = Some (get_total_score s')
      /\ Reply.severity_level r
         = Some (severity_of (config fm) (get_total_score s')
                   (thresholds (questionnaire_of (config fm)
                                  (tool_name_of tool)))).

(** A session on the last question of GAD7, which the sample configuration
    gives crisis question index 1, with one answer of score 1 recorded. *)
Definition gad7_last_question : SessionData :=
  demo_session SCREENING (Some GAD7)
    [demo_response "gad7_1" "sometimes" 1] [demo_entry].

(** A session on the last question of PHQ9, the crisis question of the
    sample configuration. *)
Definition phq9_last_question : SessionData :=
  demo_session SCREENING (Some PHQ9)
    [demo_response "phq9_1" "sometimes" 1;
     demo_response "phq9_2" "often" 2] [demo_entry].

(** The number of questions of a tool in the configuration. *)
Definition question_count (fm : ConversationFlowManager)
    (tool : ScreeningTool) : nat :=
  length (questions (questionnaire_of (config fm) (tool_name_of tool))).

(** Every tool that the routing table can select has a first question: the
    property of the configuration that the triage step relies on when it
    emits question 1 of the selected tool. The empty configuration, which
    the loader returns when the file is missing, has it. *)
Definition has_questions (fm : ConversationFlowManager) : Prop :=
  forall name keywords,
    In (name, keywords) (routing (moodSelection (config fm))) ->
    (1 <= question_count fm (routed_tool name))%nat.



(** What the API layer does to the store on behalf of a conversation:
    start a session, pass a message to the flow, read a session, delete
    one, sweep (also the sweep of the background thread). Writing responses
    into a session directly through the store, as the score endpoint of
    [app.py] does, is not one of them. *)
Inductive FlowOp : Type :=
| FlowStart (fuel : nat) (user_name country : option string)
| FlowMessage (session_id user_message : string)
| FlowGet (session_id : string)
| FlowDelete (session_id : string)
| FlowCleanup.

Definition run_flow_op (fm : ConversationFlowManager) (op : FlowOp)
    (w : World) : World :=
  match op with
  | FlowStart fuel user_name country =>
      snd (create_session fuel user_name country w)
  | FlowMessage session_id user_message =>
      snd (process_user_message fm session_id user_message w)
  | FlowGet session_id => snd (get_session session_id w)
  | FlowDelete session_id => snd (delete_session session_id w)
  | FlowCleanup => snd (cleanup_expired_sessions w)
  end.

Definition run_flow (fm : ConversationFlowManager) (ops : list FlowOp)
    (w : World) : World :=
  fold_left (fun acc op => run_flow_op fm op acc) ops w.


(** The table [d'] is [d] with the entry of [id] removed, or replaced by a
    session that satisfies [Q]. *)
Definition entry_step (Q : SessionData -> Prop) (id : string)
    (d d' : dict SessionData) : Prop :=
  d' = dict_del id d \/ exists e, d' = dict_set id e d /\ Q e.


(** The configuration that [_load_config] returns when the file is not
    found: the empty object. *)
Definition empty_config : BotConfig :=
  {| intro := {| welcome := ""; yesKeywords := []; noKeywords := [];
                 exitResponse := None |};
     moodSelection := {| prompt := ""; routing := [] |};
     questionnaires := [];
     answerMapping := {| standardScale := None; ghqScale := None;
                         clarifyPrompt := None |};
     results := [] |}.

(** The sample configuration with the questionnaires left out: the routing
    table still selects PHQ9, which now has no question. *)
Definition dangling_config : BotConfig :=
  {| intro := intro demo_config;
     moodSelection := moodSelection demo_config;
     questionnaires := [];
     answerMapping := answerMapping demo_config;
     results := results demo_config |}.

Definition dangling_flow : ConversationFlowManager :=
  {| safety_monitor := demo_monitor; config := dangling_config |}.

(** The setting of an ordinary turn: the session [s] is stored under [id]
    and live, it is not in crisis, the message is not critical, and the
    clock is calm for the next [n] readings. *)
Definition ordinary_turn (fm : ConversationFlowManager) (id msg : string)
    (w : World) (s : SessionData) (n : nat) : Prop :=
  dict_get id (sessions w) = Some s
  /\ live_at w (clock w (ticks w)) s
  /\ calm w n
  /\ detector_level (safety_monitor fm) (PyStr msg) w <> Some CRITICAL
  /\ crisis_detected s = false.

(** The entry that a handler appends to the history of a session. *)
Definition history_entry (um ai : string) (ph : ConversationPhase) (t : Z)
  : ConversationEntry :=
  {| user_message := um; ai_response := ai; phase := phase_value ph;
     entry_timestamp := t |}.

(** A session that has been welcomed and is still in GREETING. *)
Definition welcomed_session : SessionData :=
  demo_session GREETING None [] [demo_entry].

(** No keyword of any routing entry occurs in [text]. *)
Definition no_route (text : string) (routing : dict (list string)) : Prop :=
  forall name keywords,
    In (name, keywords) routing -> any_in text keywords = false.

(** The entry [(name, keywords)] is the first entry of [routing] one of
    whose keywords occurs in [text]. *)
Definition first_route (text : string) (routing : dict (list string))
    (name : string) : Prop :=
  exists before keywords after,
    routing = (before ++ (name, keywords) :: after)%list
    /\ no_route text before
    /\ any_in text keywords = true.

(** A session that has consented and is asked for its mood. *)
Definition triage_session : SessionData :=
  demo_session TRIAGE None [] [demo_entry; demo_entry].

(** The reply of the [except] clause of a phase handler: the apology, the
    phase of the session at that point, and the text of the exception. *)
Definition handler_error_reply (ph : ConversationPhase) (e : Exn) : Reply.t :=
  Reply.with_error (exn_str e) (Reply.basic sorry_message ph false).

(** The scale that [_map_response_to_score] reads for a tool. *)
Definition scale_of (fm : ConversationFlowManager) (tool : ScreeningTool)
  : option (dict (list string)) :=
  match tool with
  | GHQ12 => ghqScale (answerMapping (config fm))
  | _ => standardScale (answerMapping (config fm))
  end.

(** A flow whose configuration has no answer scales. *)
Definition scaleless_flow : ConversationFlowManager :=
  {| safety_monitor := demo_monitor;
     config :=
       {| intro := intro demo_config;
          moodSelection := moodSelection demo_config;
          questionnaires := questionnaires demo_config;
          answerMapping := {| standardScale := None; ghqScale := None;
                              clarifyPrompt := None |};
          results := results demo_config |} |}.

(** A session in SCREENING for which no tool was selected. *)
Definition toolless_screening : SessionData :=
  demo_session SCREENING None [] [demo_entry].

(** A session in RESULTS, after a completed questionnaire. *)
Definition finished_session : SessionData :=
  set_completed true (set_current_phase RESULTS mid_screening).

(** The answers [answers], given one after the other from question number
    [n] (counted from 0) on, are mapped to [scores] by the scale of [tool]:
    none is unclear, none is critical, and none is a positive answer to the
    PHQ9 crisis question. *)
Fixpoint answers_scored (fm : ConversationFlowManager) (tool : ScreeningTool)
    (w : World) (n : nat) (answers : list string) (scores : list Z) : Prop :=
  match answers, scores with
  | [], [] => True
  | a :: answers, c :: scores =>
      fst (_map_response_to_score fm a (tool_name_of tool) w) = Ok c
      /\ c <> -1
      /\ detector_level (safety_monitor fm) (PyStr a) w <> Some CRITICAL
      /\ ~ (tool = PHQ9
            /\ crisisQuestionIndex (questionnaire_of (config fm) "PHQ9")
               = Some (Z.of_nat n)
            /\ c > 0)
      /\ answers_scored fm tool w (S n) answers scores
  | _, _ => False
  end.

(** A session as [create_session] stores it. *)
Definition new_session : SessionData := demo_session GREETING None [] [].

(** The dict returned by [get_session_stats]. *)
Record SessionStats : Type := {
  total_active_sessions : Z;
  completed_sessions : Z;
  crisis_sessions : Z;
  sessions_by_phase : dict Z;
  stats_timeout_minutes : Z;
  stats_max_sessions : Z
}.

(** [sum(1 for s in values if flag(s))] *)
Definition count_if (flag : SessionData -> bool) (values : list SessionData)
  : Z :=
  py_sum (map (fun _ => 1) (filter flag values)).

(** The loop [phases[phase] = phases.get(phase, 0) + 1] of
    [get_session_stats]. *)
Definition count_phases (values : list SessionData) : dict Z :=
  fold_left
    (fun phases session =>
       let phase := phase_value (current_phase session) in
       dict_set phase (or_default (dict_get phase phases) 0 + 1) phases)
    values [].

(** [SessionManager.get_session_stats] *)
Definition get_session_stats : M SessionStats :=
  d <- get_sessions ;;
  tm <- get_timeout_minutes ;;
  mx <- get_max_sessions ;;
  let values := map snd d in
  ret {| total_active_sessions := Z.of_nat (length d);
         completed_sessions := count_if completed values;
         crisis_sessions := count_if crisis_detected values;
         sessions_by_phase := count_phases values;
         stats_timeout_minutes := tm;
         stats_max_sessions := mx |}.

(** [SessionManager.clear_all_sessions] *)
Definition clear_all_sessions : M unit := put_sessions [].

(** The number of sessions of [values] that are in phase [ph]. *)
Definition in_phase (ph : ConversationPhase) (values : list SessionData)
  : Z :=
  Z.of_nat
    (length
       (filter (fun s => String.eqb (phase_value (current_phase s))
                                    (phase_value ph))
               values)).

(** The object after the loop of [update_session], whether the loop ran to
    its end or stopped at a keyword that raised: the keywords before that
    one are written. *)
Fixpoint updates_partial (updates : dict PyVal) (s : SessionData)
  : SessionData :=
  match updates with
  | [] => s
  | (field, value) :: rest =>
      if str_mem field allowed_fields then
        match coerce_update field value with
        | Ok value' =>
            match setattr s field value' with
            | Ok s' => updates_partial rest s'
            | _ => s
            end
        | _ => s
        end
      else updates_partial rest s
  end.

(** The fields of a session that are not in the whitelist of
    [update_session] (the activity stamp apart). *)
Definition same_record (s s' : SessionData) : Prop :=
  session_id s' = session_id s
  /\ start_time s' = start_time s
  /\ responses s' = responses s
  /\ conversation_history s' = conversation_history s.

(** The keywords that the scale lists for a level. *)
Definition level_keywords (scale : dict (list string)) (level : string)
  : list string :=
  or_default (dict_get level scale) [].

(** [k == k.lower()] *)
Definition is_lower (k : string) : bool := String.eqb (lower k) k.

(* ===================================================================== *)
(** ** The HTTP layer ([app.py]) *)
(* ===================================================================== *)

Module Api.

(** The outcome of an endpoint: the response body, or the [HTTPException]
    that leaves it. *)
Inductive HttpResult (A : Type) : Type :=
| Http200 (body : A)
| HTTPException (status_code : Z) (detail : string).

Arguments Http200 {A} body.
Arguments HTTPException {A} status_code detail.

(** One element of [ScoreCalculationRequest.responses]: a dict read with
    [.get] and defaults; an absent key is [None]. Scores are integers. *)
Record ResponseItem : Type := {
  question_id : option string;
  user_text : option string;
  score : option Z
}.

Record ScoreCalculationResponse : Type := {
  session_id : string;
  screening_tool : string;
  total_score : Z;
  severity_level : string;
  recommendations : list string;
  timestamp : Z
}.

End Api.

(** The loop [for response in request.responses] of [calculate_score]; the
    return value of [add_response] is not looked at. *)
Fixpoint add_responses (session_id : string) (items : list Api.ResponseItem)
    (session : SessionData) : M SessionData :=
  match items with
  | [] => ret session
  | response :: rest =>
      add_response session_id
        (or_default (Api.question_id response) "")
        (or_default (Api.user_text response) "")
        (or_default (Api.score response) 0) ;;;
      session <- deref session_id session ;;
      add_responses session_id rest session
  end.

(** The "basic severity determination" of [calculate_score]. *)
Definition basic_severity (screening_tool : string) (total_score : Z)
  : string :=
  if String.eqb screening_tool "PHQ9" then
    if total_score <=? 4 then "minimal"
    else if total_score <=? 9 then "mild"
    else if total_score <=? 14 then "moderate"
    else "severe"
  else if String.eqb screening_tool "GAD7" then
    if total_score <=? 4 then "minimal"
    else if total_score <=? 9 then "mild"
    else if total_score <=? 14 then "moderate"
    else "severe"
  else
    if total_score <=? 11 then "minimal"
    else if total_score <=? 15 then "mild"
    else if total_score <=? 20 then "moderate"
    else "severe".

Definition score_recommendations : list string :=
  ["This is a screening tool and not a diagnostic assessment.";
   "Consider speaking with a mental health professional for further evaluation."].

(** [calculate_score] (POST /api/score/calculate). The [HTTPException] of
    the missing session passes the [except HTTPException: raise] clause;
    every other exception becomes status 500. *)
Definition calculate_score (session_id screening_tool : string)
    (responses : list Api.ResponseItem)
  : M (Api.HttpResult Api.ScoreCalculationResponse) :=
  try_catch
    (session <- get_session session_id ;;
     match session with
     | None =>
         ret (Api.HTTPException 404 "Session not found or expired")
     | Some session =>
         session <- add_responses session_id responses session ;;
         update_session session_id
           [("selected_tool", PyStr screening_tool);
            ("current_phase", PyStr "RESULTS");
            ("completed", PyBool true)] ;;;
         session <- deref session_id session ;;
         let total_score := get_total_score session in
         let severity := basic_severity screening_tool total_score in
         t <- now ;;
         ret (Api.Http200
                {| Api.session_id := session_id;
                   Api.screening_tool := screening_tool;
                   Api.total_score := total_score;
                   Api.severity_level := severity;
                   Api.recommendations := score_recommendations;
                   Api.timestamp := t |})
     end)
    (fun e =>
       ret (Api.HTTPException 500
              ("Failed to calculate score: " ++ exn_str e))).

(** The responses that [calculate_score] appends for the items of a
    request, the first at reading [t] of the clock. *)
Fixpoint item_responses (clock : nat -> Z) (t : nat)
    (items : list Api.ResponseItem) : list QuestionResponse :=
  match items with
  | [] => []
  | response :: rest =>
      {| question_id := or_default (Api.question_id response) "";
         user_text := or_default (Api.user_text response) "";
         mapped_score := or_default (Api.score response) 0;
         timestamp := clock (2 + t)%nat |}
      :: item_responses clock (4 + t) rest
  end.

(** An item with all three keys. *)
Definition demo_item (qid text : string) (score : Z) : Api.ResponseItem :=
  {| Api.question_id := Some qid; Api.user_text := Some text;
     Api.score := Some score |}.

(* ===================================================================== *)
(** ** Emergency resources ([emergency_resources.py]) *)
(* ===================================================================== *)

Module Emergency.

Inductive ResourceType : Type :=
| CRISIS_HELPLINE | EMERGENCY_SERVICES | TEXT_LINE | CHAT_SERVICE
| PROFESSIONAL_REFERRAL.

Record EmergencyContact : Type := {
  name : string;
  number : string;
  description : string;
  country : string;
  resource_type : ResourceType;
  available_24_7 : bool;
  website : option string;
  additional_info : option string
}.

Record CrisisMessageConfig : Type := {
  primary_message : string;
  secondary_message : option string;
  include_contacts : bool;
  include_disclaimer : bool;
  custom_disclaimer : option string
}.

(** The fields of [EmergencyResourceManager] that its methods read and
    write. *)
Record EmergencyResourceManager : Type := {
  contacts : list EmergencyContact;
  crisis_message_config : CrisisMessageConfig;
  fallback_contacts : list EmergencyContact
}.

Definition with_contacts (cs : list EmergencyContact)
    (m : EmergencyResourceManager) : EmergencyResourceManager :=
  {| contacts := cs; crisis_message_config := crisis_message_config m;
     fallback_contacts := fallback_contacts m |}.

(** [add_contact] *)
Definition add_contact (contact : EmergencyContact)
    (m : EmergencyResourceManager) : EmergencyResourceManager :=
  with_contacts (contacts m ++ [contact]) m.

(** [contact.name == name and contact.country == country] *)
Definition same_entry (name' country' : string) (contact : EmergencyContact)
  : bool :=
  String.eqb (name contact) name' && String.eqb (country contact) country'.

(** The loop of [remove_contact] over [enumerate(self.contacts)]: the list
    without the first matching contact, [None] when the loop ends without a
    match. *)
Fixpoint remove_first (name' country' : string)
    (cs : list EmergencyContact) : option (list EmergencyContact) :=
  match cs with
  | [] => None
  | contact :: rest =>
      if same_entry name' country' contact then Some rest
      else match remove_first name' country' rest with
           | Some rest' => Some (contact :: rest')
           | None => None
           end
  end.

(** [remove_contact] *)
Definition remove_contact (name' country' : string)
    (m : EmergencyResourceManager) : bool * EmergencyResourceManager :=
  match remove_first name' country' (contacts m) with
  | Some cs => (true, with_contacts cs m)
  | None => (false, m)
  end.

(** [get_contacts_by_country] *)
Definition get_contacts_by_country (country' : string)
    (m : EmergencyResourceManager) : list EmergencyContact :=
  filter (fun contact => String.eqb (lower (country contact)) (lower country'))
         (contacts m).

(** Truth value of an [Optional[str]]. *)
Definition nonempty (o : option string) : bool :=
  match o with
  | Some (String _ _) => true
  | _ => false
  end.

(** The variable [relevant_contacts] of [generate_crisis_message] at the
    point where the contacts are formatted. *)
Definition relevant_contacts (country' : option string)
    (m : EmergencyResourceManager) : list EmergencyContact :=
  let relevant :=
    if nonempty country'
    then get_contacts_by_country (or_default country' "") m
    else [] in
  match relevant with
  | _ :: _ => relevant
  | [] =>
      match contacts m with
      | _ :: _ => contacts m
      | [] => fallback_contacts m
      end
  end.

(** The bullet U+2022 that opens a contact line, in its UTF-8 encoding,
    and the space after it; the line is only concatenated. *)
Definition bullet : string :=
  String (ascii_of_nat 226)
    (String (ascii_of_nat 128) (String (ascii_of_nat 162) " ")).

(** The f-string of a contact in [generate_crisis_message]. *)
Definition contact_line (contact : EmergencyContact) : string :=
  let line := bullet ++ name contact ++ ": " ++ number contact in
  if nonempty (additional_info contact) then
    line ++ " (" ++ or_default (additional_info contact) "" ++ ")"
  else if available_24_7 contact then line ++ " (available 24/7)"
  else line.

Definition default_disclaimer : string :=
  "This screening tool is not a substitute for professional medical advice, diagnosis, or treatment.".

(** The list [message_parts] of [generate_crisis_message]. *)
Definition message_parts (country' : option string)
    (m : EmergencyResourceManager) : list string :=
  let cfg := crisis_message_config m in
  [primary_message cfg]
  ++ (if include_contacts cfg
      then map contact_line (firstn 4 (relevant_contacts country' m))
      else [])
  ++ (if nonempty (secondary_message cfg)
      then [""; or_default (secondary_message cfg) ""]
      else [])
  ++ (if include_disclaimer cfg
      then [""; if nonempty (custom_disclaimer cfg)
                then or_default (custom_disclaimer cfg) ""
                else default_disclaimer]
      else []).

(** [sep.join(parts)] *)
Fixpoint join (sep : string) (parts : list string) : string :=
  match parts with
  | [] => ""
  | [p] => p
  | p :: rest => p ++ sep ++ join sep rest
  end.

(** [generate_crisis_message] *)
Definition generate_crisis_message (country' : option string)
    (m : EmergencyResourceManager) : string :=
  join newline (message_parts country' m).

End Emergency.

(** A manager with two contacts at the same desk in two spellings of the
    country. *)
Definition demo_contact (n c : string) : Emergency.EmergencyContact :=
  {| Emergency.name := n; Emergency.number := "112";
     Emergency.description := "Helpline"; Emergency.country := c;
     Emergency.resource_type := Emergency.CRISIS_HELPLINE;
     Emergency.available_24_7 := true; Emergency.website := None;
     Emergency.additional_info := None |}.

Definition demo_manager : Emergency.EmergencyResourceManager :=
  {| Emergency.contacts :=
       [demo_contact "Desk" "DE"; demo_contact "Line" "FR";
        demo_contact "Desk" "DE"];
     Emergency.crisis_message_config :=
       {| Emergency.primary_message := "Please reach out:";
          Emergency.secondary_message := None;
          Emergency.include_contacts := true;
          Emergency.include_disclaimer := false;
          Emergency.custom_disclaimer := None |};
     Emergency.fallback_contacts := [demo_contact "Fallback" "US"] |}.

(* ===================================================================== *)
(** ** Regular expressions of the guardrail ([re.search]) *)
(* ===================================================================== *)

(** The patterns of [SafetyMonitor] use literals, alternation, one optional
    character, [\b] and [.*]. [Re.search] decides whether a pattern matches
    somewhere in the text, as [re.search(pattern, text, re.IGNORECASE)]
    does for these patterns; text is a string of code points below 256. *)
Module Re.

Inductive t : Type :=
| Eps
| Chr (c : ascii)
| WordB
| DotStar
| Seq (a b : t)
| Alt (a b : t)
| Opt (a : t).

(** [\w] on a code point below 256: the ASCII letters, digits and the
    underscore, and the letters and numeric characters of Latin-1. *)
Definition is_word (c : ascii) : bool :=
  let n := nat_of_ascii c in
  ((48 <=? n) && (n <=? 57) || (65 <=? n) && (n <=? 90) || (n =? 95)
   || (97 <=? n) && (n <=? 122)
   || (n =? 170) || (n =? 178) || (n =? 179) || (n =? 181) || (n =? 185)
   || (n =? 186) || (188 <=? n) && (n <=? 190)
   || (192 <=? n) && (n <=? 214) || (216 <=? n) && (n <=? 246)
   || (248 <=? n) && (n <=? 255))%nat.

Definition word_before (prev : option ascii) : bool :=
  match prev with Some c => is_word c | None => false end.

Definition word_after (s : string) : bool :=
  match s with String c _ => is_word c | EmptyString => false end.

(** [\b] between the character [prev] and the text [s]. *)
Definition boundary (prev : option ascii) (s : string) : bool :=
  xorb (word_before prev) (word_after s).

(** A literal character under [re.IGNORECASE]. *)
Definition same_char (c a : ascii) : bool :=
  Ascii.eqb (lower_char a) (lower_char c).

Definition newline_char : ascii := ascii_of_nat 10.

(** [.*] followed by [k]: any run of characters other than newline. *)
Fixpoint dot_star (prev : option ascii) (s : string)
    (k : option ascii -> string -> bool) : bool :=
  k prev s
  || match s with
     | String a s' =>
         negb (Ascii.eqb a newline_char) && dot_star (Some a) s' k
     | EmptyString => false
     end.

(** [r] matches a prefix of [s], with [prev] the character before it, and
    [k] accepts what follows. *)
Fixpoint accepts (r : t) (prev : option ascii) (s : string)
    (k : option ascii -> string -> bool) : bool :=
  match r with
  | Eps => k prev s
  | Chr c =>
      match s with
      | String a s' => same_char c a && k (Some a) s'
      | EmptyString => false
      end
  | WordB => boundary prev s && k prev s
  | DotStar => dot_star prev s k
  | Seq a b => accepts a prev s (fun p rest => accepts b p rest k)
  | Alt a b => accepts a prev s k || accepts b prev s k
  | Opt a => accepts a prev s k || k prev s
  end.

Fixpoint search_from (r : t) (prev : option ascii) (s : string) : bool :=
  accepts r prev s (fun _ _ => true)
  || match s with
     | String a s' => search_from r (Some a) s'
     | EmptyString => false
     end.

(** [re.search(r, s, re.IGNORECASE) is not None] *)
Definition search (r : t) (s : string) : bool := search_from r None s.

Fixpoint lit (s : string) : t :=
  match s with
  | EmptyString => Eps
  | String c s' => Seq (Chr c) (lit s')
  end.

(** [(a|b|...)] of literals *)
Definition one_of (first : string) (others : list string) : t :=
  fold_left (fun r s => Alt r (lit s)) others (lit first).

(** [\b r \b] *)
Definition word (r : t) : t := Seq WordB (Seq r WordB).

End Re.

(** [self.phq9_q9_positive_patterns] *)
Definition phq9_q9_positive_patterns : list Re.t :=
  [Re.word (Re.one_of "yes" ["sometimes"; "often"; "nearly every day";
                              "several days"]);
   Re.word (Re.one_of "more than half" ["have thought"; "been thinking"]);
   Re.word (Re.one_of "crossed my mind" ["considered"; "considering";
                                          "thinking about"]);
   Re.Seq
     (Re.word
        (Re.Alt
           (Re.Seq (Re.lit "thought")
              (Re.Seq (Re.Opt (Re.Chr "s")) (Re.lit " of")))
           (Re.Alt (Re.lit "idea of") (Re.lit "wanting to"))))
     (Re.Seq Re.DotStar (Re.word (Re.one_of "die" ["death"; "harm"])))].

(** [self.phq9_q9_negative_patterns] *)
Definition phq9_q9_negative_patterns : list Re.t :=
  [Re.word (Re.one_of "no" ["never"; "not at all"; "haven't"; "don't"]);
   Re.word (Re.one_of "absolutely not" ["definitely not"; "of course not"])].

(** The first loop of [check_phq9_question9]: [true] when it returns
    [False] from inside the loop. *)
Fixpoint denied (patterns : list Re.t) (normalized_response : string)
  : bool :=
  match patterns with
  | [] => false
  | pattern :: rest =>
      if Re.search pattern normalized_response then
        if (String.length normalized_response <? 20)%nat then true
        else denied rest normalized_response
      else denied rest normalized_response
  end.

(** The second loop of [check_phq9_question9]. *)
Fixpoint affirmed (patterns : list Re.t) (normalized_response : string)
  : bool :=
  match patterns with
  | [] => false
  | pattern :: rest =>
      if Re.search pattern normalized_response then true
      else affirmed rest normalized_response
  end.

(** [SafetyMonitor.check_phq9_question9] *)
Definition check_phq9_question9 (response : PyVal) : bool :=
  match response with
  | PyStr s =>
      if negb (truthy response) then false
      else
        let normalized_response := strip (lower s) in
        if denied phq9_q9_negative_patterns normalized_response then false
        else affirmed phq9_q9_positive_patterns normalized_response
  | _ => false
  end.

(* ===================================================================== *)
(** ** The crisis override handler ([safety_monitor.py], [app.py]) *)
(* ===================================================================== *)

Module Override.
(** The fields of [CrisisOverrideHandler]; the application has one handler
    object for all requests. *)
Record t : Type := {
  crisis_detected : bool;
  crisis_timestamp : option Z
}.
End Override.

(** [CrisisOverrideHandler.__init__] *)
Definition CrisisOverrideHandler_init : Override.t :=
  {| Override.crisis_detected := false; Override.crisis_timestamp := None |}.

(** [CrisisOverrideHandler.process_user_input]; [is_phq9_q9] is the
    [Optional[bool]] of the request. *)
Definition process_user_input (sm : SafetyMonitor) (text : string)
    (is_phq9_q9 : option bool) (h : Override.t)
  : M ((bool * option string) * Override.t) :=
  crisis_response <- check_for_crisis sm (PyStr text) ;;
  if or_default is_phq9_q9 false && check_phq9_question9 (PyStr text) then
    t <- now ;;
    ret ((true, Some (_get_crisis_message sm)),
         {| Override.crisis_detected := true;
            Override.crisis_timestamp := Some t |})
  else
    match level crisis_response with
    | CRITICAL =>
        t <- now ;;
        ret ((true, Some (message crisis_response)),
             {| Override.crisis_detected := true;
                Override.crisis_timestamp := Some t |})
    | _ => ret ((false, None), h)
    end.

(** [CrisisOverrideHandler.is_crisis_active] *)
Definition is_crisis_active (h : Override.t) : bool :=
  Override.crisis_detected h.

(** [CrisisOverrideHandler.reset_crisis_state] *)
Definition reset_crisis_state (h : Override.t) : Override.t :=
  {| Override.crisis_detected := false; Override.crisis_timestamp := None |}.

(** [CrisisLevel.value] *)
Definition level_value (l : CrisisLevel) : string :=
  match l with
  | NONE => "NONE"
  | WARNING => "WARNING"
  | CRITICAL => "CRITICAL"
  end.

Module CrisisCheck.
(** [CrisisCheckResponse] *)
Record Response : Type := {
  should_override : bool;
  level : string;
  message : option string;
  triggered_by : option string;
  timestamp : Z
}.
End CrisisCheck.

(** [check_for_crisis] of [app.py] (POST /api/crisis/check), on the one
    handler and emergency manager of the application. No step of its body
    raises, so the [except] clause is left out. *)
Definition api_check_for_crisis (sm : SafetyMonitor)
    (em : Emergency.EmergencyResourceManager) (text : string)
    (is_phq9_q9 : option bool) (country' : option string) (h : Override.t)
  : M (CrisisCheck.Response * Override.t) :=
  result <- process_user_input sm text is_phq9_q9 h ;;
  let '((should_override, override_message), h') := result in
  crisis_response <- check_for_crisis sm (PyStr text) ;;
  let override_message :=
    if should_override && Emergency.nonempty country' then
      Some (Emergency.generate_crisis_message country' em)
    else if should_override then
      Some (Emergency.generate_crisis_message None em)
    else override_message in
  t <- now ;;
  ret ({| CrisisCheck.should_override := should_override;
          CrisisCheck.level := level_value (level crisis_response);
          CrisisCheck.message := override_message;
          CrisisCheck.triggered_by :=
            if or_default is_phq9_q9 false && should_override
            then Some "PHQ9_Q9"
            else if should_override then Some "TRIGGER_WORDS" else None;
          CrisisCheck.timestamp := t |}, h').

(** Successive calls of [process_user_input] on the handler. *)
Fixpoint process_inputs (sm : SafetyMonitor)
    (inputs : list (string * option bool)) (h : Override.t)
  : M (list (bool * option string) * Override.t) :=
  match inputs with
  | [] => ret ([], h)
  | (text, is_phq9_q9) :: rest =>
      result <- process_user_input sm text is_phq9_q9 h ;;
      let '(verdict, h') := result in
      results <- process_inputs sm rest h' ;;
      let '(verdicts, h'') := results in
      ret (verdict :: verdicts, h'')
  end.

(** Some configured trigger occurs in the normalised text: the condition
    under which [check_for_crisis] reports CRITICAL. *)
Definition triggers_matched (sm : SafetyMonitor) (text : string) : bool :=
  negb (is_empty text)
  && negb (match matched_triggers sm (strip (lower text)) with
           | [] => true
           | _ :: _ => false
           end).

(** The answer of [process_user_input] to one input. *)
Definition overrides (sm : SafetyMonitor) (input : string * option bool)
  : bool :=
  or_default (snd input) false && check_phq9_question9 (PyStr (fst input))
  || triggers_matched sm (fst input).

(** The value of a run that returned, for reading samples; [dflt]
    otherwise. *)
Definition res_or {A : Type} (dflt : A) (r : Res A) : A :=
  match r with
  | Ok a => a
  | _ => dflt
  end.

(** The response of a crisis check that did not return. *)
Definition no_response : CrisisCheck.Response * Override.t :=
  ({| CrisisCheck.should_override := false; CrisisCheck.level := "";
      CrisisCheck.message := None; CrisisCheck.triggered_by := None;
      CrisisCheck.timestamp := 0 |}, CrisisOverrideHandler_init).

(* ===================================================================== *)
(** * Properties *)
(* ===================================================================== *)

(** ** Strings *)

Lemma starts_with_spec (p s : string) :
  starts_with p s = true <-> exists post, s = p ++ post.
Proof.
  revert s; induction p as [|a p IH]; intros s; simpl.
  - split; [intros _; now exists s | reflexivity].
  - destruct s as [|b s].
    + split; [discriminate | intros [post H]; discriminate].
    + rewrite andb_true_iff, Ascii.eqb_eq, IH. split.
      * intros [-> [post ->]]. now exists post.
      * intros [post H]. injection H as -> ->. split; [reflexivity | now exists post].
Qed.

(** [str_in] is the substring test: [sub] occurs in [s] exactly when [s]
    splits as a prefix, [sub], and a suffix. *)
Lemma str_in_spec (sub s : string) :
  str_in sub s = true <-> exists pre post, s = pre ++ sub ++ post.
Proof.
  induction s as [|c s IH]; simpl.
  - rewrite starts_with_spec. split.
    + intros [post H]. exists EmptyString, post. exact H.
    + intros [pre [post H]]. destruct pre; simpl in H.
      * now exists post.
      * discriminate.
  - rewrite orb_true_iff, starts_with_spec, IH. split.
    + intros [[post H] | [pre [post H]]].
      * exists EmptyString, post. exact H.
      * exists (String c pre), post. simpl. now rewrite H.
    + intros [pre [post H]]. destruct pre as [|c' pre]; simpl in H.
      * left. now exists post.
      * right. injection H as _ H. now exists pre, post.
Qed.

Lemma any_in_spec (text : string) (keywords : list string) :
  any_in text keywords = true <->
  exists k, In k keywords /\ str_in k text = true.
Proof. unfold any_in. apply existsb_exists. Qed.

(** ** Dicts *)

Section DictFacts.
Variable V : Type.
Implicit Types (d : dict V) (k : string) (v : V).

Lemma dict_get_set_same k v d : dict_get k (dict_set k v d) = Some v.
Proof.
  induction d as [|[k' v'] d IH]; simpl.
  - now rewrite String.eqb_refl.
  - destruct (String.eqb k k') eqn:E; simpl.
    + now rewrite String.eqb_refl.
    + now rewrite E.
Qed.

Lemma dict_get_set_other k k' v d :
  k' <> k -> dict_get k' (dict_set k v d) = dict_get k' d.
Proof.
  intros Hne. induction d as [|[k0 v0] d IH]; simpl.
  - apply String.eqb_neq in Hne. now rewrite Hne.
  - destruct (String.eqb k k0) eqn:E; simpl.
    + apply String.eqb_eq in E. subst k0.
      apply String.eqb_neq in Hne. now rewrite Hne.
    + now rewrite IH.
Qed.

Lemma dict_set_set k v v' d :
  dict_set k v' (dict_set k v d) = dict_set k v' d.
Proof.
  induction d as [|[k0 v0] d IH]; simpl.
  - now rewrite String.eqb_refl.
  - destruct (String.eqb k k0) eqn:E; simpl.
    + now rewrite String.eqb_refl.
    + now rewrite E, IH.
Qed.

Lemma dict_set_present k v d :
  dict_get k d = Some v -> dict_set k v d = d.
Proof.
  induction d as [|[k0 v0] d IH]; simpl; [discriminate|].
  destruct (String.eqb k k0) eqn:E.
  - apply String.eqb_eq in E. now intros [= ->]; subst.
  - intros H. now rewrite IH.
Qed.

Lemma dict_get_del_same k d : dict_get k (dict_del k d) = None.
Proof.
  induction d as [|[k0 v0] d IH]; simpl; [reflexivity|].
  destruct (String.eqb k k0) eqn:E; simpl; [exact IH | now rewrite E].
Qed.

Lemma dict_get_del_other k k' d :
  k' <> k -> dict_get k' (dict_del k d) = dict_get k' d.
Proof.
  intros Hne. induction d as [|[k0 v0] d IH]; simpl; [reflexivity|].
  destruct (String.eqb k k0) eqn:E; simpl.
  - apply String.eqb_eq in E. subst k0.
    apply String.eqb_neq in Hne. now rewrite Hne.
  - now rewrite IH.
Qed.

Lemma dict_del_absent k d : dict_get k d = None -> dict_del k d = d.
Proof.
  induction d as [|[k0 v0] d IH]; simpl; [reflexivity|].
  destruct (String.eqb k k0); [discriminate|].
  intros H. now rewrite IH.
Qed.

Lemma dict_get_In k v d : dict_get k d = Some v -> In (k, v) d.
Proof.
  induction d as [|[k0 v0] d IH]; simpl; [discriminate|].
  destruct (String.eqb k k0) eqn:E.
  - apply String.eqb_eq in E. intros [= ->]. left. now subst.
  - intros H. right. now apply IH.
Qed.

Lemma dict_get_None_keys k d :
  dict_get k d = None <-> ~ In k (dict_keys d).
Proof.
  induction d as [|[k0 v0] d IH]; simpl.
  - tauto.
  - destruct (String.eqb k k0) eqn:E.
    + apply String.eqb_eq in E. subst. split; [discriminate | tauto].
    + apply String.eqb_neq in E. rewrite IH. split.
      * intros H [H1 | H1]; [now apply E | now apply H].
      * tauto.
Qed.

Lemma dict_get_Some_keys k d :
  In k (dict_keys d) <-> exists v, dict_get k d = Some v.
Proof.
  destruct (dict_get k d) eqn:E.
  - split; [intros _; now exists v|]. intros _.
    apply dict_get_In in E. unfold dict_keys.
    change k with (fst (k, v)). now apply in_map.
  - apply dict_get_None_keys in E. split; [tauto|]. intros [v H]. discriminate.
Qed.

Lemma dict_keys_set_present k v d :
  In k (dict_keys d) -> dict_keys (dict_set k v d) = dict_keys d.
Proof.
  induction d as [|[k0 v0] d IH]; simpl; [tauto|].
  destruct (String.eqb k k0) eqn:E; simpl.
  - apply String.eqb_eq in E. now subst.
  - apply String.eqb_neq in E. intros [H | H]; [congruence|].
    now rewrite IH.
Qed.

Lemma dict_keys_set_absent k v d :
  ~ In k (dict_keys d) -> dict_keys (dict_set k v d) = (dict_keys d ++ [k])%list.
Proof.
  induction d as [|[k0 v0] d IH]; simpl; [reflexivity|].
  intros H. destruct (String.eqb k k0) eqn:E; simpl.
  - apply String.eqb_eq in E. subst k0. exfalso. apply H. now left.
  - rewrite IH; [reflexivity|]. intros H'. apply H. now right.
Qed.

Lemma dict_set_length k v d :
  length (dict_set k v d)
  = if dict_mem k d then length d else S (length d).
Proof.
  unfold dict_mem.
  induction d as [|[k0 v0] d IH]; simpl; [reflexivity|].
  destruct (String.eqb k k0) eqn:E; simpl; [reflexivity|].
  rewrite IH. now destruct (dict_get k d).
Qed.

Lemma dict_del_length_le k d : (length (dict_del k d) <= length d)%nat.
Proof.
  induction d as [|[k0 v0] d IH]; simpl; [lia|].
  destruct (String.eqb k k0); simpl; lia.
Qed.

Lemma dict_keys_del k d :
  dict_keys (dict_del k d)
  = filter (fun k' => negb (String.eqb k k')) (dict_keys d).
Proof.
  induction d as [|[k0 v0] d IH]; simpl; [reflexivity|].
  destruct (String.eqb k k0); simpl; now rewrite IH.
Qed.

Lemma dict_del_NoDup k d : NoDup (dict_keys d) -> NoDup (dict_keys (dict_del k d)).
Proof. intros H. rewrite dict_keys_del. now apply NoDup_filter. Qed.

Lemma dict_set_NoDup k v d :
  NoDup (dict_keys d) -> NoDup (dict_keys (dict_set k v d)).
Proof.
  intros H. destruct (in_dec string_dec k (dict_keys d)) as [Hin | Hin].
  - now rewrite dict_keys_set_present.
  - rewrite dict_keys_set_absent by assumption.
    apply NoDup_app; [assumption | repeat constructor; simpl; tauto |].
    intros x Hx [<- | []]. tauto.
Qed.

(** Deleting a key that is present, from a dict with distinct keys,
    removes exactly one entry. *)
Lemma dict_del_length_present k d :
  NoDup (dict_keys d) -> In k (dict_keys d) ->
  S (length (dict_del k d)) = length d.
Proof.
  induction d as [|[k0 v0] d IH]; simpl; [tauto|].
  intros Hnd Hin. inversion Hnd as [|? ? Hnotin Hnd']; subst.
  destruct (String.eqb k k0) eqn:E.
  - apply String.eqb_eq in E. subst k0.
    rewrite dict_del_absent; [reflexivity|].
    now apply dict_get_None_keys.
  - apply String.eqb_neq in E. simpl. f_equal. apply IH; [assumption|].
    destruct Hin as [H | H]; [congruence | assumption].
Qed.

End DictFacts.

(** ** Store operations *)

Lemma is_expired_at_false (w : World) (t : Z) (s : SessionData) :
  is_expired_at t (timeout_minutes w) s = false <-> live_at w t s.
Proof.
  unfold is_expired_at, live_at. rewrite Z.gtb_ltb, Z.ltb_ge. reflexivity.
Qed.

Lemma is_expired_at_true (w : World) (t : Z) (s : SessionData) :
  is_expired_at t (timeout_minutes w) s = true <->
  t > last_activity s + timedelta_minutes (timeout_minutes w).
Proof.
  unfold is_expired_at. rewrite Z.gtb_ltb, Z.ltb_lt. lia.
Qed.

Lemma get_session_absent (id : string) (w : World) :
  dict_get id (sessions w) = None -> get_session id w = (Ok None, w).
Proof.
  intros H. unfold get_session, bind, get_sessions. now rewrite H.
Qed.

Lemma get_session_expired (id : string) (w : World) (s : SessionData) :
  dict_get id (sessions w) = Some s ->
  is_expired_at (clock w (ticks w)) (timeout_minutes w) s = true ->
  get_session id w
  = (Ok None, world_at w (dict_del id (sessions w)) (S (ticks w))).
Proof.
  intros H E. unfold get_session, bind, get_sessions. rewrite H.
  cbn. rewrite E. reflexivity.
Qed.

Lemma get_session_live (id : string) (w : World) (s : SessionData) :
  dict_get id (sessions w) = Some s ->
  live_at w (clock w (ticks w)) s ->
  let s' := set_last_activity (clock w (S (ticks w))) s in
  get_session id w
  = (Ok (Some s'),
     world_at w (dict_set id s' (sessions w)) (S (S (ticks w)))).
Proof.
  intros H L. apply is_expired_at_false in L.
  unfold get_session, bind, get_sessions. rewrite H.
  cbn. rewrite L. reflexivity.
Qed.

Lemma apply_updates_run (id : string) (u : dict PyVal) (w : World)
    (s s' : SessionData) :
  dict_get id (sessions w) = Some s ->
  updates_result u s = Ok s' ->
  apply_updates id u s w
  = (Ok s', world_at w (dict_set id s' (sessions w)) (ticks w)).
Proof.
  revert w s. induction u as [|[field value] u IH]; intros w s Hget Hres.
  - simpl in Hres. injection Hres as <-. cbn.
    rewrite dict_set_present by assumption. now destruct w.
  - cbn [updates_result] in Hres. cbn [apply_updates].
    destruct (str_mem field allowed_fields).
    + unfold bind at 1 2 3, lift_res, store.
      destruct (coerce_update field value) as [value'| |]; try discriminate.
      destruct (setattr s field value') as [s1| |]; try discriminate.
      cbn. rewrite IH with (s := s1); cbn.
      * now rewrite dict_set_set.
      * apply dict_get_set_same.
      * assumption.
    + now apply IH.
Qed.

Lemma update_session_absent (id : string) (u : dict PyVal) (w : World) :
  dict_get id (sessions w) = None -> update_session id u w = (Ok false, w).
Proof.
  intros H. unfold update_session, bind. now rewrite get_session_absent.
Qed.

Lemma update_session_expired (id : string) (u : dict PyVal) (w : World)
    (s : SessionData) :
  dict_get id (sessions w) = Some s ->
  is_expired_at (clock w (ticks w)) (timeout_minutes w) s = true ->
  update_session id u w
  = (Ok false, world_at w (dict_del id (sessions w)) (S (ticks w))).
Proof.
  intros H E. unfold update_session, bind.
  now rewrite get_session_expired with (s := s).
Qed.

Lemma update_session_live (id : string) (u : dict PyVal) (w : World)
    (s s' : SessionData) :
  dict_get id (sessions w) = Some s ->
  live_at w (clock w (ticks w)) s ->
  updates_result u (set_last_activity (clock w (S (ticks w))) s) = Ok s' ->
  update_session id u w
  = (Ok true,
     world_at w
       (dict_set id (set_last_activity (clock w (S (S (ticks w)))) s')
                 (sessions w))
       (S (S (S (ticks w))))).
Proof.
  intros H L U. unfold update_session, bind.
  rewrite get_session_live with (s := s) by assumption.
  rewrite apply_updates_run with (s' := s'); cbn.
  - now rewrite !dict_set_set.
  - apply dict_get_set_same.
  - assumption.
Qed.

Lemma add_response_absent (id qid text : string) (score : Z) (w : World) :
  dict_get id (sessions w) = None ->
  add_response id qid text score w = (Ok false, w).
Proof.
  intros H. unfold add_response, bind. now rewrite get_session_absent.
Qed.

Lemma add_response_expired (id qid text : string) (score : Z) (w : World)
    (s : SessionData) :
  dict_get id (sessions w) = Some s ->
  is_expired_at (clock w (ticks w)) (timeout_minutes w) s = true ->
  add_response id qid text score w
  = (Ok false, world_at w (dict_del id (sessions w)) (S (ticks w))).
Proof.
  intros H E. unfold add_response, bind.
  now rewrite get_session_expired with (s := s).
Qed.

Lemma add_response_live (id qid text : string) (score : Z) (w : World)
    (s : SessionData) :
  dict_get id (sessions w) = Some s ->
  live_at w (clock w (ticks w)) s ->
  let r := {| question_id := qid; user_text := text; mapped_score := score;
              timestamp := clock w (S (S (ticks w))) |} in
  add_response id qid text score w
  = (Ok true,
     world_at w
       (dict_set id
          (set_last_activity (clock w (S (S (S (ticks w)))))
             (set_responses (responses s ++ [r]) s))
          (sessions w))
       (S (S (S (S (ticks w)))))).
Proof.
  intros H L. unfold add_response, bind.
  rewrite get_session_live with (s := s) by assumption.
  cbn. now rewrite !dict_set_set.
Qed.

Lemma add_conversation_absent (id um ai ph : string) (w : World) :
  dict_get id (sessions w) = None ->
  add_conversation id um ai ph w = (Ok false, w).
Proof.
  intros H. unfold add_conversation, bind. now rewrite get_session_absent.
Qed.

Lemma add_conversation_expired (id um ai ph : string) (w : World)
    (s : SessionData) :
  dict_get id (sessions w) = Some s ->
  is_expired_at (clock w (ticks w)) (timeout_minutes w) s = true ->
  add_conversation id um ai ph w
  = (Ok false, world_at w (dict_del id (sessions w)) (S (ticks w))).
Proof.
  intros H E. unfold add_conversation, bind.
  now rewrite get_session_expired with (s := s).
Qed.

Lemma add_conversation_live (id um ai ph : string) (w : World)
    (s : SessionData) :
  dict_get id (sessions w) = Some s ->
  live_at w (clock w (ticks w)) s ->
  let e := {| user_message := um; ai_response := ai; phase := ph;
              entry_timestamp := clock w (S (S (ticks w))) |} in
  add_conversation id um ai ph w
  = (Ok true,
     world_at w
       (dict_set id
          (set_last_activity (clock w (S (S (S (ticks w)))))
             (set_conversation_history (conversation_history s ++ [e]) s))
          (sessions w))
       (S (S (S (S (ticks w)))))).
Proof.
  intros H L. unfold add_conversation, bind.
  rewrite get_session_live with (s := s) by assumption.
  cbn. now rewrite !dict_set_set.
Qed.

(** ** The detector *)

Arguments timedelta_minutes : simpl never.

Lemma no_crisis_run (w : World) :
  no_crisis w
  = (Ok {| level := NONE; triggered_words := []; message := "";
           crisis_timestamp := clock w (ticks w);
           requires_override := false |},
     world_at w (sessions w) (S (ticks w))).
Proof. reflexivity. Qed.

(** The detector reads the clock once and nothing else: it returns, and its
    verdict is a function of the text and the configured triggers. *)
Lemma check_for_crisis_run (sm : SafetyMonitor) (text : PyVal) (w : World) :
  exists r,
    check_for_crisis sm text w = (Ok r, world_at w (sessions w) (S (ticks w)))
    /\ crisis_timestamp r = clock w (ticks w)
    /\ match text with
       | PyStr (String c s') =>
           match matched_triggers sm (strip (lower (String c s'))) with
           | [] => level r = NONE /\ triggered_words r = []
                   /\ message r = "" /\ requires_override r = false
           | found => level r = CRITICAL /\ triggered_words r = found
                      /\ message r = crisis_response_message sm
                      /\ requires_override r = true
           end
       | _ => level r = NONE /\ triggered_words r = []
              /\ message r = "" /\ requires_override r = false
       end.
Proof.
  destruct text as [| b | z | s | | p | t];
    try (eexists; split; [apply no_crisis_run | cbn; auto]).
  destruct s as [|c s'].
  - eexists; split; [apply no_crisis_run | cbn; auto].
  - unfold check_for_crisis. cbn [truthy is_empty negb].
    destruct (matched_triggers sm (strip (lower (String c s')))) eqn:E.
    + eexists; split; [apply no_crisis_run | cbn; auto].
    + eexists; split; [reflexivity | cbn; auto].
Qed.

Lemma check_for_crisis_critical (sm : SafetyMonitor) (text : PyVal)
    (w0 w : World) :
  detector_level sm text w0 = Some CRITICAL ->
  exists r,
    check_for_crisis sm text w = (Ok r, world_at w (sessions w) (S (ticks w)))
    /\ message r = crisis_response_message sm
    /\ requires_override r = true.
Proof.
  unfold detector_level. intros H.
  destruct (check_for_crisis_run sm text w0) as [r0 [E0 [_ H0]]].
  destruct (check_for_crisis_run sm text w) as [r [E [_ Hr]]].
  rewrite E0 in H. cbn in H.
  exists r. split; [exact E|].
  destruct text as [| b | z | s | | p | t];
    try (destruct H0 as [H0 _]; congruence).
  destruct s as [|c s']; [destruct H0 as [H0 _]; congruence|].
  destruct (matched_triggers sm (strip (lower (String c s')))).
  - destruct H0 as [H0 _]; congruence.
  - tauto.
Qed.

Lemma check_for_crisis_not_critical (sm : SafetyMonitor) (text : PyVal)
    (w0 w : World) :
  detector_level sm text w0 <> Some CRITICAL ->
  exists r,
    check_for_crisis sm text w = (Ok r, world_at w (sessions w) (S (ticks w)))
    /\ requires_override r = false.
Proof.
  unfold detector_level. intros H.
  destruct (check_for_crisis_run sm text w0) as [r0 [E0 [_ H0]]].
  destruct (check_for_crisis_run sm text w) as [r [E [_ Hr]]].
  rewrite E0 in H. cbn in H.
  exists r. split; [exact E|].
  destruct text as [| b | z | s | | p | t]; try tauto.
  destruct s as [|c s']; [tauto|].
  destruct (matched_triggers sm (strip (lower (String c s')))).
  - tauto.
  - destruct H0 as [H0 _]. rewrite H0 in H. congruence.
Qed.

(** ** The crisis override *)

Ltac live_by Hcalm :=
  unfold live_at; cbn; apply Hcalm; cbn; lia.

Lemma handle_crisis_response_run (id msg : string) (r : CrisisResponse)
    (w : World) (s : SessionData) :
  dict_get id (sessions w) = Some s ->
  live_at w (clock w (ticks w)) s ->
  calm w 7 ->
  exists s',
    _handle_crisis_response id msg r w
    = (Ok (Reply.with_next_action "stop"
             (Reply.basic (message r) CRISIS_RESPONSE true)),
       world_at w (dict_set id s' (sessions w)) (7 + ticks w))
    /\ s' = set_last_activity (clock w (6 + ticks w))
              (set_conversation_history
                 (conversation_history s
                  ++ [{| user_message := msg; ai_response := message r;
                         phase := "CRISIS_RESPONSE";
                         entry_timestamp := clock w (5 + ticks w) |}])
                 (set_current_phase CRISIS_RESPONSE
                    (set_crisis_detected true s))).
Proof.
  intros Hget Hlive Hcalm.
  eexists. split.
  - unfold _handle_crisis_response, try_catch, bind.
    erewrite update_session_live; [| eassumption | assumption | reflexivity].
    erewrite add_conversation_live;
      [| cbn; apply dict_get_set_same | live_by Hcalm].
    cbn. rewrite dict_set_set. reflexivity.
  - cbn. reflexivity.
Qed.

(** C1. On a live session, a message that the detector classifies as
    CRITICAL is answered by the crisis override whatever the phase of the
    session: the reply carries the crisis message, phase CRISIS_RESPONSE and
    the "stop" action; the stored session has phase CRISIS_RESPONSE and
    [crisis_detected] set; its history gains exactly the crisis entry; and
    nothing phase-specific has run: responses, selected tool and completion
    flag are as before. The session is live at the lookup and no two
    successive store operations of the call are a timeout apart. *)
Theorem crisis_overrides_every_phase (fm : ConversationFlowManager)
    (id msg : string) (w : World) (s : SessionData) :
  dict_get id (sessions w) = Some s ->
  live_at w (clock w (ticks w)) s ->
  calm w 10 ->
  detector_level (safety_monitor fm) (PyStr msg) w = Some CRITICAL ->
  exists w' s' t,
    process_user_message fm id msg w = (Ok (crisis_stop_reply fm), w')
    /\ dict_get id (sessions w') = Some s'
    /\ current_phase s' = CRISIS_RESPONSE
    /\ crisis_detected s' = true
    /\ conversation_history s'
       = (conversation_history s ++ [crisis_entry fm msg t])%list
    /\ responses s' = responses s
    /\ selected_tool s' = selected_tool s
    /\ completed s' = completed s.
Proof.
  intros Hget Hlive Hcalm Hcrit.
  unfold process_user_message, bind.
  rewrite get_session_live with (s := s) by assumption.
  unfold try_catch, bind.
  edestruct check_for_crisis_critical as [r [Hrun [Hmsg Hover]]];
    [exact Hcrit|].
  rewrite Hrun, Hover.
  edestruct handle_crisis_response_run as [s' [Hh Hs']];
    [| | | rewrite Hh].
  - cbn. apply dict_get_set_same.
  - live_by Hcalm.
  - intros i j Hi Hij Hj2 Hj. apply Hcalm; cbn in *; lia.
  - do 3 eexists. split; [rewrite Hmsg; reflexivity|].
    split; [cbn; apply dict_get_set_same|].
    subst s'. rewrite Hmsg. cbn. repeat split; reflexivity.
Qed.

Lemma demo_calm (s : list (string * SessionData)) (n : nat) :
  (n <= 1000)%nat -> calm (with_sessions s demo_world) n.
Proof.
  intros Hn i j Hi Hij Hj2 Hj.
  change (ticks (with_sessions s demo_world)) with 0%nat in Hi, Hj.
  change (clock (with_sessions s demo_world)) with demo_clock.
  change (timeout_minutes (with_sessions s demo_world)) with 30.
  unfold demo_clock, timedelta_minutes. lia.
Qed.

(** The override fires in the middle of the PHQ9 questionnaire. *)
Lemma crisis_overrides_every_phase_witness :
  exists w' s' t,
    process_user_message demo_flow "id0" "I want to END it all"
      (demo_world_with mid_screening)
    = (Ok (crisis_stop_reply demo_flow), w')
    /\ dict_get "id0" (sessions w') = Some s'
    /\ current_phase s' = CRISIS_RESPONSE
    /\ crisis_detected s' = true
    /\ conversation_history s'
       = (conversation_history mid_screening
          ++ [crisis_entry demo_flow "I want to END it all" t])%list
    /\ responses s' = responses mid_screening
    /\ selected_tool s' = selected_tool mid_screening
    /\ completed s' = completed mid_screening.
Proof.
  apply (@crisis_overrides_every_phase demo_flow "id0"
           "I want to END it all" (demo_world_with mid_screening)
           mid_screening).
  - reflexivity.
  - unfold live_at. vm_compute. discriminate.
  - apply demo_calm. lia.
  - reflexivity.
Defined.

(** ** The crisis state is absorbing *)

Lemma calm_shift (w w' : World) (n k : nat) :
  calm w n ->
  clock w' = clock w -> timeout_minutes w' = timeout_minutes w ->
  ticks w' = (k + ticks w)%nat ->
  calm w' (n - k).
Proof.
  intros Hcalm Hc Ht Hk i j Hi Hij Hj2 Hj.
  rewrite Hc, Ht. apply Hcalm; lia.
Qed.

(** One call on a session whose flag is set: the reply is the crisis reply,
    the flag stays, and the only thing that may be written besides the
    activity stamp is the crisis entry of the history. *)
Lemma crisis_latched_step (fm : ConversationFlowManager) (id msg : string)
    (w : World) (s : SessionData) :
  dict_get id (sessions w) = Some s ->
  crisis_detected s = true ->
  live_at w (clock w (ticks w)) s ->
  calm w 10 ->
  exists r s' k j,
    process_user_message fm id msg w
    = (Ok r, world_at w (dict_set id s' (sessions w)) (k + ticks w))
    /\ (k <= 10)%nat
    /\ is_crisis_reply fm r
    /\ crisis_frozen s s'
    /\ (conversation_history s' = conversation_history s
        \/ exists t, conversation_history s'
                     = (conversation_history s ++ [crisis_entry fm msg t])%list)
    /\ last_activity s' = clock w j
    /\ (ticks w <= j)%nat /\ (j <= k + ticks w)%nat /\ (k + ticks w <= j + 2)%nat.
Proof.
  intros Hget Hflag Hlive Hcalm.
  unfold process_user_message, bind.
  rewrite get_session_live with (s := s) by assumption.
  unfold try_catch, bind.
  destruct (detector_level (safety_monitor fm) (PyStr msg) w) as [[]|] eqn:Hlv.
  1, 2, 4:
    edestruct check_for_crisis_not_critical as [r [Hrun Hover]];
      [rewrite Hlv; discriminate |];
    rewrite Hrun, Hover; cbn [current_phase crisis_detected set_last_activity];
    rewrite Hflag;
    exists (crisis_stop_reply fm),
           (set_last_activity (clock w (S (ticks w))) s), 3%nat,
           (S (ticks w));
    (split; [reflexivity|]);
    (split; [lia|]);
    (split; [repeat split|]);
    (split; [repeat split; assumption|]);
    (split; [now left|]);
    (split; [reflexivity | lia]).
  edestruct check_for_crisis_critical as [r [Hrun [Hmsg Hover]]];
    [exact Hlv|].
  rewrite Hrun, Hover.
  edestruct handle_crisis_response_run as [s' [Hh Hs']];
    [| | | rewrite Hh].
  - cbn. apply dict_get_set_same.
  - live_by Hcalm.
  - intros i j Hi Hij Hj2 Hj. apply Hcalm; cbn in *; lia.
  - exists (crisis_stop_reply fm), s', 10%nat, (9 + ticks w)%nat.
    split; [rewrite Hmsg; cbn; now rewrite dict_set_set|].
    split; [lia|].
    split; [repeat split|].
    subst s'. rewrite Hmsg. cbn.
    split; [repeat split|].
    split; [right; eexists; reflexivity|].
    split; [reflexivity | lia].
Qed.

Lemma crisis_frozen_trans (s1 s2 s3 : SessionData) :
  crisis_frozen s1 s2 -> crisis_frozen s2 s3 -> crisis_frozen s1 s3.
Proof.
  unfold crisis_frozen. intros (A & B & C & D) (A' & B' & C' & D').
  repeat split; congruence.
Qed.

(** C2. Once a live session has [crisis_detected] set, every following
    call of [process_user_message] for it, whatever the text, returns the
    crisis message with phase CRISIS_RESPONSE, and the session keeps its
    flag, its responses, its selected tool and its completion flag: no
    phase-specific step runs. Nothing in the flow clears the flag. The
    session is live at the first lookup and the clock never advances by
    more than the timeout between two successive store operations. *)
Theorem crisis_response_is_absorbing (fm : ConversationFlowManager)
    (id : string) (msgs : list string) (w : World) (s : SessionData) :
  dict_get id (sessions w) = Some s ->
  crisis_detected s = true ->
  live_at w (clock w (ticks w)) s ->
  calm w (10 * length msgs) ->
  exists replies w' s',
    converse fm id msgs w = (Ok replies, w')
    /\ length replies = length msgs
    /\ Forall (is_crisis_reply fm) replies
    /\ dict_get id (sessions w') = Some s'
    /\ crisis_frozen s s'.
Proof.
  revert w s. induction msgs as [|msg msgs IH]; intros w s Hget Hflag Hlive Hcalm.
  - exists [], w, s. cbn. repeat split; auto.
  - cbn [converse]. unfold bind.
    destruct (@crisis_latched_step fm id msg w s)
      as (r & s1 & k & j & Hrun & Hk & Hr & Hfz & _ & Hla & Hj1 & Hj2 & Hj3);
      try assumption.
    { intros i j Hi Hij Hj2 Hj. apply Hcalm; cbn [length] in *; lia. }
    rewrite Hrun.
    destruct msgs as [|msg2 msgs].
    { exists [r], (world_at w (dict_set id s1 (sessions w)) (k + ticks w)), s1.
      split; [reflexivity|].
      split; [reflexivity|].
      split; [now constructor|].
      split; [cbn; apply dict_get_set_same | assumption]. }
    destruct (IH (world_at w (dict_set id s1 (sessions w)) (k + ticks w)) s1)
      as (replies & w' & s' & Hrun' & Hlen & Hall & Hget' & Hfz').
    + cbn. apply dict_get_set_same.
    + apply Hfz.
    + unfold live_at. cbn [world_at clock timeout_minutes ticks]. rewrite Hla.
      apply Hcalm; cbn [length]; lia.
    + intros i j' Hi Hij Hj2' Hj.
      cbn [world_at clock timeout_minutes ticks length] in *.
      apply Hcalm; cbn [length]; lia.
    + rewrite Hrun'. exists (r :: replies), w', s'.
      split; [reflexivity|].
      split; [cbn [length] in *; now rewrite Hlen|].
      split; [now constructor|].
      split; [assumption|].
      eapply crisis_frozen_trans; eassumption.
Qed.

(** Three messages to a session in crisis, one of them an in-scale answer
    and one of them a crisis phrase. *)
Lemma crisis_response_is_absorbing_witness :
  exists replies w' s',
    converse demo_flow "id0" ["often"; "suicide"; "yes"]
      (demo_world_with in_crisis)
    = (Ok replies, w')
    /\ length replies = 3%nat
    /\ Forall (is_crisis_reply demo_flow) replies
    /\ dict_get "id0" (sessions w') = Some s'
    /\ crisis_frozen in_crisis s'.
Proof.
  apply (@crisis_response_is_absorbing demo_flow "id0"
           ["often"; "suicide"; "yes"] (demo_world_with in_crisis) in_crisis).
  - reflexivity.
  - reflexivity.
  - unfold live_at. vm_compute. discriminate.
  - apply demo_calm. cbn. lia.
Defined.

(** ** The sweep *)

Lemma expired_sessions_run (w : World) (items : dict SessionData) :
  expired_sessions (timeout_minutes w) items w
  = (Ok (expired_ids (clock w) (timeout_minutes w) (ticks w) items),
     world_at w (sessions w) (length items + ticks w)).
Proof.
  revert w. induction items as [|[k s] items IH]; intros w.
  - cbn. now destruct w.
  - cbn [expired_sessions expired_ids].
    cbv beta iota delta [bind is_expired now ret].
    specialize (IH (with_ticks (S (ticks w)) w)).
    change (timeout_minutes (with_ticks (S (ticks w)) w))
      with (timeout_minutes w) in IH.
    rewrite IH. cbn.
    replace (length items + S (ticks w))%nat with (S (length items + ticks w))
      by lia.
    reflexivity.
Qed.

Lemma del_sessions_run (ids : list string) (w : World) :
  del_sessions ids w
  = (Ok tt, world_at w (dict_del_all ids (sessions w)) (ticks w)).
Proof.
  revert w. induction ids as [|k ids IH]; intros w.
  - cbn. now destruct w.
  - cbn [del_sessions].
    cbv beta iota delta [bind del_session get_sessions put_sessions].
    rewrite IH. reflexivity.
Qed.

Lemma cleanup_run (w : World) :
  cleanup_expired_sessions w
  = (Ok (length (expired_ids (clock w) (timeout_minutes w) (ticks w) (sessions w))),
     world_at w
       (dict_del_all (expired_ids (clock w) (timeout_minutes w) (ticks w) (sessions w)) (sessions w))
       (length (sessions w) + ticks w)).
Proof.
  cbv beta iota delta
    [cleanup_expired_sessions bind get_sessions get_timeout_minutes].
  rewrite expired_sessions_run. rewrite del_sessions_run. reflexivity.
Qed.

Lemma dict_get_del_all (V : Type) (ids : list string) (d : dict V)
    (k : string) :
  dict_get k (dict_del_all ids d)
  = if str_mem k ids then None else dict_get k d.
Proof.
  revert d. induction ids as [|k0 ids IH]; intros d; cbn; [reflexivity|].
  unfold dict_del_all in *. cbn. rewrite IH.
  destruct (String.eqb k k0) eqn:E; cbn.
  - apply String.eqb_eq in E. subst k0.
    rewrite dict_get_del_same. now destruct (str_mem k ids).
  - apply String.eqb_neq in E.
    rewrite dict_get_del_other by congruence. reflexivity.
Qed.

Lemma dict_del_all_length_le (V : Type) (ids : list string) (d : dict V) :
  (length (dict_del_all ids d) <= length d)%nat.
Proof.
  revert d. induction ids as [|k ids IH]; intros d; cbn; [lia|].
  unfold dict_del_all in *. cbn.
  etransitivity; [apply IH | apply dict_del_length_le].
Qed.

Lemma dict_del_all_NoDup (V : Type) (ids : list string) (d : dict V) :
  NoDup (dict_keys d) -> NoDup (dict_keys (dict_del_all ids d)).
Proof.
  revert d. induction ids as [|k ids IH]; intros d H; cbn; [assumption|].
  unfold dict_del_all in *. cbn. apply IH. now apply dict_del_NoDup.
Qed.

Lemma str_mem_In (k : string) (l : list string) :
  str_mem k l = true <-> In k l.
Proof.
  unfold str_mem. rewrite existsb_exists. split.
  - intros [x [Hin E]]. apply String.eqb_eq in E. now subst.
  - intros H. exists k. split; [assumption | apply String.eqb_refl].
Qed.

(** With distinct keys, the sweep marks the key stored at position [i]
    exactly when its session is expired at the [i]-th reading. *)
Lemma expired_ids_spec (clk : nat -> Z) (tm : Z) (n : nat)
    (items : dict SessionData) (i : nat) (k : string) (s : SessionData) :
  NoDup (dict_keys items) ->
  nth_error items i = Some (k, s) ->
  (In k (expired_ids clk tm n items)
   <-> is_expired_at (clk (n + i)%nat) tm s = true).
Proof.
  revert n i. induction items as [|[k0 s0] items IH]; intros n i Hnd Hnth.
  - destruct i; discriminate.
  - inversion Hnd as [|? ? Hnotin Hnd']; subst.
    assert (Hsub : forall m, incl (expired_ids clk tm m items) (dict_keys items)).
    { clear. induction items as [|[k1 s1] items IH]; intros m x Hx;
        cbn in *; [contradiction|].
      destruct (is_expired_at _ _ _).
      - destruct Hx as [<- | Hx]; [now left | right; eapply IH; eassumption].
      - right; eapply IH; eassumption. }
    destruct i as [|i]; cbn in Hnth.
    + injection Hnth as -> ->. rewrite Nat.add_0_r. cbn.
      destruct (is_expired_at (clk n) tm s) eqn:E.
      * split; [reflexivity | intros _; now left].
      * split; [|discriminate]. intros Hin. exfalso.
        apply Hnotin. eapply Hsub. eassumption.
    + cbn. assert (Hne : k0 <> k).
      { intros ->. apply Hnotin. apply nth_error_In in Hnth.
        change k with (fst (k, s)). now apply in_map. }
      replace (n + S i)%nat with (S n + i)%nat by lia.
      rewrite <- (IH (S n) i Hnd' Hnth).
      destruct (is_expired_at (clk n) tm s0).
      * cbn. split; [intros [H | H]; [congruence | assumption] | now right].
      * reflexivity.
Qed.

(** C4. Lookup-and-touch. For a stored session: (1) idle longer than the
    timeout, [get_session] deletes it and reports it absent; (2) idle at
    most the timeout ([now - last_activity <= timeout]), [get_session]
    returns it with [last_activity] moved to the current time, and a second
    lookup succeeds whenever it falls within the timeout of that new stamp,
    however old the previous stamp was; (3) the sweep decides with the same
    comparison [is_expired_at]: it removes the session stored at position
    [i] exactly when that comparison holds at its reading of the clock, and
    the lookup reports absent exactly when it holds at its own. *)
Theorem get_session_touch_and_expiry (id : string) (w : World)
    (s : SessionData) (i : nat) :
  well_keyed w ->
  nth_error (sessions w) i = Some (id, s) ->
  let timeout := timedelta_minutes (timeout_minutes w) in
  let now1 := clock w (ticks w) in
  (now1 - last_activity s > timeout ->
     exists w', get_session id w = (Ok None, w')
                /\ dict_get id (sessions w') = None)
  /\ (now1 - last_activity s <= timeout ->
      exists s' w',
        get_session id w = (Ok (Some s'), w')
        /\ dict_get id (sessions w') = Some s'
        /\ s' = set_last_activity (clock w (S (ticks w))) s
        /\ (clock w' (ticks w') - last_activity s' <= timeout ->
            exists s'' w'', get_session id w' = (Ok (Some s''), w'')))
  /\ (fst (get_session id w) = Ok None
      <-> is_expired_at now1 (timeout_minutes w) s = true)
  /\ (dict_get id (sessions (snd (cleanup_expired_sessions w))) = None
      <-> is_expired_at (clock w (ticks w + i)) (timeout_minutes w) s = true).
Proof.
  intros Hnd Hnth timeout now1.
  assert (Hget : dict_get id (sessions w) = Some s).
  { destruct (dict_get id (sessions w)) as [s0|] eqn:E.
    - apply dict_get_In in E. apply nth_error_In in Hnth.
      f_equal. clear - Hnd E Hnth. unfold well_keyed, dict_keys in Hnd.
      induction (sessions w) as [|[k v] d IH]; [contradiction|].
      cbn in Hnd. inversion Hnd as [|? ? Hnotin Hnd']; subst.
      destruct E as [E | E], Hnth as [H | H].
      + congruence.
      + injection E as -> ->. exfalso. apply Hnotin.
        change id with (fst (id, s)). now apply in_map.
      + injection H as -> ->. exfalso. apply Hnotin.
        change id with (fst (id, s0)). now apply in_map.
      + now apply IH.
    - apply dict_get_None_keys in E. exfalso. apply E.
      apply nth_error_In in Hnth. change id with (fst (id, s)).
      now apply in_map. }
  split; [|split; [|split]].
  - intros Hidle. eexists. split.
    + apply get_session_expired with (s := s); [assumption|].
      apply is_expired_at_true. subst timeout now1. lia.
    + cbn. apply dict_get_del_same.
  - intros Hidle.
    assert (Hlive : live_at w (clock w (ticks w)) s).
    { unfold live_at. subst timeout now1. lia. }
    do 2 eexists. split; [exact (@get_session_live id w s Hget Hlive)|].
    split; [cbn; apply dict_get_set_same|].
    split; [reflexivity|].
    intros Hagain. do 2 eexists.
    eapply get_session_live.
    + cbn. apply dict_get_set_same.
    + unfold live_at. cbn in Hagain |- *. subst timeout. lia.
  - destruct (is_expired_at now1 (timeout_minutes w) s) eqn:E.
    + rewrite get_session_expired with (s := s) by assumption. tauto.
    + apply is_expired_at_false in E.
      rewrite get_session_live with (s := s) by assumption.
      cbn. split; discriminate.
  - rewrite cleanup_run. cbn [snd world_at sessions].
    rewrite dict_get_del_all, Hget.
    rewrite <- (@expired_ids_spec (clock w) (timeout_minutes w) (ticks w)
                 (sessions w) i id s Hnd Hnth).
    rewrite <- str_mem_In.
    destruct (str_mem id (expired_ids (clock w) (timeout_minutes w) (ticks w) (sessions w)));
      split; congruence.
Qed.

(** A session idle for an hour under a 30 minute timeout, and one idle for
    200 seconds. *)
Lemma get_session_touch_and_expiry_witness :
  (exists w', get_session "id0" (late_world [("id0", stale_session)])
              = (Ok None, w')
              /\ dict_get "id0" (sessions w') = None)
  /\ (exists s' w',
        get_session "id0" (late_world [("id0", fresh_session)])
        = (Ok (Some s'), w')
        /\ last_activity s' = 7201000000).
Proof.
  split.
  - apply (@get_session_touch_and_expiry "id0"
             (late_world [("id0", stale_session)]) stale_session 0).
    + repeat constructor. simpl. tauto.
    + reflexivity.
    + vm_compute. reflexivity.
  - destruct (@get_session_touch_and_expiry "id0"
                (late_world [("id0", fresh_session)]) fresh_session 0)
      as (_ & H & _).
    + repeat constructor. simpl. tauto.
    + reflexivity.
    + destruct H as (s' & w' & Hrun & _ & Hs' & _).
      * vm_compute. discriminate.
      * exists s', w'. split; [exact Hrun|]. rewrite Hs'. reflexivity.
Defined.

(** ** Deletion *)

Lemma delete_session_present (id : string) (w : World) (s : SessionData) :
  dict_get id (sessions w) = Some s ->
  delete_session id w
  = (Ok true, world_at w (dict_del id (sessions w)) (ticks w)).
Proof.
  intros H. cbv beta iota delta [delete_session bind get_sessions dict_mem].
  rewrite H. reflexivity.
Qed.

Lemma delete_session_absent (id : string) (w : World) :
  dict_get id (sessions w) = None -> delete_session id w = (Ok false, w).
Proof.
  intros H. cbv beta iota delta [delete_session bind get_sessions dict_mem].
  rewrite H. reflexivity.
Qed.

(** C10. [delete_session] returns [True] for every key of the table and
    removes it, reading no clock: also for a session that is past its
    timeout and not yet swept, for which [get_session] reports absent and
    [update_session], [add_response] and [add_conversation] return
    [False]. *)
Theorem delete_session_ignores_expiry (id : string) (w : World)
    (s : SessionData) (u : dict PyVal) (qid text um ai ph : string)
    (score : Z) :
  dict_get id (sessions w) = Some s ->
  (exists w', delete_session id w = (Ok true, w')
              /\ dict_get id (sessions w') = None
              /\ ticks w' = ticks w)
  /\ (is_expired_at (clock w (ticks w)) (timeout_minutes w) s = true ->
      fst (get_session id w) = Ok None
      /\ fst (update_session id u w) = Ok false
      /\ fst (add_response id qid text score w) = Ok false
      /\ fst (add_conversation id um ai ph w) = Ok false
      /\ fst (delete_session id w) = Ok true).
Proof.
  intros Hget. split.
  - eexists. split; [apply delete_session_present with (s := s); assumption|].
    split; [cbn; apply dict_get_del_same | reflexivity].
  - intros E.
    rewrite get_session_expired with (s := s) by assumption.
    rewrite update_session_expired with (s := s) by assumption.
    rewrite add_response_expired with (s := s) by assumption.
    rewrite add_conversation_expired with (s := s) by assumption.
    rewrite delete_session_present with (s := s) by assumption.
    repeat split.
Qed.

(** The session idle for an hour: absent for [get_session], deleted with
    result [True]. *)
Lemma delete_session_ignores_expiry_witness :
  fst (get_session "id0" (late_world [("id0", stale_session)])) = Ok None
  /\ fst (delete_session "id0" (late_world [("id0", stale_session)]))
     = Ok true.
Proof.
  destruct (@delete_session_ignores_expiry "id0"
              (late_world [("id0", stale_session)]) stale_session
              [] "q" "t" "u" "a" "p" 0) as [_ H].
  - reflexivity.
  - destruct H as (H1 & _ & _ & _ & H5).
    + vm_compute. reflexivity.
    + split; assumption.
Defined.

(** ** Capacity *)

Lemma narrows_refl (w : World) : narrows w w.
Proof. unfold narrows. auto with arith. Qed.

Lemma narrows_trans (w1 w2 w3 : World) :
  narrows w1 w2 -> narrows w2 w3 -> narrows w1 w3.
Proof.
  unfold narrows. intros (A & B & C) (A' & B' & C').
  split; [congruence|]. split; [lia | auto].
Qed.

Lemma narrows_set (id : string) (w : World) (s e : SessionData) (n : nat) :
  dict_get id (sessions w) = Some s ->
  narrows w (world_at w (dict_set id e (sessions w)) n).
Proof.
  intros H. unfold narrows, well_keyed. cbn.
  split; [reflexivity|]. split.
  - rewrite dict_set_length. unfold dict_mem. rewrite H. lia.
  - apply dict_set_NoDup.
Qed.

Lemma narrows_del (id : string) (w : World) (n : nat) :
  narrows w (world_at w (dict_del id (sessions w)) n).
Proof.
  unfold narrows, well_keyed. cbn.
  split; [reflexivity|]. split.
  - apply dict_del_length_le.
  - apply dict_del_NoDup.
Qed.

Lemma narrows_ticks (w : World) (n : nat) :
  narrows w (world_at w (sessions w) n).
Proof. unfold narrows, well_keyed. cbn. auto with arith. Qed.

Lemma get_session_narrows (id : string) (w : World) :
  narrows w (snd (get_session id w)).
Proof.
  destruct (dict_get id (sessions w)) as [s|] eqn:Hget.
  - destruct (is_expired_at (clock w (ticks w)) (timeout_minutes w) s) eqn:E.
    + rewrite get_session_expired with (s := s) by assumption.
      apply narrows_del.
    + apply is_expired_at_false in E.
      rewrite get_session_live with (s := s) by assumption.
      now apply narrows_set with (s := s).
  - rewrite get_session_absent by assumption. apply narrows_refl.
Qed.

(** The loop of [update_session] only rewrites the entry of its key, also
    when it stops on an exception. *)
Lemma apply_updates_narrows (id : string) (u : dict PyVal) (w : World)
    (s s0 : SessionData) :
  dict_get id (sessions w) = Some s0 ->
  narrows w (snd (apply_updates id u s w))
  /\ exists s1, dict_get id (sessions (snd (apply_updates id u s w))) = Some s1.
Proof.
  revert w s s0. induction u as [|[field value] u IH]; intros w s s0 Hget.
  - cbn. split; [apply narrows_refl | eauto].
  - cbn [apply_updates]. destruct (str_mem field allowed_fields).
    + cbv beta iota delta [bind lift_res store get_sessions put_sessions].
      destruct (coerce_update field value) as [value'| |]; cbn [snd];
        try (split; [apply narrows_refl | eauto]).
      destruct (setattr s field value') as [s1| |]; cbn [snd];
        try (split; [apply narrows_refl | eauto]).
      set (w1 := with_sessions (dict_set id s1 (sessions w)) w).
      assert (H1 : dict_get id (sessions w1) = Some s1)
        by (cbn; apply dict_get_set_same).
      destruct (IH w1 s1 s1 H1) as [Hn Hex].
      destruct (apply_updates id u s1 w1) as [[a| |] w2]; cbn [snd] in *;
        (split; [| exact Hex]);
        (eapply narrows_trans; [| exact Hn]);
        apply (@narrows_set id w s0 s1 (ticks w) Hget).
    + now apply IH with (s0 := s0).
Qed.

Lemma update_session_narrows (id : string) (u : dict PyVal) (w : World) :
  narrows w (snd (update_session id u w)).
Proof.
  destruct (dict_get id (sessions w)) as [s|] eqn:Hget.
  - destruct (is_expired_at (clock w (ticks w)) (timeout_minutes w) s) eqn:E.
    + rewrite update_session_expired with (s := s) by assumption.
      apply narrows_del.
    + apply is_expired_at_false in E.
      cbv beta iota delta [update_session bind].
      rewrite get_session_live with (s := s) by assumption.
      set (s1 := set_last_activity _ s).
      set (w1 := world_at w _ _).
      assert (H1 : dict_get id (sessions w1) = Some s1)
        by (cbn; apply dict_get_set_same).
      destruct (@apply_updates_narrows id u w1 s1 s1 H1) as [Hn [s2 Hex]].
      assert (Hw1 : narrows w w1) by now apply narrows_set with (s := s).
      destruct (apply_updates id u s1 w1) as [[a| |] w2]; cbn [snd] in *;
        try (eapply narrows_trans; eassumption).
      cbv beta iota delta
        [update_activity bind now ret store get_sessions put_sessions].
      cbn [snd]. eapply narrows_trans; [exact Hw1|].
      eapply narrows_trans; [exact Hn|].
      apply (@narrows_set id (with_ticks (S (ticks w2)) w2) s2 _
               (S (ticks w2))).
      exact Hex.
  - rewrite update_session_absent by assumption. apply narrows_refl.
Qed.

Lemma add_response_narrows (id qid text : string) (score : Z) (w : World) :
  narrows w (snd (add_response id qid text score w)).
Proof.
  destruct (dict_get id (sessions w)) as [s|] eqn:Hget.
  - destruct (is_expired_at (clock w (ticks w)) (timeout_minutes w) s) eqn:E.
    + rewrite add_response_expired with (s := s) by assumption.
      apply narrows_del.
    + apply is_expired_at_false in E.
      rewrite add_response_live with (s := s) by assumption.
      now apply narrows_set with (s := s).
  - rewrite add_response_absent by assumption. apply narrows_refl.
Qed.

Lemma add_conversation_narrows (id um ai ph : string) (w : World) :
  narrows w (snd (add_conversation id um ai ph w)).
Proof.
  destruct (dict_get id (sessions w)) as [s|] eqn:Hget.
  - destruct (is_expired_at (clock w (ticks w)) (timeout_minutes w) s) eqn:E.
    + rewrite add_conversation_expired with (s := s) by assumption.
      apply narrows_del.
    + apply is_expired_at_false in E.
      rewrite add_conversation_live with (s := s) by assumption.
      now apply narrows_set with (s := s).
  - rewrite add_conversation_absent by assumption. apply narrows_refl.
Qed.

Lemma delete_session_narrows (id : string) (w : World) :
  narrows w (snd (delete_session id w)).
Proof.
  destruct (dict_get id (sessions w)) as [s|] eqn:Hget.
  - rewrite delete_session_present with (s := s) by assumption.
    apply narrows_del.
  - rewrite delete_session_absent by assumption. apply narrows_refl.
Qed.

Lemma cleanup_narrows (w : World) :
  narrows w (snd (cleanup_expired_sessions w)).
Proof.
  rewrite cleanup_run. unfold narrows, well_keyed. cbn.
  split; [reflexivity|]. split.
  - apply dict_del_all_length_le.
  - apply dict_del_all_NoDup.
Qed.

(** ** Eviction of the oldest session *)

Lemma py_min_from_spec (A : Type) (key : A -> Z) (best : A) (l : list A) :
  let m := py_min_from key best l in
  (m = best \/ In m l)
  /\ key m <= key best
  /\ forall y, In y l -> key m <= key y.
Proof.
  revert best. induction l as [|x l IH]; intros best; cbn.
  - split; [now left|]. split; [lia | contradiction].
  - destruct (key x <? key best) eqn:E.
    + apply Z.ltb_lt in E. destruct (IH x) as (H1 & H2 & H3).
      split; [destruct H1 as [-> | H1]; auto|].
      split; [lia|]. intros y [<- | Hy]; auto.
    + apply Z.ltb_ge in E. destruct (IH best) as (H1 & H2 & H3).
      split; [destruct H1; auto|].
      split; [assumption|]. intros y [<- | Hy]; [lia | auto].
Qed.

Lemma py_min_spec (A : Type) (key : A -> Z) (l : list A) (m : A) :
  py_min key l = Some m ->
  In m l /\ forall y, In y l -> key m <= key y.
Proof.
  destruct l as [|x l]; cbn; [discriminate|]. intros [= <-].
  destruct (py_min_from_spec key x l) as (H1 & H2 & H3).
  split; [destruct H1 as [-> | H1]; auto|].
  intros y [<- | Hy]; auto.
Qed.

Lemma enforce_below_limit (w : World) :
  Z.of_nat (length (sessions w)) < max_sessions w ->
  enforce_max_sessions w = (Ok tt, w).
Proof.
  intros H.
  cbv beta iota delta [enforce_max_sessions bind get_sessions get_max_sessions].
  destruct (Z.of_nat (length (sessions w)) >=? max_sessions w) eqn:E;
    [|reflexivity].
  rewrite Z.geb_le in E. lia.
Qed.

(** At the limit the guard sweeps first; if the sweep made room nothing else
    is removed, else the single least recently active session is. *)
Lemma enforce_at_limit (w : World) :
  1 <= max_sessions w ->
  max_sessions w <= Z.of_nat (length (sessions w)) ->
  let w1 := snd (cleanup_expired_sessions w) in
  (Z.of_nat (length (sessions w1)) < max_sessions w ->
   enforce_max_sessions w = (Ok tt, w1))
  /\ (max_sessions w <= Z.of_nat (length (sessions w1)) ->
      exists oldest s_old,
        dict_get oldest (sessions w1) = Some s_old
        /\ oldest_in (sessions w1) s_old
        /\ enforce_max_sessions w
           = (Ok tt,
              world_at w1 (dict_del oldest (sessions w1)) (ticks w1))).
Proof.
  intros Hmax Hfull w1. subst w1.
  cbv beta iota delta [enforce_max_sessions bind get_sessions get_max_sessions].
  destruct (Z.of_nat (length (sessions w)) >=? max_sessions w) eqn:E;
    [| rewrite Z.geb_leb, Z.leb_gt in E; lia].
  rewrite cleanup_run. cbn [snd].
  set (w1 := world_at w _ _).
  change (max_sessions w) with (max_sessions w1).
  split.
  - intros Hroom.
    destruct (Z.of_nat (length (sessions w1)) >=? max_sessions w1) eqn:E1;
      [rewrite Z.geb_le in E1; lia | reflexivity].
  - intros Hstill.
    destruct (Z.of_nat (length (sessions w1)) >=? max_sessions w1) eqn:E1;
      [| rewrite Z.geb_leb, Z.leb_gt in E1; lia].
    destruct (py_min (activity_of (sessions w1)) (dict_keys (sessions w1)))
      as [oldest|] eqn:Hmin.
    + apply py_min_spec in Hmin. destruct Hmin as [Hin Hle].
      apply dict_get_Some_keys in Hin. destruct Hin as [s_old Hs].
      exists oldest, s_old. split; [assumption|]. split; [|reflexivity].
      intros k s' Hk. specialize (Hle k).
      unfold activity_of in Hle. rewrite Hs, Hk in Hle. apply Hle.
      apply dict_get_Some_keys. eauto.
    + exfalso. unfold dict_keys, py_min in Hmin.
      destruct (sessions w1); [cbn in Hstill; cbn in Hmax; lia | discriminate].
Qed.

(** ** Creation *)

Lemma dict_set_absent (V : Type) (k : string) (v : V) (d : dict V) :
  dict_get k d = None -> dict_set k v d = (d ++ [(k, v)])%list.
Proof.
  induction d as [|[k0 v0] d IH]; cbn; [reflexivity|].
  destruct (String.eqb k k0); [discriminate|].
  intros H. now rewrite IH.
Qed.

(** The redraw loop changes nothing but the number of identifiers drawn,
    raises nothing, and what it returns is not a key of the table. *)
Lemma unique_session_id_cases (fuel : nat) (sid : string) (w : World) :
  match unique_session_id fuel sid w with
  | (Ok sid', w') =>
      dict_get sid' (sessions w) = None /\ exists n, w' = with_draws n w
  | (Raise _, _) => False
  | (NoReturn, w') => exists n, w' = with_draws n w
  end.
Proof.
  revert sid w. induction fuel as [|fuel IH]; intros sid w.
  - cbv beta iota delta [unique_session_id bind get_sessions dict_mem ret].
    destruct (dict_get sid (sessions w)) eqn:E.
    + exists (draws w). now destruct w.
    + split; [assumption|]. exists (draws w). now destruct w.
  - cbn [unique_session_id].
    cbv beta iota delta [bind get_sessions dict_mem ret new_uuid].
    destruct (dict_get sid (sessions w)) eqn:E.
    + specialize (IH (uuid4 w (draws w)) (with_draws (S (draws w)) w)).
      destruct (unique_session_id fuel (uuid4 w (draws w))
                  (with_draws (S (draws w)) w)) as [[sid'| |] w'].
      * destruct IH as [H [n ->]]. split; [exact H|]. now exists n.
      * exact IH.
      * destruct IH as [n ->]. now exists n.
    + split; [assumption|]. exists (draws w). now destruct w.
Qed.

(** Enough fuel: if the identifier in hand or one of the next [fuel]
    draws is not a key, the loop returns. *)
Lemma unique_session_id_returns (fuel : nat) (sid : string) (w : World) :
  (dict_get sid (sessions w) = None
   \/ exists k, (k < fuel)%nat
                /\ dict_get (uuid4 w (draws w + k)) (sessions w) = None) ->
  exists sid' w', unique_session_id fuel sid w = (Ok sid', w').
Proof.
  revert sid w. induction fuel as [|fuel IH]; intros sid w H.
  - destruct H as [H | [k [Hk _]]]; [|lia].
    cbv beta iota delta [unique_session_id bind get_sessions dict_mem ret].
    rewrite H. eauto.
  - cbn [unique_session_id].
    cbv beta iota delta [bind get_sessions dict_mem ret new_uuid].
    destruct (dict_get sid (sessions w)) eqn:E; [|eauto].
    destruct H as [H | [k [Hk Hfresh]]]; [discriminate|].
    destruct (IH (uuid4 w (draws w)) (with_draws (S (draws w)) w))
      as (sid' & w' & Hrun).
    + destruct k as [|k].
      * left. rewrite Nat.add_0_r in Hfresh. exact Hfresh.
      * right. exists k. split; [lia|]. cbn.
        replace (S (draws w + k)) with (draws w + S k)%nat by lia.
        exact Hfresh.
    + rewrite Hrun. eauto.
Qed.

(** What [create_session] does once the capacity guard has returned. *)
Lemma create_session_after_guard (fuel : nat) (un co : option string)
    (w w2 : World) :
  enforce_max_sessions w = (Ok tt, w2) ->
  match create_session fuel un co w with
  | (Ok sid, w') =>
      dict_get sid (sessions w2) = None
      /\ sessions w'
         = (sessions w2
            ++ [(sid, initial_session sid un co (clock w2 (ticks w2))
                        (clock w2 (S (ticks w2))))])%list
      /\ max_sessions w' = max_sessions w2
  | (Raise _, _) => False
  | (NoReturn, w') =>
      sessions w' = sessions w2 /\ max_sessions w' = max_sessions w2
  end.
Proof.
  intros Hguard.
  cbv beta iota delta [create_session bind]. rewrite Hguard.
  cbv beta iota delta [new_uuid].
  pose proof (unique_session_id_cases fuel (uuid4 w2 (draws w2))
                (with_draws (S (draws w2)) w2)) as Hu.
  destruct (unique_session_id fuel (uuid4 w2 (draws w2))
              (with_draws (S (draws w2)) w2)) as [[sid| |] w3].
  - destruct Hu as [Hfresh [n ->]]. cbn in Hfresh.
    cbv beta iota delta
      [new_session_data bind now ret store get_sessions put_sessions].
    cbn. split; [assumption|]. split; [|reflexivity].
    now rewrite dict_set_absent.
  - exact Hu.
  - destruct Hu as [n ->]. cbn. auto.
Qed.

Lemma create_session_returns (fuel : nat) (un co : option string)
    (w w2 : World) :
  enforce_max_sessions w = (Ok tt, w2) ->
  fresh_draw_within fuel w2 ->
  exists sid w', create_session fuel un co w = (Ok sid, w').
Proof.
  intros Hguard [k [Hk Hfresh]].
  cbv beta iota delta [create_session bind]. rewrite Hguard.
  cbv beta iota delta [new_uuid].
  destruct (@unique_session_id_returns fuel (uuid4 w2 (draws w2))
              (with_draws (S (draws w2)) w2)) as (sid & w3 & Hrun).
  - destruct k as [|k].
    + left. rewrite Nat.add_0_r in Hfresh. exact Hfresh.
    + right. exists k. split; [lia|]. cbn.
      replace (S (draws w2 + k)) with (draws w2 + S k)%nat by lia.
      exact Hfresh.
  - rewrite Hrun.
    cbv beta iota delta
      [new_session_data bind now ret store get_sessions put_sessions].
    eauto.
Qed.

Lemma narrows_within_capacity (w w' : World) :
  narrows w w' -> within_capacity w -> within_capacity w'.
Proof.
  unfold narrows, within_capacity. intros (A & B & C) (D & E).
  split; [auto | lia].
Qed.

(** The guard leaves room for one more session and raises nothing. *)
Lemma enforce_makes_room (w : World) :
  1 <= max_sessions w -> within_capacity w ->
  exists w2,
    enforce_max_sessions w = (Ok tt, w2)
    /\ well_keyed w2
    /\ max_sessions w2 = max_sessions w
    /\ Z.of_nat (length (sessions w2)) < max_sessions w.
Proof.
  intros Hmax [Hnd Hlen].
  destruct (Z_lt_le_dec (Z.of_nat (length (sessions w))) (max_sessions w))
    as [Hlt | Hfull].
  - exists w. rewrite enforce_below_limit by assumption. auto.
  - destruct (@enforce_at_limit w Hmax Hfull) as [Hroom Hstill].
    pose proof (cleanup_narrows w) as (Hm1 & Hl1 & Hk1).
    set (w1 := snd (cleanup_expired_sessions w)) in *.
    destruct (Z_lt_le_dec (Z.of_nat (length (sessions w1))) (max_sessions w))
      as [Hlt1 | Hfull1].
    + exists w1. rewrite Hroom by assumption. auto.
    + destruct (Hstill Hfull1) as (oldest & s_old & Hget & _ & Hrun).
      eexists. split; [exact Hrun|]. unfold well_keyed.
      cbn [world_at sessions max_sessions].
      split; [apply dict_del_NoDup; apply Hk1, Hnd|].
      split; [assumption|].
      assert (S (length (dict_del oldest (sessions w1)))
              = length (sessions w1)).
      { apply dict_del_length_present; [apply Hk1, Hnd|].
        apply dict_get_Some_keys. eauto. }
      lia.
Qed.

Lemma create_session_within_capacity (fuel : nat) (un co : option string)
    (w : World) :
  1 <= max_sessions w -> within_capacity w ->
  within_capacity (snd (create_session fuel un co w))
  /\ max_sessions (snd (create_session fuel un co w)) = max_sessions w.
Proof.
  intros Hmax Hcap.
  destruct (@enforce_makes_room w Hmax Hcap) as (w2 & Hguard & Hnd & Hm & Hlen).
  pose proof (@create_session_after_guard fuel un co w _ Hguard) as H.
  destruct (create_session fuel un co w) as [[sid| |] w']; cbn [snd].
  - destruct H as (Hfresh & Hs & Hm'). unfold within_capacity, well_keyed.
    rewrite Hs, Hm'. split; [split|congruence].
    + rewrite <- dict_set_absent by assumption. now apply dict_set_NoDup.
    + rewrite length_app. cbn. lia.
  - contradiction.
  - destruct H as [Hs Hm']. unfold within_capacity, well_keyed.
    rewrite Hs, Hm'. split; [split; [assumption | lia] | congruence].
Qed.

Lemma run_op_within_capacity (op : StoreOp) (w : World) :
  1 <= max_sessions w -> within_capacity w ->
  within_capacity (run_op op w) /\ max_sessions (run_op op w) = max_sessions w.
Proof.
  intros Hmax Hcap.
  assert (Hn : forall w', narrows w w' ->
                 within_capacity w' /\ max_sessions w' = max_sessions w).
  { intros w' Hn. split; [now apply narrows_within_capacity with (w := w)|].
    apply Hn. }
  destruct op; cbn [run_op].
  - now apply create_session_within_capacity.
  - apply Hn, get_session_narrows.
  - apply Hn, update_session_narrows.
  - apply Hn, add_response_narrows.
  - apply Hn, add_conversation_narrows.
  - apply Hn, delete_session_narrows.
  - apply Hn, cleanup_narrows.
Qed.

Lemma run_ops_within_capacity (ops : list StoreOp) (w : World) :
  1 <= max_sessions w -> within_capacity w ->
  within_capacity (run_ops ops w)
  /\ max_sessions (run_ops ops w) = max_sessions w.
Proof.
  revert w. induction ops as [|op ops IH]; intros w Hmax Hcap.
  - cbn. auto.
  - change (run_ops (op :: ops) w) with (run_ops ops (run_op op w)).
    destruct (@run_op_within_capacity op w Hmax Hcap) as [Hcap' Hm'].
    destruct (IH (run_op op w)) as [Hcap'' Hm'']; [lia | assumption |].
    split; [exact Hcap'' | congruence].
Qed.

(** C5. With [max_sessions >= 1], from a store within its capacity (the
    empty store of a new manager is), no sequence of store operations
    takes the number of stored sessions above [max_sessions]. A
    [create_session] issued at the limit first runs the expiry sweep; if the
    sweep made room it evicts nothing; if the store is still at the limit it
    removes exactly one session, one whose [last_activity] is the oldest of
    the store, and then appends the new session, which starts in GREETING.
    The call returns as soon as one of the identifiers drawn within the
    fuel is not a stored key. *)
Theorem store_never_exceeds_max_sessions (w : World) :
  1 <= max_sessions w ->
  within_capacity w ->
  (forall ops,
     Z.of_nat (length (sessions (run_ops ops w))) <= max_sessions w)
  /\ (forall fuel un co,
        Z.of_nat (length (sessions w)) = max_sessions w ->
        fresh_draw_within fuel w ->
        let w1 := snd (cleanup_expired_sessions w) in
        exists sid w' t_start t_last,
          create_session fuel un co w = (Ok sid, w')
          /\ let new_entry :=
               (sid, initial_session sid un co t_start t_last) in
             (Z.of_nat (length (sessions w1)) < max_sessions w ->
              sessions w' = (sessions w1 ++ [new_entry])%list)
             /\ (Z.of_nat (length (sessions w1)) = max_sessions w ->
                 exists oldest s_old,
                   dict_get oldest (sessions w1) = Some s_old
                   /\ oldest_in (sessions w1) s_old
                   /\ sessions w'
                      = (dict_del oldest (sessions w1) ++ [new_entry])%list
                   /\ length (sessions w') = length (sessions w1))).
Proof.
  intros Hmax Hcap. split.
  - intros ops.
    destruct (@run_ops_within_capacity ops w Hmax Hcap) as [[_ H] Hm]. lia.
  - intros fuel un co Hfull Hfresh w1.
    destruct Hcap as [Hnd Hlen].
    assert (Hfull' : max_sessions w <= Z.of_nat (length (sessions w))) by lia.
    destruct (@enforce_at_limit w Hmax Hfull') as [Hroom Hstill].
    fold w1 in Hroom, Hstill.
    pose proof (cleanup_narrows w) as (Hm1 & Hl1 & Hk1). fold w1 in Hm1, Hl1, Hk1.
    assert (Hw1 : w1 = world_at w (sessions w1) (ticks w1)).
    { subst w1. rewrite cleanup_run. reflexivity. }
    assert (Hsub : forall k, dict_get k (sessions w) = None ->
                             dict_get k (sessions w1) = None).
    { intros k Hk. subst w1. rewrite cleanup_run. cbn.
      rewrite dict_get_del_all, Hk. now destruct (str_mem _ _). }
    destruct Hfresh as [k [Hk Hkfresh]].
    destruct (Z_lt_le_dec (Z.of_nat (length (sessions w1))) (max_sessions w))
      as [Hlt1 | Hfull1].
    + specialize (Hroom Hlt1).
      destruct (@create_session_returns fuel un co w w1 Hroom)
        as (sid & w' & Hrun).
      { exists k. split; [assumption|]. rewrite Hw1. cbn. now apply Hsub. }
      pose proof (@create_session_after_guard fuel un co w _ Hroom) as H.
      rewrite Hrun in H. destruct H as (_ & Hs & _).
      exists sid, w', (clock w1 (ticks w1)), (clock w1 (S (ticks w1))).
      split; [exact Hrun|]. cbv zeta. split; [auto | lia].
    + destruct (Hstill Hfull1) as (oldest & s_old & Hget & Hold & Hguard).
      destruct (@create_session_returns fuel un co w _ Hguard)
        as (sid & w' & Hrun).
      { exists k. split; [assumption|]. rewrite Hw1. cbn.
        destruct (string_dec (uuid4 w (draws w + k)) oldest) as [-> | Hne].
        - apply dict_get_del_same.
        - rewrite dict_get_del_other by assumption. now apply Hsub. }
      pose proof (@create_session_after_guard fuel un co w _ Hguard) as H.
      rewrite Hrun in H. destruct H as (_ & Hs & _). cbn in Hs.
      exists sid, w', (clock w1 (ticks w1)), (clock w1 (S (ticks w1))).
      split; [exact Hrun|]. cbv zeta. split; [lia|].
      intros _. exists oldest, s_old.
      split; [assumption|]. split; [assumption|]. split; [exact Hs|].
      rewrite Hs, length_app. cbn.
      assert (S (length (dict_del oldest (sessions w1)))
              = length (sessions w1)).
      { apply dict_del_length_present; [apply Hk1, Hnd|].
        apply dict_get_Some_keys. eauto. }
      lia.
Qed.

(** A full store of two live sessions: the sweep removes nothing, the less
    recently active session ["b"] is evicted, and ["id0"] is appended. *)
Lemma store_never_exceeds_max_sessions_witness :
  (forall ops,
     Z.of_nat (length (sessions (run_ops ops full_world))) <= 2)
  /\ exists w',
       create_session 0 None None full_world = (Ok "id0", w')
       /\ dict_keys (sessions w') = ["a"; "id0"].
Proof.
  destruct (@store_never_exceeds_max_sessions full_world) as [Hbound Hcreate].
  - vm_compute. discriminate.
  - split.
    + repeat constructor; simpl; intuition discriminate.
    + vm_compute. discriminate.
  - split; [exact Hbound|].
    destruct (Hcreate 0%nat None None) as (sid & w' & t1 & t2 & Hrun & _).
    + reflexivity.
    + exists 0%nat. split; [lia | reflexivity].
    + exists (snd (create_session 0 None None full_world)).
      split; reflexivity.
Defined.

(** ** The detector is total *)

(** C3. [check_for_crisis] returns for every Python value and raises
    nothing. For a value that is not a string, and for the empty string,
    the level is NONE. For a non-empty string the text is lowercased and
    trimmed, and the level is CRITICAL exactly when the lowercased form of
    some configured trigger occurs as a substring of that text; the
    response then lists the matching triggers, in configuration order, with
    the configured crisis message and [requires_override]; otherwise the
    level is NONE, with no trigger and an empty message. *)
Theorem check_for_crisis_total (sm : SafetyMonitor) (text : PyVal)
    (w : World) :
  exists r w',
    check_for_crisis sm text w = (Ok r, w')
    /\ match text with
       | PyStr EmptyString => is_none_response r
       | PyStr s =>
           let normalized_text := strip (lower s) in
           ((exists trigger, In trigger (critical_triggers sm)
                             /\ occurs_in (lower trigger) normalized_text)
            <-> level r = CRITICAL)
           /\ (level r = CRITICAL ->
               (forall trigger,
                  In trigger (triggered_words r)
                  <-> In trigger (critical_triggers sm)
                      /\ occurs_in (lower trigger) normalized_text)
               /\ triggered_words r
                  = filter (fun t => str_in (lower t) normalized_text)
                           (critical_triggers sm)
               /\ message r = crisis_response_message sm
               /\ requires_override r = true)
           /\ (level r <> CRITICAL -> is_none_response r)
       | _ => is_none_response r
       end.
Proof.
  destruct (check_for_crisis_run sm text w) as [r [Hrun [_ H]]].
  exists r. eexists. split; [exact Hrun|].
  destruct text as [| b | z | s | | p | t];
    try (unfold is_none_response; tauto).
  destruct s as [|c s']; [unfold is_none_response; tauto|].
  cbv zeta. set (normalized_text := strip (lower (String c s'))) in *.
  assert (Hmem : forall trigger,
             In trigger (matched_triggers sm normalized_text)
             <-> In trigger (critical_triggers sm)
                 /\ occurs_in (lower trigger) normalized_text).
  { intros trigger. unfold matched_triggers. rewrite filter_In.
    unfold occurs_in. now rewrite str_in_spec. }
  destruct (matched_triggers sm normalized_text) as [|t0 found] eqn:E.
  - destruct H as (Hl & Hw & Hm & Ho). split; [|split].
    + split; [|congruence]. intros [trigger Ht].
      apply Hmem in Ht. contradiction.
    + congruence.
    + intros _. unfold is_none_response. auto.
  - destruct H as (Hl & Hw & Hm & Ho). split; [|split].
    + split; [auto|]. intros _. exists t0. apply Hmem. now left.
    + intros _. rewrite Hw. split; [exact Hmem|].
      split; [symmetry; exact E | auto].
    + congruence.
Qed.

(** Trimming loses no occurrence of a phrase that neither starts nor ends
    with white space: for such a trigger the detector finds it anywhere in
    the lowercased text, trimmed or not. *)

Lemma str_app_assoc (a b c : string) : (a ++ b) ++ c = a ++ (b ++ c).
Proof. induction a as [|x a IH]; cbn; [reflexivity | now rewrite IH]. Qed.

Lemma lstrip_suffix (s : string) : exists l, s = l ++ lstrip s.
Proof.
  induction s as [|c s [l IH]]; cbn.
  - now exists "".
  - destruct (isspace c).
    + exists (String c l). cbn. now rewrite <- IH.
    + now exists "".
Qed.

Lemma rstrip_prefix (s : string) : exists r, s = rstrip s ++ r.
Proof.
  induction s as [|c s [r IH]]; cbn.
  - now exists "".
  - destruct (isspace c && is_empty (rstrip s)) eqn:E.
    + now exists (String c s).
    + exists r. cbn. now rewrite <- IH.
Qed.

Lemma lstrip_keeps (a : ascii) (m pre post : string) :
  isspace a = false ->
  exists pre', lstrip (pre ++ String a m ++ post) = pre' ++ String a m ++ post.
Proof.
  intros Ha. induction pre as [|c pre [pre' IH]]; cbn.
  - rewrite Ha. now exists "".
  - destruct (isspace c).
    + now exists pre'.
    + now exists (String c pre).
Qed.

Lemma rstrip_app (p q : string) :
  is_empty (rstrip q) = false -> rstrip (p ++ q) = p ++ rstrip q.
Proof.
  intros Hq. induction p as [|c p IH]; cbn; [reflexivity|].
  rewrite IH. destruct (rstrip q); [discriminate|].
  replace (is_empty (p ++ String a s)) with false
    by (now destruct p).
  now rewrite andb_false_r.
Qed.

Lemma rstrip_keeps (z : ascii) (u pre post : string) :
  isspace z = false ->
  exists post',
    rstrip (pre ++ (u ++ String z "") ++ post)
    = pre ++ (u ++ String z "") ++ post'.
Proof.
  intros Hz. exists (rstrip post).
  assert (H1 : rstrip (String z post) = String z (rstrip post))
    by (cbn; now rewrite Hz).
  rewrite !str_app_assoc. cbn [append].
  rewrite rstrip_app; [rewrite rstrip_app|].
  - now rewrite H1.
  - now rewrite H1.
  - rewrite rstrip_app by now rewrite H1.
    rewrite H1. now destruct u.
Qed.

Lemma trimming_keeps_trigger (a z : ascii) (m u sub s : string) :
  sub = String a m -> isspace a = false ->
  sub = u ++ String z "" -> isspace z = false ->
  (occurs_in sub s <-> occurs_in sub (strip s)).
Proof.
  intros Hfirst Ha Hlast Hz. unfold occurs_in, strip. split.
  - intros (pre & post & ->).
    destruct (@lstrip_keeps a m pre post Ha) as [pre' H1].
    rewrite Hfirst, H1, <- Hfirst, Hlast.
    destruct (@rstrip_keeps z u pre' post Hz) as [post' H2].
    rewrite H2. now exists pre', post'.
  - intros (pre & post & H).
    destruct (lstrip_suffix s) as [l Hl].
    destruct (rstrip_prefix (lstrip s)) as [r Hr].
    exists (l ++ pre), (post ++ r).
    rewrite Hl at 1. rewrite Hr at 1. rewrite H.
    now rewrite !str_app_assoc.
Qed.

(** ** Dispatch *)

(** A live session that is not in crisis, with a message that is not
    critical, reaches the handler of its phase after three readings of the
    clock, with the touched session as its snapshot. *)
Lemma process_user_message_dispatch (fm : ConversationFlowManager)
    (id msg : string) (w : World) (s : SessionData) :
  dict_get id (sessions w) = Some s ->
  live_at w (clock w (ticks w)) s ->
  detector_level (safety_monitor fm) (PyStr msg) w <> Some CRITICAL ->
  crisis_detected s = false ->
  let s1 := set_last_activity (clock w (S (ticks w))) s in
  let w1 := world_at w (dict_set id s1 (sessions w)) (3 + ticks w) in
  process_user_message fm id msg w
  = try_catch (phase_handler fm id msg s1)
      (fun e =>
         session' <- deref id s1 ;;
         ret (Reply.with_error ("Failed to process message: " ++ exn_str e)
                (_get_error_response session' "")))
      w1.
Proof.
  intros Hget Hlive Hlv Hflag s1 w1.
  cbv beta iota delta [process_user_message bind].
  rewrite get_session_live with (s := s) by assumption.
  fold s1. cbv beta iota delta [try_catch bind].
  edestruct check_for_crisis_not_critical as [r [Hrun Hover]]; [exact Hlv|].
  rewrite Hrun, Hover.
  assert (Hc : crisis_detected s1 = false) by exact Hflag.
  rewrite Hc. reflexivity.
Qed.

(** ** Triage *)

(** The triage handler on a match: tool and phase are written, the first
    question is emitted, and the responses of the session are what they
    were: the [responses={}] keyword is not in the whitelist of
    [update_session]. *)
Lemma triage_match_run (fm : ConversationFlowManager)
    (id msg name first_q : string) (w : World) (s : SessionData) :
  dict_get id (sessions w) = Some s ->
  live_at w (clock w (ticks w)) s ->
  calm w 7 ->
  route (lower msg) (routing (moodSelection (config fm))) = Some name ->
  name <> "" ->
  nth_error (questions
               (questionnaire_of (config fm)
                  (tool_name_of (routed_tool name)))) 0 = Some first_q ->
  exists s' r,
    _handle_triage_phase fm id msg s w
    = (Ok r, world_at w (dict_set id s' (sessions w)) (7 + ticks w))
    /\ selected_tool s' = Some (routed_tool name)
    /\ current_phase s' = SCREENING
    /\ responses s' = responses s
    /\ crisis_detected s' = crisis_detected s
    /\ Reply.ai_response r = Some (triage_transition_prefix ++ first_q)
    /\ Reply.current_phase r = Some "SCREENING"
    /\ Reply.selected_tool r = Some (tool_name_of (routed_tool name))
    /\ Reply.question_number r = Some 1
    /\ Reply.error r = None.
Proof.
  intros Hget Hlive Hcalm Hroute Hname Hq.
  cbv beta iota zeta delta [_handle_triage_phase try_catch].
  rewrite Hroute. cbn [or_default].
  destruct name as [|c name]; [congruence|]. cbn [is_empty].
  assert (Hpair :
    (let '(tool_enum, selected_tool_name) :=
       match dict_get (String c name) tool_mapping with
       | Some tool => (tool, String c name)
       | None => (GHQ12, "GHQ12")
       end in (tool_enum, selected_tool_name))
    = (routed_tool (String c name), tool_name_of (routed_tool (String c name)))).
  { unfold routed_tool, tool_mapping. cbn [dict_get].
    destruct (String.eqb (String c name) "PHQ9") eqn:E1;
      [apply String.eqb_eq in E1; rewrite E1; reflexivity|].
    destruct (String.eqb (String c name) "GAD7") eqn:E2;
      [apply String.eqb_eq in E2; rewrite E2; reflexivity|].
    destruct (String.eqb (String c name) "GHQ12") eqn:E3;
      [apply String.eqb_eq in E3; rewrite E3; reflexivity|].
    reflexivity. }
  destruct (match dict_get (String c name) tool_mapping with
            | Some tool => (tool, String c name)
            | None => (GHQ12, "GHQ12")
            end) as [tool_enum tool_name] eqn:Epair.
  injection Hpair as -> ->.
  destruct (routed_tool (String c name));
    cbv beta iota delta [bind];
    (erewrite update_session_live;
       [| eassumption | assumption | reflexivity]);
    cbv beta iota delta [list_item]; rewrite Hq;
    cbv beta iota delta [ret];
    (erewrite add_conversation_live;
       [| cbn; apply dict_get_set_same | live_by Hcalm]);
    do 2 eexists;
    (split; [cbn; rewrite dict_set_set; reflexivity|]);
    cbn; repeat split; reflexivity.
Qed.

(** C8 (defect). A TRIAGE message that matches a routing keyword, for a
    session that still holds a response: the tool is selected, the phase
    becomes SCREENING and question 1 is emitted, but the stale response is
    still there afterwards. *)
Theorem triage_keeps_stale_responses :
  exists r w' s',
    process_user_message demo_flow "id0" "I feel sad"
      (demo_world_with triage_with_stale_response) = (Ok r, w')
    /\ dict_get "id0" (sessions w') = Some s'
    /\ selected_tool s' = Some PHQ9
    /\ current_phase s' = SCREENING
    /\ Reply.question_number r = Some 1
    /\ responses s' = [demo_response "gad7_1" "often" 2]
    /\ responses s' <> [].
Proof.
  do 3 eexists. split; [vm_compute; reflexivity|].
  split; [vm_compute; reflexivity|].
  repeat split; try reflexivity. discriminate.
Qed.

(** ** Screening and results *)

Lemma map_response_to_score_run (fm : ConversationFlowManager)
    (msg name : string) (w0 w : World) (score : Z) :
  fst (_map_response_to_score fm msg name w0) = Ok score ->
  _map_response_to_score fm msg name w = (Ok score, w).
Proof.
  cbv beta iota zeta delta [_map_response_to_score ret raise].
  destruct (if String.eqb name "GHQ12"
            then ghqScale (answerMapping (config fm))
            else standardScale (answerMapping (config fm))); cbn.
  - now intros [= ->].
  - discriminate.
Qed.

Lemma find_severity_band (total : Z) (th : dict (Z * Z)) (default : string) :
  find_severity total th default = or_default (band_of total th) default.
Proof.
  unfold band_of. induction th as [|[name [lo hi]] th IH]; cbn;
    [reflexivity|].
  destruct ((lo <=? total) && (total <=? hi)); cbn; [reflexivity | exact IH].
Qed.

Lemma py_sum_from (l : list Z) (a : Z) : fold_left Z.add l a = a + py_sum l.
Proof.
  unfold py_sum. revert a. induction l as [|x l IH]; intros a; cbn; [lia|].
  rewrite IH. rewrite (IH x). lia.
Qed.

Lemma py_sum_app (l : list Z) (x : Z) : py_sum (l ++ [x]) = py_sum l + x.
Proof.
  unfold py_sum. rewrite fold_left_app. cbn. reflexivity.
Qed.

(** The severity computed by the results step. *)
Lemma reported_severity_pair (cfg : BotConfig) (total : Z)
    (th : dict (Z * Z)) :
  let severity := find_severity total th "minimal" in
  let severity :=
    if String.eqb severity "normal" then "minimal" else severity in
  snd (if result_is_empty (result_of cfg severity) then
         if String.eqb severity "moderately_severe" then
           (result_of cfg "severe", "severe")
         else (result_of cfg "moderate", severity)
       else (result_of cfg severity, severity))
  = severity_reported cfg total th.
Proof.
  cbv zeta. rewrite find_severity_band. unfold severity_reported.
  destruct (band_of total th) as [band|]; cbn [or_default].
  - destruct (String.eqb band "normal") eqn:En.
    + now destruct (result_is_empty (result_of cfg "minimal")).
    + destruct (String.eqb band "moderately_severe") eqn:Em;
        destruct (result_is_empty (result_of cfg band)); reflexivity.
  - cbn. now destruct (result_is_empty (result_of cfg "minimal")).
Qed.

(** The results step on a live session with a selected tool. *)
Lemma transition_to_results_run (fm : ConversationFlowManager)
    (id msg : string) (w : World) (s snapshot : SessionData)
    (tool : ScreeningTool) :
  dict_get id (sessions w) = Some s ->
  live_at w (clock w (ticks w)) s ->
  calm w 7 ->
  selected_tool s = Some tool ->
  exists r w' s',
    _transition_to_results fm id msg snapshot w = (Ok r, w')
    /\ sessions w' = dict_set id s' (sessions w)
    /\ current_phase s' = RESULTS
    /\ completed s' = true
    /\ responses s' = responses s
    /\ selected_tool s' = selected_tool s
    /\ crisis_detected s' = crisis_detected s
    /\ Reply.error r = None
    /\ Reply.current_phase r = Some "RESULTS"
    /\ Reply.completed r = Some true
    /\ Reply.total_score r = Some (get_total_score s)
    /\ Reply.severity_level r
       = Some (severity_reported (config fm) (get_total_score s)
                 (thresholds (questionnaire_of (config fm)
                                (tool_name_of tool)))).
Proof.
  intros Hget Hlive Hcalm Htool.
  cbv beta iota zeta delta [_transition_to_results try_catch bind].
  erewrite update_session_live;
    [| eassumption | assumption | reflexivity].
  cbv beta iota zeta delta [deref bind get_sessions ret].
  cbn [world_at sessions]. rewrite dict_get_set_same. cbn [or_default].
  cbn [selected_tool set_last_activity set_completed set_current_phase].
  rewrite Htool.
  match goal with
  | |- context [get_total_score ?x] =>
      change (get_total_score x) with (get_total_score s)
  end.
  set (total := get_total_score s).
  set (th := thresholds (questionnaire_of (config fm) (tool_name_of tool))).
  pose proof (reported_severity_pair (config fm) total th) as Hsev.
  cbv zeta in Hsev.
  destruct (if result_is_empty _ then _ else _) as [result_config severity].
  cbn [snd] in Hsev. subst severity.
  destruct (or_default (suggestions result_config) []) as [|sg sgs];
    cbv beta iota zeta delta [random_choice ret bind];
    (erewrite add_conversation_live;
       [| cbn; apply dict_get_set_same | live_by Hcalm]);
    do 3 eexists;
    (split; [reflexivity|]);
    cbn; rewrite !dict_set_set;
    (split; [reflexivity|]);
    repeat split; first [reflexivity | exact Htool].
Qed.

Lemma get_total_score_ext (a b : SessionData) :
  responses a = responses b -> get_total_score a = get_total_score b.
Proof. unfold get_total_score. now intros ->. Qed.

Lemma calm_weaken (w w' : World) (n k m : nat) :
  calm w n ->
  clock w' = clock w -> timeout_minutes w' = timeout_minutes w ->
  ticks w' = (k + ticks w)%nat -> (m + k <= n)%nat ->
  calm w' m.
Proof.
  intros Hcalm Hc Ht Hk Hm i j Hi Hij Hj2 Hj.
  rewrite Hc, Ht. apply Hcalm; lia.
Qed.

(** The PHQ9 question 9 path of the screening handler. *)
Lemma screening_crisis_run (fm : ConversationFlowManager) (id msg : string)
    (w : World) (s : SessionData) (score : Z) :
  dict_get id (sessions w) = Some s ->
  live_at w (clock w (ticks w)) s ->
  calm w 11 ->
  selected_tool s = Some PHQ9 ->
  fst (_map_response_to_score fm msg "PHQ9" w) = Ok score ->
  crisisQuestionIndex (questionnaire_of (config fm) "PHQ9")
  = Some (Z.of_nat (length (responses s))) ->
  score > 0 ->
  exists r s' resp,
    _handle_screening_phase fm id msg s w
    = (Ok r, world_at w (dict_set id s' (sessions w)) (11 + ticks w))
    /\ responses s' = (responses s ++ [resp])%list
    /\ user_text resp = msg
    /\ mapped_score resp = score
    /\ question_id resp = "phq9_9"
    /\ crisis_detected s' = true
    /\ current_phase s' = CRISIS_RESPONSE
    /\ selected_tool s' = selected_tool s
    /\ r = Reply.with_crisis_trigger "PHQ9_Q9"
             (Reply.basic (crisis_response_message (safety_monitor fm))
                          CRISIS_RESPONSE true).
Proof.
  intros Hget Hlive Hcalm Htool Hmap Hidx Hpos.
  cbv beta iota zeta delta [_handle_screening_phase try_catch].
  rewrite Htool. cbv beta iota delta [bind].
  change (tool_name_of PHQ9) with "PHQ9".
  rewrite (@map_response_to_score_run fm msg "PHQ9" w w score Hmap).
  destruct (score =? -1) eqn:E1; [apply Z.eqb_eq in E1; lia|].
  rewrite Hidx. rewrite Z.eqb_refl.
  change (String.eqb "PHQ9" "PHQ9" && true) with true. cbv iota.
  destruct (score >? 0) eqn:E2; [| rewrite Z.gtb_ltb, Z.ltb_ge in E2; lia].
  cbv beta iota zeta delta [_handle_phq9_q9_crisis try_catch bind].
  erewrite update_session_live;
    [| eassumption | assumption | reflexivity].
  erewrite add_response_live;
    [| cbn; apply dict_get_set_same | live_by Hcalm].
  erewrite add_conversation_live;
    [| cbn; apply dict_get_set_same | live_by Hcalm].
  do 3 eexists. split.
  - cbn. rewrite !dict_set_set. reflexivity.
  - cbn. repeat split; first [reflexivity | exact Htool].
Qed.

(** Saving the last answer of a questionnaire: the results step runs. *)
Lemma save_last_response_run (fm : ConversationFlowManager) (id msg : string)
    (w : World) (s snapshot : SessionData) (tool : ScreeningTool)
    (score : Z) :
  dict_get id (sessions w) = Some s ->
  live_at w (clock w (ticks w)) s ->
  calm w 11 ->
  selected_tool s = Some tool ->
  S (length (responses s))
  = length (questions (questionnaire_of (config fm) (tool_name_of tool))) ->
  exists r w' s' resp,
    screening_save_response fm id msg snapshot (tool_name_of tool)
      (questions (questionnaire_of (config fm) (tool_name_of tool)))
      (length (responses s)) score w
    = (Ok r, w')
    /\ sessions w' = dict_set id s' (sessions w)
    /\ responses s' = (responses s ++ [resp])%list
    /\ user_text resp = msg
    /\ mapped_score resp = score
    /\ current_phase s' = RESULTS
    /\ completed s' = true
    /\ selected_tool s' = selected_tool s
    /\ crisis_detected s' = crisis_detected s
    /\ Reply.error r = None
    /\ Reply.current_phase r = Some "RESULTS"
    /\ Reply.completed r = Some true
    /\ Reply.total_score r = Some (get_total_score s + score)
    /\ Reply.severity_level r
       = Some (severity_reported (config fm) (get_total_score s + score)
                 (thresholds (questionnaire_of (config fm)
                                (tool_name_of tool)))).
Proof.
  intros Hget Hlive Hcalm Htool Hlast.
  cbv beta iota zeta delta [screening_save_response bind].
  erewrite add_response_live; [| eassumption | assumption].
  cbv beta iota zeta delta [deref bind get_sessions ret].
  cbn [world_at sessions]. rewrite dict_get_set_same. cbn [or_default].
  replace (length (responses s) + 1 <? _)%nat with false
    by (symmetry; apply Nat.ltb_ge; lia).
  match goal with
  | |- context [_transition_to_results fm id msg ?s2 ?w2] =>
      destruct (@transition_to_results_run fm id msg w2 s2 s2 tool)
        as (r & w' & s' & Hrun & Hs & Hp & Hc & Hr & Ht & Hcd & He & Hrp
            & Hrc & Hrt & Hrs)
  end.
  - cbn. apply dict_get_set_same.
  - live_by Hcalm.
  - eapply calm_weaken with (k := 4%nat); [exact Hcalm | | | | ];
      cbn; try reflexivity; lia.
  - exact Htool.
  - rewrite Hrun. cbn [responses set_last_activity set_responses] in Hr.
    assert (Hsum : forall x (resp : QuestionResponse),
               responses x = (responses s ++ [resp])%list ->
               get_total_score x = get_total_score s + mapped_score resp).
    { intros x resp Hx. unfold get_total_score. rewrite Hx, map_app.
      cbn [map]. apply py_sum_app. }
    exists r, w', s'. eexists.
    split; [reflexivity|].
    split; [rewrite Hs; cbn; now rewrite dict_set_set|].
    split; [exact Hr|].
    split; [reflexivity|]. split; [reflexivity|].
    split; [assumption|]. split; [assumption|].
    split; [rewrite Ht; reflexivity|].
    split; [rewrite Hcd; reflexivity|].
    split; [assumption|]. split; [assumption|]. split; [assumption|].
    rewrite Hrt, Hrs.
    erewrite Hsum by reflexivity. cbn [mapped_score]. split; reflexivity.
Qed.

(** The last answer of a questionnaire, when it is not a PHQ9 question 9
    crisis answer: the response is saved and the results step runs. *)
Lemma screening_final_run (fm : ConversationFlowManager) (id msg : string)
    (w : World) (s : SessionData) (tool : ScreeningTool) (score : Z) :
  dict_get id (sessions w) = Some s ->
  live_at w (clock w (ticks w)) s ->
  calm w 11 ->
  selected_tool s = Some tool ->
  fst (_map_response_to_score fm msg (tool_name_of tool) w) = Ok score ->
  score <> -1 ->
  ~ is_phq9_crisis_answer fm s tool score ->
  S (length (responses s))
  = length (questions (questionnaire_of (config fm) (tool_name_of tool))) ->
  exists r w' s' resp,
    _handle_screening_phase fm id msg s w = (Ok r, w')
    /\ sessions w' = dict_set id s' (sessions w)
    /\ responses s' = (responses s ++ [resp])%list
    /\ user_text resp = msg
    /\ mapped_score resp = score
    /\ current_phase s' = RESULTS
    /\ completed s' = true
    /\ selected_tool s' = selected_tool s
    /\ crisis_detected s' = crisis_detected s
    /\ Reply.error r = None
    /\ Reply.current_phase r = Some "RESULTS"
    /\ Reply.completed r = Some true
    /\ Reply.total_score r = Some (get_total_score s + score)
    /\ Reply.severity_level r
       = Some (severity_reported (config fm) (get_total_score s + score)
                 (thresholds (questionnaire_of (config fm)
                                (tool_name_of tool)))).
Proof.
  intros Hget Hlive Hcalm Htool Hmap Hscore Hreg Hlast.
  destruct (@save_last_response_run fm id msg w s s tool score
              Hget Hlive Hcalm Htool Hlast) as (r & w' & s' & resp & Hrun & H).
  exists r, w', s', resp. split; [|exact H].
  cbv beta iota zeta delta [_handle_screening_phase try_catch].
  rewrite Htool. cbv beta iota delta [bind].
  rewrite (@map_response_to_score_run fm msg _ w w score Hmap).
  destruct (score =? -1) eqn:E1; [apply Z.eqb_eq in E1; contradiction|].
  destruct (String.eqb (tool_name_of tool) "PHQ9"
            && match crisisQuestionIndex
                       (questionnaire_of (config fm) (tool_name_of tool)) with
               | Some idx => Z.of_nat (length (responses s)) =? idx
               | None => false
               end) eqn:Ecrisis;
    [destruct (score >? 0) eqn:Epos|]; try (now rewrite Hrun).
  exfalso. apply Hreg.
  apply andb_true_iff in Ecrisis. destruct Ecrisis as [Et Ei].
  assert (tool = PHQ9) by (destruct tool; [reflexivity | discriminate..]).
  subst tool. split; [reflexivity|].
  change (tool_name_of PHQ9) with "PHQ9" in Ei.
  destruct (crisisQuestionIndex (questionnaire_of (config fm) "PHQ9"))
    as [idx|]; [|discriminate].
  apply Z.eqb_eq in Ei. subst idx. split; [reflexivity|].
  rewrite Z.gtb_ltb, Z.ltb_lt in Epos. lia.
Qed.

(** C6 (amended). For the tool PHQ9: in SCREENING, when the configuration
    gives PHQ9 a crisis question index, the question just answered is at
    that index and the reply maps to a score above 0, the response is
    recorded, [crisis_detected] is set and the session moves to
    CRISIS_RESPONSE instead of going on to the next question or to RESULTS.
    The handler tests [tool_name == "PHQ9"], so a crisis question index
    configured for another tool has no effect. *)
Theorem phq9_crisis_question_routes (fm : ConversationFlowManager)
    (id msg : string) (w : World) (s : SessionData) :
  crisis_question_routes fm id msg w s PHQ9.
Proof.
  intros score (Hget & Hlive & Hcalm & Hlv & Hflag & Hphase & Htool & Hmap
                & Hscore) Hidx Hpos.
  rewrite (@process_user_message_dispatch fm id msg w s Hget Hlive Hlv Hflag).
  unfold phase_handler. cbn [current_phase set_last_activity].
  rewrite Hphase. cbv beta iota delta [try_catch].
  match goal with
  | |- context [_handle_screening_phase fm id msg ?s1 ?w1] =>
      destruct (@screening_crisis_run fm id msg w1 s1 score)
        as (r & s' & resp & Hrun & Hr & Hu & Hm & _ & Hc & Hp & _ & Hreply)
  end.
  - cbn. apply dict_get_set_same.
  - live_by Hcalm.
  - eapply calm_weaken with (k := 3%nat); [exact Hcalm | | | | ];
      cbn; try reflexivity; lia.
  - exact Htool.
  - rewrite (@map_response_to_score_run fm msg "PHQ9" w _ score Hmap).
    reflexivity.
  - exact Hidx.
  - exact Hpos.
  - rewrite Hrun.
    exists r, (world_at
                 (world_at w
                    (dict_set id (set_last_activity (clock w (S (ticks w))) s)
                       (sessions w)) (3 + ticks w))
                 (dict_set id s'
                    (dict_set id (set_last_activity (clock w (S (ticks w))) s)
                       (sessions w)))
                 (11 + (3 + ticks w))), s', resp.
    split; [reflexivity|].
    split; [cbn; apply dict_get_set_same|].
    split; [exact Hr|].
    split; [assumption|]. split; [assumption|].
    split; [assumption|]. split; [assumption|].
    subst r. split; reflexivity.
Qed.

Lemma screening_answer_demo (msg : string) (s : SessionData)
    (tool : ScreeningTool) (score : Z) :
  crisis_detected s = false ->
  current_phase s = SCREENING ->
  selected_tool s = Some tool ->
  last_activity s = 0 ->
  detector_level demo_monitor (PyStr msg) (demo_world_with s)
  <> Some CRITICAL ->
  fst (_map_response_to_score demo_flow msg (tool_name_of tool)
         (demo_world_with s)) = Ok score ->
  score <> -1 ->
  screening_answer demo_flow "id0" msg (demo_world_with s) s tool score.
Proof.
  intros Hflag Hphase Htool Hla Hlv Hmap Hscore.
  repeat split; try assumption.
  - unfold live_at. rewrite Hla. vm_compute. discriminate.
  - apply demo_calm. lia.
Qed.

(** The last question of PHQ9 in the sample configuration, answered
    "often". *)
Lemma phq9_crisis_question_routes_witness :
  exists r w' s' resp,
    process_user_message demo_flow "id0" "often"
      (demo_world_with phq9_last_question) = (Ok r, w')
    /\ dict_get "id0" (sessions w') = Some s'
    /\ responses s' = (responses phq9_last_question ++ [resp])%list
    /\ user_text resp = "often"
    /\ mapped_score resp = 2
    /\ crisis_detected s' = true
    /\ current_phase s' = CRISIS_RESPONSE
    /\ Reply.current_phase r = Some "CRISIS_RESPONSE"
    /\ Reply.crisis_detected r = Some true.
Proof.
  apply (@phq9_crisis_question_routes demo_flow "id0" "often"
           (demo_world_with phq9_last_question) phq9_last_question 2).
  - apply screening_answer_demo; try reflexivity.
    + vm_compute. discriminate.
    + discriminate.
  - reflexivity.
  - reflexivity.
Defined.

(** C6 as stated fails for a tool other than PHQ9: in the sample
    configuration GAD7 has crisis question index 1; answering that question
    with a score of 2 ends the questionnaire in RESULTS, without the
    flag. *)
Lemma crisis_question_ignored_for_gad7 :
  ~ crisis_question_routes demo_flow "id0" "often"
      (demo_world_with gad7_last_question) gad7_last_question GAD7.
Proof.
  intros H. destruct (H 2) as (r & w' & s' & resp & Hrun & Hget & _ & _ & _
                               & Hflag & _).
  - apply screening_answer_demo; try reflexivity.
    + vm_compute. discriminate.
    + discriminate.
  - reflexivity.
  - reflexivity.
  - remember (process_user_message demo_flow "id0" "often"
                (demo_world_with gad7_last_question)) as res eqn:E.
    vm_compute in E. subst res. injection Hrun as <- <-.
    vm_compute in Hget. injection Hget as <-.
    discriminate Hflag.
Qed.

(** C7 (amended). When the last question of the selected tool is answered
    with a reply that the scale maps to a score, and the answer is not a
    positive answer to the PHQ9 crisis question, the session moves to
    RESULTS with [completed] set, the total is the sum of the recorded
    scores, and the reply does not fail. The severity is the first band of
    the ordered thresholds whose inclusive range contains the total, with
    "normal" reported as "minimal" and "moderately_severe" reported as
    "severe" when the results table has no entry for it; when no band
    contains the total the severity is "minimal". *)
Theorem final_answer_reaches_results (fm : ConversationFlowManager)
    (id msg : string) (w : World) (s : SessionData) (tool : ScreeningTool) :
  final_answer_scores severity_reported
    (fun s tool score => ~ is_phq9_crisis_answer fm s tool score)
    fm id msg w s tool.
Proof.
  intros score (Hget & Hlive & Hcalm & Hlv & Hflag & Hphase & Htool & Hmap
                & Hscore) Hlast Hreg.
  rewrite (@process_user_message_dispatch fm id msg w s Hget Hlive Hlv Hflag).
  unfold phase_handler. cbn [current_phase set_last_activity].
  rewrite Hphase. cbv beta iota delta [try_catch].
  match goal with
  | |- context [_handle_screening_phase fm id msg ?s1 ?w1] =>
      destruct (@screening_final_run fm id msg w1 s1 tool score)
        as (r & w' & s' & resp & Hrun & Hs & Hr & Hu & Hm & Hp & Hc & _ & _
            & He & Hrp & Hrc & Hrt & Hrs)
  end.
  - cbn. apply dict_get_set_same.
  - live_by Hcalm.
  - eapply calm_weaken with (k := 3%nat); [exact Hcalm | | | | ];
      cbn; try reflexivity; lia.
  - exact Htool.
  - rewrite (@map_response_to_score_run fm msg _ w _ score Hmap).
    reflexivity.
  - exact Hscore.
  - exact Hreg.
  - exact Hlast.
  - rewrite Hrun.
    cbn [responses set_last_activity] in Hr.
    assert (Htot : get_total_score s' = get_total_score s + score).
    { unfold get_total_score. rewrite Hr, map_app. cbn [map].
      rewrite py_sum_app, Hm. reflexivity. }
    exists r, w', s'.
    split; [reflexivity|].
    split; [rewrite Hs; apply dict_get_set_same|].
    split; [assumption|]. split; [assumption|].
    split; [assumption|]. split; [assumption|]. split; [assumption|].
    split; [exact Htot|].
    rewrite Htot. split; assumption.
Qed.

(** The last question of GAD7 answered "always": total 4, band "mild". *)
Lemma final_answer_reaches_results_witness :
  exists r w' s',
    process_user_message demo_flow "id0" "always"
      (demo_world_with gad7_last_question) = (Ok r, w')
    /\ dict_get "id0" (sessions w') = Some s'
    /\ current_phase s' = RESULTS
    /\ completed s' = true
    /\ Reply.total_score r = Some 4
    /\ Reply.severity_level r = Some "mild".
Proof.
  destruct (@final_answer_reaches_results demo_flow "id0" "always"
              (demo_world_with gad7_last_question) gad7_last_question GAD7 3)
    as (r & w' & s' & Hrun & Hget & Hp & Hc & _ & _ & _ & Htot & Hrt & Hrs).
  - apply screening_answer_demo; try reflexivity.
    + vm_compute. discriminate.
    + discriminate.
  - reflexivity.
  - intros (Ht & _). discriminate Ht.
  - exists r, w', s'. rewrite Htot in Hrt, Hrs.
    split; [exact Hrun|]. split; [exact Hget|].
    split; [exact Hp|]. split; [exact Hc|].
    split; [exact Hrt | exact Hrs].
Defined.

(** C7 as stated fails when no band contains the total: the last question
    of GAD7 answered "never" gives total 1, below every band of the sample
    configuration; the severity reported is "minimal", not "moderate". *)
Lemma no_band_reports_minimal :
  ~ final_answer_scores severity_as_claimed (fun _ _ _ => True)
      demo_flow "id0" "never"
      (demo_world_with gad7_last_question) gad7_last_question GAD7.
Proof.
  intros H. destruct (H 0) as (r & w' & s' & Hrun & Hget & _ & _ & _ & _ & _
                               & _ & _ & Hsev).
  - apply screening_answer_demo; try reflexivity.
    + vm_compute. discriminate.
    + discriminate.
  - reflexivity.
  - exact I.
  - remember (process_user_message demo_flow "id0" "never"
                (demo_world_with gad7_last_question)) as res eqn:E.
    vm_compute in E. subst res. injection Hrun as <- <-.
    vm_compute in Hget. injection Hget as <-.
    vm_compute in Hsev. discriminate Hsev.
Qed.

(** ** Every path of a call *)

Lemma dict_del_set (V : Type) (k : string) (v : V) (d : dict V) :
  dict_del k (dict_set k v d) = dict_del k d.
Proof.
  induction d as [|[k0 v0] d IH]; cbn.
  - now rewrite String.eqb_refl.
  - destruct (String.eqb k k0) eqn:E; cbn.
    + now rewrite String.eqb_refl.
    + now rewrite E, IH.
Qed.

Lemma dict_del_del (V : Type) (k : string) (d : dict V) :
  dict_del k (dict_del k d) = dict_del k d.
Proof.
  apply dict_del_absent, dict_get_del_same.
Qed.

Lemma entry_step_same (Q : SessionData -> Prop) (id : string)
    (d : dict SessionData) (s : SessionData) :
  dict_get id d = Some s -> Q s -> entry_step Q id d d.
Proof.
  intros H HQ. right. exists s. split; [|exact HQ].
  symmetry. now apply dict_set_present.
Qed.

(** The entry of [id] in the current world, at a point of the symbolic
    run of a handler. *)
Ltac entry_tac :=
  cbn [sessions world_at with_sessions with_ticks with_rolls];
  first [ eassumption | apply dict_get_set_same | apply dict_get_del_same ].

(** One store operation: case analysis on the entry being absent, expired
    or live at this point. *)
Ltac step_op :=
  match goal with
  | |- context [update_session ?id ?u ?W] =>
      first
        [ let H := fresh "Hentry" in
          eassert (H : dict_get id (sessions W) = Some _) by entry_tac;
          match type of H with
          | _ = Some ?e =>
              let X := fresh "X" in
              destruct (is_expired_at (clock W (ticks W)) (timeout_minutes W) e)
                eqn:X;
              [ rewrite (@update_session_expired id u W e H X)
              | erewrite (@update_session_live id u W e _ H
                            (proj1 (is_expired_at_false W _ e) X))
                  by reflexivity ];
              clear H X
          end
        | let H := fresh "Hentry" in
          assert (H : dict_get id (sessions W) = None) by entry_tac;
          rewrite (@update_session_absent id u W H); clear H ]
  | |- context [add_response ?id ?q ?t ?sc ?W] =>
      first
        [ let H := fresh "Hentry" in
          eassert (H : dict_get id (sessions W) = Some _) by entry_tac;
          match type of H with
          | _ = Some ?e =>
              let X := fresh "X" in
              destruct (is_expired_at (clock W (ticks W)) (timeout_minutes W) e)
                eqn:X;
              [ rewrite (@add_response_expired id q t sc W e H X)
              | rewrite (@add_response_live id q t sc W e H
                           (proj1 (is_expired_at_false W _ e) X)) ];
              clear H X
          end
        | let H := fresh "Hentry" in
          assert (H : dict_get id (sessions W) = None) by entry_tac;
          rewrite (@add_response_absent id q t sc W H); clear H ]
  | |- context [add_conversation ?id ?a ?b ?c ?W] =>
      first
        [ let H := fresh "Hentry" in
          eassert (H : dict_get id (sessions W) = Some _) by entry_tac;
          match type of H with
          | _ = Some ?e =>
              let X := fresh "X" in
              destruct (is_expired_at (clock W (ticks W)) (timeout_minutes W) e)
                eqn:X;
              [ rewrite (@add_conversation_expired id a b c W e H X)
              | rewrite (@add_conversation_live id a b c W e H
                           (proj1 (is_expired_at_false W _ e) X)) ];
              clear H X
          end
        | let H := fresh "Hentry" in
          assert (H : dict_get id (sessions W) = None) by entry_tac;
          rewrite (@add_conversation_absent id a b c W H); clear H ]
  end.

(** The table at the end of a path, brought to the form [dict_del id d] or
    [dict_set id e d] over the initial table [d]. *)
Ltac settle :=
  cbn [snd fst sessions world_at with_sessions with_ticks with_rolls];
  rewrite ?dict_set_set, ?dict_del_set, ?dict_del_del.



(** The end of a path: the entry is gone, or it is a session for which the
    invariant is checked by computation. *)
Ltac close_with tac :=
  settle;
  first
    [ left; reflexivity
    | right; eexists; split; [reflexivity | tac ]
    | eapply entry_step_same; [eassumption | tac ] ].




Lemma map_response_to_score_cases (fm : ConversationFlowManager)
    (msg name : string) :
  (exists score, forall w, _map_response_to_score fm msg name w = (Ok score, w))
  \/ (exists e, forall w, _map_response_to_score fm msg name w = (Raise e, w)).
Proof.
  cbv beta iota zeta delta [_map_response_to_score ret raise].
  destruct (if String.eqb name "GHQ12"
            then ghqScale (answerMapping (config fm))
            else standardScale (answerMapping (config fm))); eauto.
Qed.



Lemma entry_step_rebase (Q : SessionData -> Prop) (id : string)
    (d d' : dict SessionData) (s1 : SessionData) :
  entry_step Q id (dict_set id s1 d) d' -> entry_step Q id d d'.
Proof.
  intros [-> | [e [-> He]]].
  - left. apply dict_del_set.
  - right. exists e. split; [apply dict_set_set | exact He].
Qed.

Lemma try_catch_sessions (A : Type) (m : M A) (h : Exn -> M A) (w : World) :
  (forall e w0, sessions (snd (h e w0)) = sessions w0) ->
  sessions (snd (try_catch m h w)) = sessions (snd (m w)).
Proof.
  intros Hh. unfold try_catch.
  destruct (m w) as [[a|e|] w']; cbn; [reflexivity | apply Hh | reflexivity].
Qed.












(** ** The examples of the specification *)

(** PHQ9 with thresholds minimal 0-4, mild 5-9, moderate 10-14, severe
    15-27: a total of 9 is "mild". *)
Example severity_of_total_9 :
  find_severity 9
    [("minimal", (0, 4)); ("mild", (5, 9)); ("moderate", (10, 14));
     ("severe", (15, 27))] "minimal" = "mild".
Proof. reflexivity. Qed.

(** "I want to kill myself" against a trigger list that contains
    "kill myself" is CRITICAL and requires the override. *)
Example kill_myself_is_critical (w : World) :
  exists r w',
    check_for_crisis demo_monitor (PyStr "I want to kill myself") w
    = (Ok r, w')
    /\ level r = CRITICAL
    /\ triggered_words r = ["kill myself"]
    /\ requires_override r = true.
Proof. do 2 eexists. split; [vm_compute; reflexivity|]. repeat split. Qed.

(** A trigger that ends with a space is not found at the end of a text,
    since the text is trimmed and the trigger is not. *)
Example padded_trigger_at_end_of_text (w : World) :
  detector_level {| critical_triggers := ["end it all "];
                    crisis_response_message := "" |}
    (PyStr "end it all ") w = Some NONE.
Proof. reflexivity. Qed.

(** The answer scale is read from the highest score down: a reply with
    words of two levels takes the higher one. *)
Example highest_score_wins (w : World) :
  fst (_map_response_to_score demo_flow "sometimes, often" "PHQ9" w) = Ok 2.
Proof. reflexivity. Qed.

(** ** The configuration hypothesis of the bound on responses *)

(** The empty configuration routes to no tool. *)
Example empty_config_has_questions (sm : SafetyMonitor) :
  has_questions {| safety_monitor := sm; config := empty_config |}.
Proof. intros name keywords Hin. destruct Hin. Qed.

(** Where the routing table selects a tool without questions, the triage
    handler fails on [questions[0]] after it has stored the phase
    SCREENING, and the next answer is recorded: one response for a tool
    with no question. *)
Example routing_to_a_tool_without_questions :
  exists s,
    dict_get "id0"
      (sessions (run_flow dangling_flow
                   [FlowStart 0 None None;
                    FlowMessage "id0" "hello"; FlowMessage "id0" "yes";
                    FlowMessage "id0" "sad"; FlowMessage "id0" "often"]
                   demo_world)) = Some s
    /\ selected_tool s = Some PHQ9
    /\ question_count dangling_flow PHQ9 = 0%nat
    /\ length (responses s) = 1%nat.
Proof.
  eexists. split; [vm_compute; reflexivity|]. repeat split.
Qed.

(* ===================================================================== *)
(** * Further properties of the conversation flow *)
(* ===================================================================== *)

(** ** Unknown and expired sessions *)

(** X1. [process_user_message] for an identifier that is not stored, or whose
    session is past its timeout: the reply is the "Session not found or
    expired" error without a phase, the identifier is not stored afterwards
    (the expired session is deleted), and no other session is touched. *)
Theorem message_to_unknown_session (fm : ConversationFlowManager)
    (id msg : string) (w : World) :
  (dict_get id (sessions w) = None
   \/ exists s, dict_get id (sessions w) = Some s
                /\ is_expired_at (clock w (ticks w)) (timeout_minutes w) s
                   = true) ->
  exists w',
    process_user_message fm id msg w = (Ok session_not_found, w')
    /\ dict_get id (sessions w') = None
    /\ (forall k, k <> id ->
          dict_get k (sessions w') = dict_get k (sessions w)).
Proof.
  intros [Habsent | [s [Hget Hexp]]];
    cbv beta iota delta [process_user_message bind].
  - rewrite get_session_absent by assumption.
    exists w. split; [reflexivity|]. split; [assumption | reflexivity].
  - rewrite get_session_expired with (s := s) by assumption.
    eexists. split; [reflexivity|]. cbn.
    split; [apply dict_get_del_same|].
    intros k Hk. now apply dict_get_del_other.
Qed.

Lemma message_to_unknown_session_witness :
  exists w',
    process_user_message demo_flow "id0" "hello"
      (late_world [("id0", stale_session)]) = (Ok session_not_found, w')
    /\ dict_get "id0" (sessions w') = None.
Proof.
  destruct (@message_to_unknown_session demo_flow "id0" "hello"
              (late_world [("id0", stale_session)]))
    as (w' & Hrun & Hgone & _).
  - right. exists stale_session. split; reflexivity.
  - exists w'. split; assumption.
Defined.

(** ** The footprint of a call *)

Lemma entry_step_weaken (P Q : SessionData -> Prop) (id : string)
    (d d' : dict SessionData) :
  (forall e, P e -> Q e) -> entry_step P id d d' -> entry_step Q id d d'.
Proof.
  intros H [-> | [e [-> He]]]; [now left | right; eauto].
Qed.

Ltac footprint_loop Hget :=
  repeat first
    [ progress
        (cbn [sessions world_at with_sessions with_ticks with_rolls
              selected_tool set_last_activity set_responses set_current_phase
              set_completed set_crisis_detected set_conversation_history
              or_default is_empty];
         rewrite ?dict_get_set_same, ?dict_get_del_same, ?Hget;
         cbv beta iota)
    | step_op; cbv beta iota
    | match goal with
      | |- context [if ?b then _ else _] => destruct b eqn:?
      end
    | match goal with
      | |- context [match nth_error ?l ?i with _ => _ end] =>
          destruct (nth_error l i) eqn:?
      | |- context [match or_default ?o ?d with _ => _ end] =>
          destruct (or_default o d) eqn:?
      | |- context [match selected_tool ?s with _ => _ end] =>
          destruct (selected_tool s) eqn:?
      | |- context [match dict_get ?k tool_mapping with _ => _ end] =>
          destruct (dict_get k tool_mapping) as [[]|] eqn:?
      | |- context [match route ?t ?r with _ => _ end] =>
          destruct (route t r) as [[|? ?]|] eqn:?
      | |- context [match conversation_history ?s with _ => _ end] =>
          destruct (conversation_history s) eqn:?
      end ].

(** Whatever its phase and whatever the configuration, the handler of a
    stored session removes the entry of the session or replaces it; it
    writes nothing else to the table. *)
Lemma phase_handler_footprint (fm : ConversationFlowManager)
    (id msg : string) (w : World) (s : SessionData) :
  dict_get id (sessions w) = Some s ->
  entry_step (fun _ => True) id (sessions w)
    (sessions (snd (phase_handler fm id msg s w))).
Proof.
  intros Hget.
  cbv beta iota zeta delta
    [phase_handler _handle_greeting_phase _handle_triage_phase
     _handle_screening_phase _handle_unknown_phase
     screening_save_response _transition_to_results
     _handle_phq9_q9_crisis try_catch bind ret on_error deref get_sessions
     list_item raise random_choice].
  destruct (current_phase s).
  3: { destruct (selected_tool s) as [tool|] eqn:Htool; cbv beta iota.
       - destruct (map_response_to_score_cases fm msg (tool_name_of tool))
           as [[score Hmap] | [e Hmap]]; rewrite Hmap; cbv beta iota.
         + footprint_loop Hget. all: close_with ltac:(exact I).
         + close_with ltac:(exact I).
       - footprint_loop Hget. all: close_with ltac:(exact I). }
  all: footprint_loop Hget.
  all: close_with ltac:(exact I).
Qed.

Lemma handle_crisis_response_footprint (id msg : string)
    (r : CrisisResponse) (w : World) (s : SessionData) :
  dict_get id (sessions w) = Some s ->
  entry_step (fun _ => True) id (sessions w)
    (sessions (snd (_handle_crisis_response id msg r w))).
Proof.
  intros Hget.
  cbv beta iota zeta delta [_handle_crisis_response try_catch bind ret].
  repeat (step_op; cbv beta iota).
  all: close_with ltac:(exact I).
Qed.

(** X2. [process_user_message] writes to one entry of the session table only:
    the entry of its identifier is removed or replaced, every other
    identifier keeps its session, and a message never creates a session. *)
Theorem process_user_message_footprint (fm : ConversationFlowManager)
    (id msg : string) (w : World) :
  let w' := snd (process_user_message fm id msg w) in
  (forall k, k <> id -> dict_get k (sessions w') = dict_get k (sessions w))
  /\ (dict_get id (sessions w) = None -> dict_get id (sessions w') = None)
  /\ (length (sessions w') <= length (sessions w))%nat.
Proof.
  cbv zeta.
  destruct (dict_get id (sessions w)) as [s|] eqn:Hget.
  - assert (Hstep : entry_step (fun _ => True) id (sessions w)
              (sessions (snd (process_user_message fm id msg w)))).
    { destruct (is_expired_at (clock w (ticks w)) (timeout_minutes w) s)
        eqn:X.
      + cbv beta iota delta [process_user_message bind].
        rewrite get_session_expired with (s := s) by assumption.
        left. reflexivity.
      + apply is_expired_at_false in X.
        cbv beta iota delta [process_user_message bind].
        rewrite get_session_live with (s := s) by assumption.
        set (s1 := set_last_activity (clock w (S (ticks w))) s).
        cbv beta iota.
        rewrite try_catch_sessions by reflexivity.
        apply entry_step_rebase with (s1 := s1).
        cbv beta iota delta [bind].
        match goal with
        | |- context [check_for_crisis ?sm ?text ?W] =>
            destruct (check_for_crisis_run sm text W) as [r [Hrun _]];
            rewrite Hrun; set (w1 := world_at W (sessions W) (S (ticks W)))
        end.
        assert (Hget1 : dict_get id (sessions w1) = Some s1)
          by (cbn; apply dict_get_set_same).
        change (dict_set id s1 (sessions w)) with (sessions w1).
        destruct (requires_override r).
        * now apply handle_crisis_response_footprint with (s := s1).
        * destruct (crisis_detected s1).
          { cbn [snd ret]. now apply entry_step_same with (s := s1). }
          now apply (@phase_handler_footprint fm id msg w1 s1). }
    destruct Hstep as [-> | [e [-> _]]].
    + split; [|split].
      * intros k Hk. now apply dict_get_del_other.
      * discriminate.
      * apply dict_del_length_le.
    + split; [|split].
      * intros k Hk. now apply dict_get_set_other.
      * discriminate.
      * rewrite dict_set_length. unfold dict_mem. rewrite Hget. lia.
  - cbv beta iota delta [process_user_message bind].
    rewrite get_session_absent by assumption.
    cbn. split; [|split]; [reflexivity | trivial | lia].
Qed.

(** ** The greeting phase *)

Lemma ordinary_turn_demo (msg : string) (s : SessionData) (n : nat) :
  (n <= 1000)%nat ->
  last_activity s = 0 ->
  crisis_detected s = false ->
  detector_level demo_monitor (PyStr msg) (demo_world_with s)
  <> Some CRITICAL ->
  ordinary_turn demo_flow "id0" msg (demo_world_with s) s n.
Proof.
  intros Hn Hla Hflag Hlv.
  repeat split; try assumption.
  - unfold live_at. rewrite Hla. vm_compute. discriminate.
  - apply demo_calm. exact Hn.
Qed.

(** One store operation on a session that is live at this point. *)
Ltac run_live Hcalm :=
  first
    [ erewrite update_session_live;
        [| first [eassumption | cbn; apply dict_get_set_same]
         | first [assumption | live_by Hcalm] | reflexivity]
    | erewrite add_conversation_live;
        [| first [eassumption | cbn; apply dict_get_set_same]
         | first [assumption | live_by Hcalm]]
    | erewrite add_response_live;
        [| first [eassumption | cbn; apply dict_get_set_same]
         | first [assumption | live_by Hcalm]] ];
  cbv beta iota zeta delta [ret].

(** The handler of the phase is entered with the touched session. *)
Ltac enter_handler Hturn Hphase :=
  let Hget := fresh "Hget" in
  let Hlive := fresh "Hlive" in
  let Hcalm := fresh "Hcalm" in
  let Hlv := fresh "Hlv" in
  let Hflag := fresh "Hflag" in
  destruct Hturn as (Hget & Hlive & Hcalm & Hlv & Hflag);
  rewrite (@process_user_message_dispatch _ _ _ _ _ Hget Hlive Hlv Hflag);
  cbv beta iota zeta delta [phase_handler];
  cbn [current_phase set_last_activity];
  rewrite Hphase.

Lemma greeting_first_run (fm : ConversationFlowManager)
    (id msg : string) (w : World) (s : SessionData) :
  ordinary_turn fm id msg w s 7 ->
  current_phase s = GREETING ->
  conversation_history s = [] ->
  process_user_message fm id msg w
  = (Ok (Reply.with_next_action "wait_for_intro_response"
           (Reply.basic (welcome (intro (config fm))) GREETING false)),
     world_at w
       (dict_set id
          (set_last_activity (clock w (6 + ticks w))
             (set_conversation_history
                [history_entry msg (welcome (intro (config fm))) GREETING
                   (clock w (5 + ticks w))] s))
          (sessions w))
       (7 + ticks w)).
Proof.
  intros Hturn Hphase Hhist.
  enter_handler Hturn Hphase.
  cbv beta iota zeta delta [_handle_greeting_phase try_catch bind].
  cbn [conversation_history set_last_activity]. rewrite Hhist.
  run_live Hcalm.
  cbn. rewrite dict_set_set, Hhist. reflexivity.
Qed.

(** X3. The first message of a session is not read for consent: whatever it
    says (short of a crisis trigger), the reply is the welcome text, the
    session stays in GREETING, and the exchange is the first entry of its
    history. *)
Theorem greeting_first_message_gets_welcome (fm : ConversationFlowManager)
    (id msg : string) (w : World) (s : SessionData) :
  ordinary_turn fm id msg w s 7 ->
  current_phase s = GREETING ->
  conversation_history s = [] ->
  exists r s',
    process_user_message fm id msg w
    = (Ok r, world_at w (dict_set id s' (sessions w)) (7 + ticks w))
    /\ r = Reply.with_next_action "wait_for_intro_response"
             (Reply.basic (welcome (intro (config fm))) GREETING false)
    /\ current_phase s' = GREETING
    /\ completed s' = completed s
    /\ responses s' = responses s
    /\ conversation_history s'
       = [history_entry msg (welcome (intro (config fm))) GREETING
            (clock w (5 + ticks w))]
    /\ last_activity s' = clock w (6 + ticks w).
Proof.
  intros Hturn Hphase Hhist.
  do 2 eexists. split; [apply (@greeting_first_run fm id msg w s); assumption|].
  cbn. rewrite Hphase. repeat split; reflexivity.
Qed.

Lemma greeting_first_message_gets_welcome_witness :
  exists r w',
    process_user_message demo_flow "id0" "yes"
      (demo_world_with (demo_session GREETING None [] [])) = (Ok r, w')
    /\ Reply.ai_response r = Some (welcome (intro demo_config))
    /\ Reply.current_phase r = Some "GREETING".
Proof.
  destruct (@greeting_first_message_gets_welcome demo_flow "id0" "yes"
              (demo_world_with (demo_session GREETING None [] []))
              (demo_session GREETING None [] []))
    as (r & s' & Hrun & Hr & _).
  - apply ordinary_turn_demo;
      [lia | reflexivity | reflexivity | vm_compute; discriminate].
  - reflexivity.
  - reflexivity.
  - exists r. eexists. split; [exact Hrun|].
    rewrite Hr. split; reflexivity.
Defined.

Lemma greeting_consent_run (fm : ConversationFlowManager)
    (id msg : string) (w : World) (s : SessionData) :
  ordinary_turn fm id msg w s 10 ->
  current_phase s = GREETING ->
  conversation_history s <> [] ->
  any_in (strip (lower msg)) (yesKeywords (intro (config fm))) = true ->
  process_user_message fm id msg w
  = (Ok (Reply.with_next_action "get_mood"
           (Reply.basic (prompt (moodSelection (config fm))) TRIAGE false)),
     world_at w
       (dict_set id
          (set_last_activity (clock w (9 + ticks w))
             (set_conversation_history
                (conversation_history s
                 ++ [history_entry msg (prompt (moodSelection (config fm)))
                       TRIAGE (clock w (8 + ticks w))])
                (set_current_phase TRIAGE s)))
          (sessions w))
       (10 + ticks w)).
Proof.
  intros Hturn Hphase Hhist Hyes.
  enter_handler Hturn Hphase.
  cbv beta iota zeta delta [_handle_greeting_phase try_catch bind].
  cbn [conversation_history set_last_activity].
  destruct (conversation_history s) as [|e0 hist] eqn:Eh; [congruence|].
  rewrite Hyes.
  run_live Hcalm. run_live Hcalm.
  cbn. rewrite !dict_set_set, Eh. reflexivity.
Qed.

(** X4. After the welcome, a message that contains a yes keyword moves the
    session to TRIAGE and is answered with the mood prompt, also when it
    contains a no keyword as well: the yes keywords are tried first. *)
Theorem greeting_consent_opens_triage (fm : ConversationFlowManager)
    (id msg : string) (w : World) (s : SessionData) :
  ordinary_turn fm id msg w s 10 ->
  current_phase s = GREETING ->
  conversation_history s <> [] ->
  any_in (strip (lower msg)) (yesKeywords (intro (config fm))) = true ->
  exists r s',
    process_user_message fm id msg w
    = (Ok r, world_at w (dict_set id s' (sessions w)) (10 + ticks w))
    /\ r = Reply.with_next_action "get_mood"
             (Reply.basic (prompt (moodSelection (config fm))) TRIAGE false)
    /\ current_phase s' = TRIAGE
    /\ completed s' = completed s
    /\ selected_tool s' = selected_tool s
    /\ responses s' = responses s
    /\ conversation_history s'
       = (conversation_history s
          ++ [history_entry msg (prompt (moodSelection (config fm))) TRIAGE
                (clock w (8 + ticks w))])%list
    /\ last_activity s' = clock w (9 + ticks w).
Proof.
  intros Hturn Hphase Hhist Hyes.
  do 2 eexists. split; [apply (@greeting_consent_run fm id msg w s); assumption|].
  cbn. repeat split; reflexivity.
Qed.

Lemma greeting_consent_opens_triage_witness :
  exists r w' s',
    process_user_message demo_flow "id0" "Yes, no problem"
      (demo_world_with welcomed_session) = (Ok r, w')
    /\ dict_get "id0" (sessions w') = Some s'
    /\ current_phase s' = TRIAGE.
Proof.
  destruct (@greeting_consent_opens_triage demo_flow "id0" "Yes, no problem"
              (demo_world_with welcomed_session) welcomed_session)
    as (r & s' & Hrun & _ & Hphase & _).
  - apply ordinary_turn_demo;
      [lia | reflexivity | reflexivity | vm_compute; discriminate].
  - reflexivity.
  - discriminate.
  - vm_compute. reflexivity.
  - exists r. eexists. exists s'. split; [exact Hrun|].
    split; [apply dict_get_set_same | exact Hphase].
Defined.

(** X5. After the welcome, a message without a yes keyword never leaves
    GREETING. With a no keyword the reply is the exit text and carries
    [completed = True], but the stored session is not marked completed;
    without one the reply asks again. *)
Theorem greeting_without_consent_stays (fm : ConversationFlowManager)
    (id msg : string) (w : World) (s : SessionData) :
  ordinary_turn fm id msg w s 7 ->
  current_phase s = GREETING ->
  conversation_history s <> [] ->
  any_in (strip (lower msg)) (yesKeywords (intro (config fm))) = false ->
  exists r s',
    process_user_message fm id msg w
    = (Ok r, world_at w (dict_set id s' (sessions w)) (7 + ticks w))
    /\ r = (if any_in (strip (lower msg)) (noKeywords (intro (config fm)))
            then Reply.with_completed true
                   (Reply.basic
                      (or_default (exitResponse (intro (config fm))) "")
                      GREETING false)
            else Reply.basic greeting_retry_message GREETING false)
    /\ current_phase s' = GREETING
    /\ completed s' = completed s
    /\ selected_tool s' = selected_tool s
    /\ responses s' = responses s
    /\ length (conversation_history s')
       = S (length (conversation_history s))
    /\ last_activity s' = clock w (6 + ticks w).
Proof.
  intros Hturn Hphase Hhist Hyes.
  enter_handler Hturn Hphase.
  cbv beta iota zeta delta [_handle_greeting_phase try_catch bind].
  cbn [conversation_history set_last_activity].
  destruct (conversation_history s) as [|e0 hist] eqn:Eh; [congruence|].
  rewrite Hyes.
  destruct (any_in (strip (lower msg)) (noKeywords (intro (config fm))));
    run_live Hcalm;
    do 2 eexists; (split; [cbn; rewrite dict_set_set; reflexivity|]);
    cbn; rewrite Eh, Hphase; cbn; rewrite ?length_app; cbn;
    repeat split; try reflexivity; lia.
Qed.

Lemma greeting_without_consent_stays_witness :
  exists r w' s',
    process_user_message demo_flow "id0" "no thanks"
      (demo_world_with welcomed_session) = (Ok r, w')
    /\ dict_get "id0" (sessions w') = Some s'
    /\ Reply.completed r = Some true
    /\ completed s' = false
    /\ current_phase s' = GREETING.
Proof.
  destruct (@greeting_without_consent_stays demo_flow "id0" "no thanks"
              (demo_world_with welcomed_session) welcomed_session)
    as (r & s' & Hrun & Hr & Hphase & Hdone & _).
  - apply ordinary_turn_demo;
      [lia | reflexivity | reflexivity | vm_compute; discriminate].
  - reflexivity.
  - discriminate.
  - vm_compute. reflexivity.
  - exists r. eexists. exists s'. split; [exact Hrun|].
    split; [apply dict_get_set_same|].
    rewrite Hr. split; [vm_compute; reflexivity|].
    split; [exact Hdone | exact Hphase].
Defined.

(** ** The triage phase *)

(** The routing loop returns the key of the first entry with a keyword in
    the text, and nothing exactly when no entry has one. *)
Lemma route_spec (text : string) (routing : dict (list string)) :
  match route text routing with
  | Some name => first_route text routing name
  | None => no_route text routing
  end.
Proof.
  induction routing as [|[n kws] routing IH]; cbn [route].
  - intros name kws [].
  - destruct (any_in text kws) eqn:E.
    + exists [], kws, routing. repeat split; [|exact E].
      intros name k [].
    + destruct (route text routing) as [name|].
      * destruct IH as (before & k & after & -> & Hno & Hyes).
        exists ((n, kws) :: before), k, after. repeat split; [|exact Hyes].
        intros name' k' [[= <- <-] | Hin]; [exact E | eauto].
      * intros name k [[= <- <-] | Hin]; [exact E | eauto].
Qed.

Lemma route_first (text : string) (routing : dict (list string))
    (name : string) :
  first_route text routing name -> route text routing = Some name.
Proof.
  intros (before & kws & after & -> & Hno & Hyes).
  induction before as [|[n k] before IH]; cbn [route app].
  - now rewrite Hyes.
  - rewrite (Hno n k) by now left.
    apply IH. intros n' k' Hin. apply (Hno n' k'). now right.
Qed.

Lemma route_none (text : string) (routing : dict (list string)) :
  no_route text routing -> route text routing = None.
Proof.
  intros Hno.
  pose proof (route_spec text routing) as H.
  destruct (route text routing) as [name|]; [|reflexivity].
  destruct H as (before & kws & after & -> & _ & Hyes).
  rewrite (Hno name kws) in Hyes; [discriminate|].
  apply in_or_app. right. now left.
Qed.

(** X6. In TRIAGE, a message in which no routing keyword occurs is answered
    with the request to name a mood; the session stays in TRIAGE without a
    tool, and only its history grows. *)
Theorem triage_without_keyword_asks_again (fm : ConversationFlowManager)
    (id msg : string) (w : World) (s : SessionData) :
  ordinary_turn fm id msg w s 7 ->
  current_phase s = TRIAGE ->
  no_route (lower msg) (routing (moodSelection (config fm))) ->
  exists r s',
    process_user_message fm id msg w
    = (Ok r, world_at w (dict_set id s' (sessions w)) (7 + ticks w))
    /\ r = Reply.basic triage_retry_message TRIAGE false
    /\ current_phase s' = TRIAGE
    /\ selected_tool s' = selected_tool s
    /\ responses s' = responses s
    /\ completed s' = completed s
    /\ conversation_history s'
       = (conversation_history s
          ++ [history_entry msg triage_retry_message TRIAGE
                (clock w (5 + ticks w))])%list
    /\ last_activity s' = clock w (6 + ticks w).
Proof.
  intros Hturn Hphase Hno.
  enter_handler Hturn Hphase.
  cbv beta iota zeta delta [_handle_triage_phase try_catch bind].
  rewrite (route_none Hno). cbn [or_default is_empty].
  run_live Hcalm.
  do 2 eexists. split; [cbn; rewrite dict_set_set; reflexivity|].
  cbn. rewrite Hphase. repeat split; reflexivity.
Qed.

Lemma triage_without_keyword_asks_again_witness :
  exists r w',
    process_user_message demo_flow "id0" "I am fine"
      (demo_world_with triage_session) = (Ok r, w')
    /\ Reply.ai_response r = Some triage_retry_message.
Proof.
  destruct (@triage_without_keyword_asks_again demo_flow "id0" "I am fine"
              (demo_world_with triage_session) triage_session)
    as (r & s' & Hrun & Hr & _).
  - apply ordinary_turn_demo;
      [lia | reflexivity | reflexivity | vm_compute; discriminate].
  - reflexivity.
  - intros name kws Hin. cbn in Hin.
    repeat (destruct Hin as [[= <- <-] | Hin]; [vm_compute; reflexivity|]).
    destruct Hin.
  - exists r. eexists. split; [exact Hrun|]. now rewrite Hr.
Defined.

Lemma routed_tool_pair (name : string) :
  (let '(tool_enum, selected_tool_name) :=
     match dict_get name tool_mapping with
     | Some tool => (tool, name)
     | None => (GHQ12, "GHQ12")
     end in (tool_enum, selected_tool_name))
  = (routed_tool name, tool_name_of (routed_tool name))
  /\ (name <> "PHQ9" -> name <> "GAD7" -> routed_tool name = GHQ12).
Proof.
  unfold routed_tool, tool_mapping. cbn [dict_get].
  destruct (String.eqb name "PHQ9") eqn:E1;
    [apply String.eqb_eq in E1; rewrite E1; split; [reflexivity|congruence]|].
  destruct (String.eqb name "GAD7") eqn:E2;
    [apply String.eqb_eq in E2; rewrite E2; split; [reflexivity|congruence]|].
  destruct (String.eqb name "GHQ12") eqn:E3;
    [apply String.eqb_eq in E3; rewrite E3; split; reflexivity|].
  split; reflexivity.
Qed.

Lemma triage_select_run (fm : ConversationFlowManager)
    (id msg name first_q : string) (w : World) (s : SessionData) :
  ordinary_turn fm id msg w s 10 ->
  current_phase s = TRIAGE ->
  first_route (lower msg) (routing (moodSelection (config fm))) name ->
  name <> "" ->
  nth_error (questions
               (questionnaire_of (config fm)
                  (tool_name_of (routed_tool name)))) 0 = Some first_q ->
  process_user_message fm id msg w
  = (Ok (Reply.with_question_number 1
           (Reply.with_selected_tool (tool_name_of (routed_tool name))
              (Reply.basic (triage_transition_prefix ++ first_q)
                 SCREENING false))),
     world_at w
       (dict_set id
          (set_last_activity (clock w (9 + ticks w))
             (set_conversation_history
                (conversation_history s
                 ++ [history_entry msg (triage_transition_prefix ++ first_q)
                       SCREENING (clock w (8 + ticks w))])
                (set_current_phase SCREENING
                   (set_selected_tool (Some (routed_tool name)) s))))
          (sessions w))
       (10 + ticks w)).
Proof.
  intros Hturn Hphase Hfirst Hname Hq.
  enter_handler Hturn Hphase.
  cbv beta iota zeta delta [_handle_triage_phase try_catch].
  rewrite (route_first Hfirst). cbn [or_default].
  destruct name as [|c name]; [congruence|]. cbn [is_empty].
  destruct (routed_tool_pair (String c name)) as [Hpair _].
  destruct (match dict_get (String c name) tool_mapping with
            | Some tool => (tool, String c name)
            | None => (GHQ12, "GHQ12")
            end) as [tool_enum tool_name] eqn:Epair.
  injection Hpair as -> ->.
  destruct (routed_tool (String c name));
    cbv beta iota delta [bind];
    run_live Hcalm;
    cbv beta iota delta [list_item]; rewrite Hq;
    cbv beta iota delta [ret];
    run_live Hcalm;
    cbn; rewrite !dict_set_set; reflexivity.
Qed.



(** X8. In TRIAGE, a keyword that routes to a tool without questions: the
    handler fails on the first question after it has written the tool and
    the phase. The reply is the apology with the error text, and it reports
    SCREENING, the phase the session was left in. *)
Theorem triage_tool_without_questions (fm : ConversationFlowManager)
    (id msg name : string) (w : World) (s : SessionData) :
  ordinary_turn fm id msg w s 6 ->
  current_phase s = TRIAGE ->
  first_route (lower msg) (routing (moodSelection (config fm))) name ->
  name <> "" ->
  questions (questionnaire_of (config fm) (tool_name_of (routed_tool name)))
  = [] ->
  exists s',
    process_user_message fm id msg w
    = (Ok (handler_error_reply SCREENING
             (IndexError "list index out of range")),
       world_at w (dict_set id s' (sessions w)) (6 + ticks w))
    /\ selected_tool s' = Some (routed_tool name)
    /\ current_phase s' = SCREENING
    /\ responses s' = responses s
    /\ conversation_history s' = conversation_history s.
Proof.
  intros Hturn Hphase Hfirst Hname Hq.
  enter_handler Hturn Hphase.
  cbv beta iota zeta delta [_handle_triage_phase try_catch].
  rewrite (route_first Hfirst). cbn [or_default].
  destruct name as [|c name]; [congruence|]. cbn [is_empty].
  destruct (routed_tool_pair (String c name)) as [Hpair _].
  destruct (match dict_get (String c name) tool_mapping with
            | Some tool => (tool, String c name)
            | None => (GHQ12, "GHQ12")
            end) as [tool_enum tool_name] eqn:Epair.
  injection Hpair as -> ->.
  destruct (routed_tool (String c name));
    cbv beta iota delta [bind];
    run_live Hcalm;
    cbv beta iota delta [list_item]; rewrite Hq;
    eexists;
    (split; [cbn; rewrite ?dict_get_set_same, !dict_set_set; reflexivity|]);
    cbn; repeat split; reflexivity.
Qed.

Lemma triage_tool_without_questions_witness :
  exists w' s',
    process_user_message dangling_flow "id0" "I feel sad"
      (demo_world_with triage_session)
    = (Ok (handler_error_reply SCREENING
             (IndexError "list index out of range")), w')
    /\ dict_get "id0" (sessions w') = Some s'
    /\ current_phase s' = SCREENING.
Proof.
  destruct (@triage_tool_without_questions dangling_flow "id0"
              "I feel sad" "PHQ9"
              (demo_world_with triage_session) triage_session)
    as (s' & Hrun & _ & Hphase & _).
  - repeat split; try reflexivity.
    + vm_compute. discriminate.
    + apply demo_calm. lia.
    + vm_compute. discriminate.
  - reflexivity.
  - exists []. eexists. eexists. split; [reflexivity|].
    split; [intros ? ? [] | vm_compute; reflexivity].
  - discriminate.
  - reflexivity.
  - eexists. exists s'. split; [exact Hrun|].
    split; [apply dict_get_set_same | exact Hphase].
Defined.

(** ** The screening phase *)

Lemma map_response_to_score_scale (fm : ConversationFlowManager)
    (msg : string) (tool : ScreeningTool) (w : World) :
  _map_response_to_score fm msg (tool_name_of tool) w
  = match scale_of fm tool with
    | Some scale =>
        (Ok (first_score (lower msg) scale
               [("3", 3); ("2", 2); ("1", 1); ("0", 0)]), w)
    | None =>
        (Raise (AttributeError "'NoneType' object has no attribute 'get'"), w)
    end.
Proof.
  cbv beta iota zeta delta [_map_response_to_score ret raise scale_of].
  destruct tool; cbn [tool_name_of String.eqb Ascii.eqb Bool.eqb];
    match goal with
    | |- context [match ?o with _ => _ end] => destruct o; reflexivity
    end.
Qed.

(** X9. In SCREENING, an answer in which no keyword of the scale occurs is not
    recorded: the reply is the clarify prompt (or its default), the session
    keeps its responses and will be asked the same question again. *)
Theorem screening_unclear_answer_not_recorded (fm : ConversationFlowManager)
    (id msg : string) (w : World) (s : SessionData) (tool : ScreeningTool) :
  ordinary_turn fm id msg w s 7 ->
  current_phase s = SCREENING ->
  selected_tool s = Some tool ->
  fst (_map_response_to_score fm msg (tool_name_of tool) w) = Ok (-1) ->
  exists r s',
    process_user_message fm id msg w
    = (Ok r, world_at w (dict_set id s' (sessions w)) (7 + ticks w))
    /\ r = Reply.basic
             (or_default (clarifyPrompt (answerMapping (config fm)))
                         "Could you clarify?")
             SCREENING false
    /\ current_phase s' = SCREENING
    /\ selected_tool s' = Some tool
    /\ responses s' = responses s
    /\ completed s' = completed s
    /\ length (conversation_history s')
       = S (length (conversation_history s))
    /\ last_activity s' = clock w (6 + ticks w).
Proof.
  intros Hturn Hphase Htool Hmap.
  enter_handler Hturn Hphase.
  cbv beta iota zeta delta [_handle_screening_phase try_catch].
  cbn [selected_tool set_last_activity]. rewrite Htool.
  cbv beta iota delta [bind].
  rewrite (@map_response_to_score_run fm msg _ w _ (-1) Hmap).
  cbn [Z.eqb Pos.eqb].
  run_live Hcalm.
  do 2 eexists. split; [cbn; rewrite dict_set_set; reflexivity|].
  cbn. rewrite Hphase, Htool, ?length_app. cbn.
  repeat split; try reflexivity. lia.
Qed.

Lemma screening_unclear_answer_not_recorded_witness :
  exists r w' s',
    process_user_message demo_flow "id0" "hmm"
      (demo_world_with mid_screening) = (Ok r, w')
    /\ dict_get "id0" (sessions w') = Some s'
    /\ Reply.ai_response r = Some "Could you clarify?"
    /\ responses s' = responses mid_screening.
Proof.
  destruct (@screening_unclear_answer_not_recorded demo_flow "id0" "hmm"
              (demo_world_with mid_screening) mid_screening PHQ9)
    as (r & s' & Hrun & Hr & _ & _ & Hresp & _).
  - apply ordinary_turn_demo;
      [lia | reflexivity | reflexivity | vm_compute; discriminate].
  - reflexivity.
  - reflexivity.
  - vm_compute. reflexivity.
  - exists r. eexists. exists s'. split; [exact Hrun|].
    split; [apply dict_get_set_same|].
    split; [now rewrite Hr | exact Hresp].
Defined.

Lemma screening_next_run (fm : ConversationFlowManager)
    (id msg next_q : string) (w : World) (s : SessionData)
    (tool : ScreeningTool) (score : Z) :
  screening_answer fm id msg w s tool score ->
  ~ is_phq9_crisis_answer fm s tool score ->
  nth_error (questions (questionnaire_of (config fm) (tool_name_of tool)))
            (S (length (responses s))) = Some next_q ->
  process_user_message fm id msg w
  = (Ok (Reply.with_question_number
           (Z.of_nat (length (responses s)) + 2)
           (Reply.basic next_q SCREENING false)),
     world_at w
       (dict_set id
          (set_last_activity (clock w (10 + ticks w))
             (set_conversation_history
                (conversation_history s
                 ++ [history_entry msg next_q SCREENING
                       (clock w (9 + ticks w))])
                (set_responses
                   (responses s
                    ++ [{| question_id :=
                             lower (tool_name_of tool) ++ "_"
                             ++ str_of_nat (length (responses s) + 1);
                           user_text := msg; mapped_score := score;
                           timestamp := clock w (5 + ticks w) |}])
                   s)))
          (sessions w))
       (11 + ticks w)).
Proof.
  intros (Hget & Hlive & Hcalm & Hlv & Hflag & Hphase & Htool & Hmap & Hscore)
         Hreg Hnext.
  assert (Hlt : (length (responses s) + 1
                 <? length (questions (questionnaire_of (config fm)
                                         (tool_name_of tool))))%nat = true).
  { apply Nat.ltb_lt. rewrite Nat.add_1_r.
    apply nth_error_Some. now rewrite Hnext. }
  rewrite (@process_user_message_dispatch _ _ _ _ _ Hget Hlive Hlv Hflag).
  cbv beta iota zeta delta [phase_handler].
  cbn [current_phase set_last_activity]. rewrite Hphase.
  cbv beta iota zeta delta [_handle_screening_phase try_catch].
  cbn [selected_tool set_last_activity responses]. rewrite Htool.
  cbv beta iota delta [bind].
  rewrite (@map_response_to_score_run fm msg _ w _ score Hmap).
  destruct (score =? -1) eqn:E1; [apply Z.eqb_eq in E1; contradiction|].
  assert (Hsave : forall b : bool,
            (b = true -> is_phq9_crisis_answer fm s tool score) ->
            b = false).
  { intros [|] Hb; [exfalso; now apply Hreg, Hb | reflexivity]. }
  match goal with
  | |- context [if ?c then (if score >? 0 then _ else ?save) else ?save] =>
      replace (if c then (if score >? 0 then
                   _handle_phq9_q9_crisis fm id msg score else save)
               else save) with save
  end.
  2: { destruct (String.eqb (tool_name_of tool) "PHQ9"
                 && match crisisQuestionIndex
                            (questionnaire_of (config fm) (tool_name_of tool))
                    with
                    | Some idx => Z.of_nat (length (responses s)) =? idx
                    | None => false
                    end) eqn:Ec; [|reflexivity].
       destruct (score >? 0) eqn:Epos; [|reflexivity].
       exfalso. apply Hreg.
       apply andb_true_iff in Ec. destruct Ec as [Et Ei].
       assert (tool = PHQ9) by (destruct tool; [reflexivity | discriminate..]).
       subst tool. split; [reflexivity|].
       change (tool_name_of PHQ9) with "PHQ9" in Ei.
       destruct (crisisQuestionIndex (questionnaire_of (config fm) "PHQ9"))
         as [idx|]; [|discriminate].
       apply Z.eqb_eq in Ei. subst idx. split; [reflexivity|].
       apply Z.gtb_lt in Epos. lia. }
  cbv beta iota zeta delta [screening_save_response bind deref get_sessions
                            ret].
  run_live Hcalm.
  cbn [sessions world_at]. rewrite dict_get_set_same. cbn [or_default].
  rewrite Hlt.
  cbv beta iota delta [list_item].
  replace (length (responses s) + 1)%nat with (S (length (responses s)))
    by lia.
  rewrite Hnext. cbv beta iota delta [ret].
  run_live Hcalm.
  replace (Z.of_nat (S (length (responses s))) + 1)
    with (Z.of_nat (length (responses s)) + 2) by lia.
  cbn [sessions world_at]. rewrite !dict_set_set.
  reflexivity.
Qed.



(** X10. In SCREENING, an answer that the scale maps to a score, when another
    question follows: the answer is appended to the responses under the
    identifier [<tool in lower case>_<question number>], the session stays
    in SCREENING, and the reply is the next question with its number. *)
Theorem screening_answer_asks_next_question (fm : ConversationFlowManager)
    (id msg next_q : string) (w : World) (s : SessionData)
    (tool : ScreeningTool) (score : Z) :
  screening_answer fm id msg w s tool score ->
  ~ is_phq9_crisis_answer fm s tool score ->
  nth_error (questions (questionnaire_of (config fm) (tool_name_of tool)))
            (S (length (responses s))) = Some next_q ->
  exists r s',
    process_user_message fm id msg w
    = (Ok r, world_at w (dict_set id s' (sessions w)) (11 + ticks w))
    /\ r = Reply.with_question_number
             (Z.of_nat (length (responses s)) + 2)
             (Reply.basic next_q SCREENING false)
    /\ responses s'
       = (responses s
          ++ [{| question_id :=
                   lower (tool_name_of tool) ++ "_"
                   ++ str_of_nat (length (responses s) + 1);
                 user_text := msg; mapped_score := score;
                 timestamp := clock w (5 + ticks w) |}])%list
    /\ get_total_score s' = get_total_score s + score
    /\ current_phase s' = SCREENING
    /\ selected_tool s' = Some tool
    /\ completed s' = completed s
    /\ conversation_history s'
       = (conversation_history s
          ++ [history_entry msg next_q SCREENING (clock w (9 + ticks w))])%list
    /\ last_activity s' = clock w (10 + ticks w).
Proof.
  intros Hans Hreg Hnext.
  pose proof Hans as (_ & _ & _ & _ & _ & Hphase & Htool & _).
  do 2 eexists.
  split;
    [apply (@screening_next_run fm id msg next_q w s tool score); assumption|].
  split; [reflexivity|].
  split; [reflexivity|].
  split.
  { unfold get_total_score.
    cbn [responses set_last_activity set_conversation_history set_responses].
    rewrite map_app. cbn [map mapped_score]. apply py_sum_app. }
  cbn. rewrite Hphase, Htool. repeat split; reflexivity.
Qed.

Lemma screening_answer_asks_next_question_witness :
  exists r w' s',
    process_user_message demo_flow "id0" "often"
      (demo_world_with mid_screening) = (Ok r, w')
    /\ dict_get "id0" (sessions w') = Some s'
    /\ Reply.ai_response r = Some "Thoughts of self-harm?"
    /\ Reply.question_number r = Some 3
    /\ map question_id (responses s') = ["phq9_1"; "phq9_2"]
    /\ get_total_score s' = 3.
Proof.
  destruct (@screening_answer_asks_next_question demo_flow "id0" "often"
              "Thoughts of self-harm?"
              (demo_world_with mid_screening) mid_screening PHQ9 2)
    as (r & s' & Hrun & Hr & Hresp & Htotal & _).
  - apply screening_answer_demo;
      [reflexivity | reflexivity | reflexivity | reflexivity
      | vm_compute; discriminate | vm_compute; reflexivity | discriminate].
  - intros (_ & Hidx & _). vm_compute in Hidx. discriminate.
  - reflexivity.
  - exists r. eexists. exists s'. split; [exact Hrun|].
    split; [apply dict_get_set_same|].
    rewrite Hr, Hresp, Htotal. repeat split; vm_compute; reflexivity.
Defined.

(** X11. In SCREENING, when the configuration has no answer scale for the tool,
    no answer can be scored: the reply is the apology with the error text,
    and the session is left as it was, in SCREENING with the same
    responses and history. *)
Theorem screening_without_scale_fails (fm : ConversationFlowManager)
    (id msg : string) (w : World) (s : SessionData) (tool : ScreeningTool) :
  ordinary_turn fm id msg w s 3 ->
  current_phase s = SCREENING ->
  selected_tool s = Some tool ->
  scale_of fm tool = None ->
  process_user_message fm id msg w
  = (Ok (handler_error_reply SCREENING
           (AttributeError "'NoneType' object has no attribute 'get'")),
     world_at w
       (dict_set id (set_last_activity (clock w (1 + ticks w)) s)
          (sessions w))
       (3 + ticks w)).
Proof.
  intros Hturn Hphase Htool Hscale.
  enter_handler Hturn Hphase.
  cbv beta iota zeta delta [_handle_screening_phase try_catch].
  cbn [selected_tool set_last_activity]. rewrite Htool.
  cbv beta iota delta [bind].
  rewrite map_response_to_score_scale, Hscale.
  cbv beta iota zeta delta [on_error bind deref get_sessions ret].
  cbn [sessions world_at]. rewrite dict_get_set_same.
  unfold _get_error_response, handler_error_reply.
  cbn. rewrite Hphase. reflexivity.
Qed.

Lemma screening_without_scale_fails_witness :
  exists w',
    process_user_message scaleless_flow "id0" "often"
      (demo_world_with mid_screening)
    = (Ok (handler_error_reply SCREENING
             (AttributeError "'NoneType' object has no attribute 'get'")),
       w')
    /\ dict_get "id0" (sessions w')
       = Some (set_last_activity 1000000 mid_screening).
Proof.
  eexists. split.
  - apply (@screening_without_scale_fails scaleless_flow "id0" "often"
             (demo_world_with mid_screening) mid_screening PHQ9).
    + repeat split; try reflexivity.
      * vm_compute. discriminate.
      * apply demo_calm. lia.
      * vm_compute. discriminate.
    + reflexivity.
    + reflexivity.
    + reflexivity.
  - reflexivity.
Defined.

(** X12. A session in SCREENING for which no tool is selected is sent back to
    the start: its phase becomes GREETING and the reply is "Let's start
    over." followed by the welcome text, whatever the message says. *)
Theorem screening_without_tool_starts_over (fm : ConversationFlowManager)
    (id msg : string) (w : World) (s : SessionData) :
  ordinary_turn fm id msg w s 10 ->
  current_phase s = SCREENING ->
  selected_tool s = None ->
  exists r s',
    process_user_message fm id msg w
    = (Ok r, world_at w (dict_set id s' (sessions w)) (10 + ticks w))
    /\ r = Reply.basic ("Let's start over. " ++ welcome (intro (config fm)))
             GREETING false
    /\ current_phase s' = GREETING
    /\ selected_tool s' = None
    /\ responses s' = responses s
    /\ completed s' = completed s
    /\ length (conversation_history s')
       = S (length (conversation_history s)).
Proof.
  intros Hturn Hphase Htool.
  enter_handler Hturn Hphase.
  cbv beta iota zeta delta [_handle_screening_phase try_catch].
  cbn [selected_tool set_last_activity]. rewrite Htool.
  cbv beta iota zeta delta [_handle_unknown_phase bind].
  run_live Hcalm. run_live Hcalm.
  do 2 eexists. split; [cbn; rewrite !dict_set_set; reflexivity|].
  cbn. rewrite Htool, ?length_app. cbn.
  repeat split; try reflexivity. lia.
Qed.

Lemma screening_without_tool_starts_over_witness :
  exists r w' s',
    process_user_message demo_flow "id0" "often"
      (demo_world_with toolless_screening) = (Ok r, w')
    /\ dict_get "id0" (sessions w') = Some s'
    /\ current_phase s' = GREETING.
Proof.
  destruct (@screening_without_tool_starts_over demo_flow "id0" "often"
              (demo_world_with toolless_screening) toolless_screening)
    as (r & s' & Hrun & _ & Hphase & _).
  - apply ordinary_turn_demo;
      [lia | reflexivity | reflexivity | vm_compute; discriminate].
  - reflexivity.
  - reflexivity.
  - exists r. eexists. exists s'. split; [exact Hrun|].
    split; [apply dict_get_set_same | exact Hphase].
Defined.

(** ** After the results *)

(** X13. Once a session is in RESULTS, every further message gets the exit text
    (or "Take care."). Nothing is recorded: the session keeps its phase,
    responses and history, and only its activity stamp moves. *)
Theorem results_phase_answers_with_exit_text (fm : ConversationFlowManager)
    (id msg : string) (w : World) (s : SessionData) :
  ordinary_turn fm id msg w s 3 ->
  current_phase s = RESULTS ->
  process_user_message fm id msg w
  = (Ok (Reply.basic
           (or_default (exitResponse (intro (config fm))) "Take care.")
           RESULTS false),
     world_at w
       (dict_set id (set_last_activity (clock w (1 + ticks w)) s)
          (sessions w))
       (3 + ticks w)).
Proof.
  intros Hturn Hphase.
  enter_handler Hturn Hphase.
  reflexivity.
Qed.

Lemma results_phase_answers_with_exit_text_witness :
  exists w',
    process_user_message demo_flow "id0" "thank you"
      (demo_world_with finished_session)
    = (Ok (Reply.basic "Take care of yourself." RESULTS false), w')
    /\ dict_get "id0" (sessions w')
       = Some (set_last_activity 1000000 finished_session).
Proof.
  eexists. split.
  - apply (@results_phase_answers_with_exit_text demo_flow "id0" "thank you"
             (demo_world_with finished_session) finished_session).
    + apply ordinary_turn_demo;
        [lia | reflexivity | reflexivity | vm_compute; discriminate].
    + reflexivity.
  - reflexivity.
Defined.

(** ** A whole conversation *)

Lemma detector_level_world (sm : SafetyMonitor) (text : PyVal)
    (w0 w : World) :
  detector_level sm text w0 <> Some CRITICAL ->
  detector_level sm text w <> Some CRITICAL.
Proof.
  intros H.
  destruct (@check_for_crisis_not_critical sm text w0 w H) as [r [Hrun Hr]].
  destruct (check_for_crisis_run sm text w) as [r' [Hrun' [_ Hr']]].
  unfold detector_level. rewrite Hrun'. cbn.
  rewrite Hrun in Hrun'. injection Hrun' as <-.
  intros [= Hl].
  destruct text as [| b | z | t | | p | t];
    try (destruct Hr' as [Hn _]; congruence).
  destruct t as [|c t]; [destruct Hr' as [Hn _]; congruence|].
  destruct (matched_triggers sm (strip (lower (String c t)))).
  - destruct Hr' as [Hn _]. congruence.
  - destruct Hr' as (_ & _ & _ & Ho). congruence.
Qed.

Lemma answers_scored_world (fm : ConversationFlowManager)
    (tool : ScreeningTool) (w0 w : World) (answers : list string) :
  forall (scores : list Z) (n : nat),
    answers_scored fm tool w0 n answers scores ->
    answers_scored fm tool w n answers scores.
Proof.
  induction answers as [|a answers IH]; intros [|c scores] n; cbn; try tauto.
  intros (Hmap & Hc & Hlv & Hreg & Hrest).
  split; [now rewrite (@map_response_to_score_run fm a _ w0 w c Hmap)|].
  split; [exact Hc|].
  split; [now apply detector_level_world with (w0 := w0)|].
  split; [exact Hreg | now apply IH].
Qed.

Lemma answers_scored_length (fm : ConversationFlowManager)
    (tool : ScreeningTool) (w : World) (answers : list string) :
  forall (scores : list Z) (n : nat),
    answers_scored fm tool w n answers scores ->
    length scores = length answers.
Proof.
  induction answers as [|a answers IH]; intros [|c scores] n; cbn; try tauto.
  intros (_ & _ & _ & _ & Hrest). f_equal. now apply IH with (n := S n).
Qed.

(** The setting of the next turn, after a call that left [s'] in the table
    with its activity stamped one reading before the end of the call. *)
Lemma ordinary_turn_next (fm : ConversationFlowManager) (id msg : string)
    (w : World) (s' : SessionData) (d : dict SessionData) (n k m : nat) :
  calm w n ->
  (m + S k <= n)%nat -> (1 <= m)%nat ->
  last_activity s' = clock w (k + ticks w) ->
  crisis_detected s' = false ->
  detector_level (safety_monitor fm) (PyStr msg) w <> Some CRITICAL ->
  ordinary_turn fm id msg (world_at w (dict_set id s' d) (S k + ticks w)) s' m.
Proof.
  intros Hcalm Hm Hm1 Hla Hflag Hlv.
  split; [cbn; apply dict_get_set_same|].
  split; [unfold live_at; cbn; rewrite Hla; apply Hcalm; lia|].
  split; [eapply calm_weaken with (k := S k); [exact Hcalm | | | |];
          cbn; try reflexivity; lia|].
  split; [now apply detector_level_world with (w0 := w) | exact Hflag].
Qed.

Lemma skipn_nth_error (A : Type) (l : list A) (k : nat) (x : A) :
  nth_error l k = Some x -> skipn k l = x :: skipn (S k) l.
Proof.
  revert k. induction l as [|y l IH]; intros [|k]; cbn; try discriminate.
  - now intros [= ->].
  - intros H. now rewrite (IH k H).
Qed.

Lemma py_sum_cons (c : Z) (l : list Z) : py_sum (c :: l) = c + py_sum l.
Proof. unfold py_sum at 1. cbn. apply py_sum_from. Qed.

(** The last answer of a questionnaire, as a whole call. *)
Lemma screening_final_turn (fm : ConversationFlowManager) (id msg : string)
    (w : World) (s : SessionData) (tool : ScreeningTool) (score : Z) :
  screening_answer fm id msg w s tool score ->
  ~ is_phq9_crisis_answer fm s tool score ->
  S (length (responses s))
  = length (questions (questionnaire_of (config fm) (tool_name_of tool))) ->
  exists r w' s' resp,
    process_user_message fm id msg w = (Ok r, w')
    /\ dict_get id (sessions w') = Some s'
    /\ (forall k, k <> id ->
          dict_get k (sessions w') = dict_get k (sessions w))
    /\ responses s' = (responses s ++ [resp])%list
    /\ user_text resp = msg
    /\ mapped_score resp = score
    /\ current_phase s' = RESULTS
    /\ completed s' = true
    /\ selected_tool s' = Some tool
    /\ Reply.error r = None
    /\ Reply.current_phase r = Some "RESULTS"
    /\ Reply.completed r = Some true
    /\ Reply.total_score r = Some (get_total_score s + score)
    /\ Reply.severity_level r
       = Some (severity_reported (config fm) (get_total_score s + score)
                 (thresholds (questionnaire_of (config fm)
                                (tool_name_of tool)))).
Proof.
  intros (Hget & Hlive & Hcalm & Hlv & Hflag & Hphase & Htool & Hmap & Hscore)
         Hreg Hlast.
  rewrite (@process_user_message_dispatch fm id msg w s Hget Hlive Hlv Hflag).
  unfold phase_handler. cbn [current_phase set_last_activity].
  rewrite Hphase. cbv beta iota delta [try_catch].
  match goal with
  | |- context [_handle_screening_phase fm id msg ?s1 ?w1] =>
      destruct (@screening_final_run fm id msg w1 s1 tool score)
        as (r & w' & s' & resp & Hrun & Hs & Hr & Hu & Hm & Hp & Hc & Ht & _
            & He & Hrp & Hrc & Hrt & Hrs)
  end.
  - cbn. apply dict_get_set_same.
  - live_by Hcalm.
  - eapply calm_weaken with (k := 3%nat); [exact Hcalm | | | | ];
      cbn; try reflexivity; lia.
  - exact Htool.
  - rewrite (@map_response_to_score_run fm msg _ w _ score Hmap).
    reflexivity.
  - exact Hscore.
  - exact Hreg.
  - exact Hlast.
  - rewrite Hrun. exists r, w', s', resp.
    split; [reflexivity|].
    split; [rewrite Hs; apply dict_get_set_same|].
    split.
    { intros k Hk. rewrite Hs. cbn [sessions world_at].
      now rewrite !dict_get_set_other by assumption. }
    cbn [responses set_last_activity selected_tool] in Hr, Ht.
    rewrite Htool in Ht.
    repeat (split; [assumption|]). assumption.
Qed.

(** The answers to the questions that are left, one call each: every answer
    but the last is followed by the next question, the last one by the
    results. *)
Lemma screening_answers_run (fm : ConversationFlowManager) (id : string)
    (tool : ScreeningTool) (answers : list string) :
  forall (scores : list Z) (w : World) (s : SessionData),
    answers <> [] ->
    answers_scored fm tool w (length (responses s)) answers scores ->
    dict_get id (sessions w) = Some s ->
    live_at w (clock w (ticks w)) s ->
    calm w (11 * length answers + 3) ->
    crisis_detected s = false ->
    current_phase s = SCREENING ->
    selected_tool s = Some tool ->
    (length (responses s) + length answers)%nat
    = length (questions (questionnaire_of (config fm) (tool_name_of tool))) ->
    exists asked final w' s',
      converse fm id answers w = (Ok (asked ++ [final])%list, w')
      /\ dict_get id (sessions w') = Some s'
      /\ map Reply.ai_response asked
         = map Some
             (skipn (S (length (responses s)))
                (questions (questionnaire_of (config fm)
                              (tool_name_of tool))))
      /\ Reply.error final = None
      /\ Reply.current_phase final = Some "RESULTS"
      /\ Reply.completed final = Some true
      /\ Reply.total_score final
         = Some (get_total_score s + py_sum scores)
      /\ Reply.severity_level final
         = Some (severity_reported (config fm)
                   (get_total_score s + py_sum scores)
                   (thresholds (questionnaire_of (config fm)
                                  (tool_name_of tool))))
      /\ current_phase s' = RESULTS
      /\ completed s' = true
      /\ selected_tool s' = Some tool
      /\ map mapped_score (responses s')
         = (map mapped_score (responses s) ++ scores)%list
      /\ map user_text (responses s')
         = (map user_text (responses s) ++ answers)%list.
Proof.
  set (qs := questions (questionnaire_of (config fm) (tool_name_of tool))).
  induction answers as [|a answers IH]; intros scores w s Hne Hsc Hget Hlive
    Hcalm Hflag Hphase Htool Hlen; [congruence|].
  destruct scores as [|c scores]; [destruct Hsc|].
  destruct Hsc as (Hmap & Hc & Hlv & Hreg & Hrest).
  assert (Hnot : ~ is_phq9_crisis_answer fm s tool c).
  { intros (Ht & Hi & Hp). apply Hreg. repeat split; assumption. }
  assert (Hans : screening_answer fm id a w s tool c).
  { repeat split; try assumption.
    eapply calm_weaken with (k := 0%nat); [exact Hcalm | | | |];
      try reflexivity. cbn [length]. lia. }
  destruct answers as [|a' answers].
  - (* the last question *)
    clear IH. cbn [length] in Hlen.
    destruct (@screening_final_turn fm id a w s tool c Hans Hnot)
      as (r & w' & s' & resp & Hrun & Hget' & _ & Hr & Hu & Hm & Hp & Hd & Ht
          & He & Hrp & Hrc & Hrt & Hrs).
    { fold qs. lia. }
    destruct scores as [|c' scores]; [|destruct Hrest].
    exists [], r, w', s'.
    split; [cbn [converse]; unfold bind; rewrite Hrun; reflexivity|].
    split; [exact Hget'|].
    split.
    { replace (S (length (responses s))) with (length qs) by lia.
      now rewrite skipn_all. }
    replace (py_sum [c]) with c by (cbn; lia).
    repeat (split; [assumption|]).
    rewrite Hr, !map_app. cbn [map]. rewrite Hu, Hm. split; reflexivity.
  - (* another question follows *)
    destruct (nth_error qs (S (length (responses s)))) as [next_q|] eqn:Hq.
    2: { apply nth_error_None in Hq. cbn [length] in Hlen. lia. }
    pose proof (@screening_next_run fm id a next_q w s tool c Hans Hnot Hq)
      as Hrun.
    match type of Hrun with
    | _ = (Ok ?r, world_at w (dict_set id ?e _) _) =>
        set (r1 := r) in *; set (s1 := e) in *
    end.
    set (w1 := world_at w (dict_set id s1 (sessions w)) (11 + ticks w)) in *.
    assert (Hl1 : length (responses s1) = S (length (responses s))).
    { subst s1. cbn [responses set_last_activity set_conversation_history
                     set_responses].
      rewrite length_app. cbn. lia. }
    destruct (IH scores w1 s1) as (asked & final & w' & s' & Hconv & Hget'
      & Hasked & He & Hrp & Hrc & Hrt & Hrs & Hp & Hd & Ht & Hms & Hmu).
    + discriminate.
    + rewrite Hl1. now apply answers_scored_world with (w0 := w).
    + cbn. apply dict_get_set_same.
    + unfold live_at. cbn. apply Hcalm; cbn [length]; lia.
    + eapply calm_weaken with (k := 11%nat); [exact Hcalm | | | |];
        cbn [length]; try reflexivity; lia.
    + exact Hflag.
    + exact Hphase.
    + exact Htool.
    + rewrite Hl1. cbn [length] in *. fold qs. lia.
    + assert (Htot : get_total_score s1 = get_total_score s + c).
      { unfold get_total_score. subst s1.
        cbn [responses set_last_activity set_conversation_history
             set_responses].
        rewrite map_app. cbn [map mapped_score]. apply py_sum_app. }
      exists (r1 :: asked), final, w', s'.
      split.
      { change (converse fm id (a :: a' :: answers) w)
          with (bind (process_user_message fm id a)
                  (fun reply =>
                     bind (converse fm id (a' :: answers))
                       (fun replies => ret (reply :: replies))) w).
        unfold bind at 1. rewrite Hrun. fold w1.
        unfold bind. rewrite Hconv. reflexivity. }
      split; [exact Hget'|].
      split.
      { cbn [map]. rewrite Hasked, Hl1.
        fold qs. rewrite (skipn_nth_error _ _ Hq). reflexivity. }
      rewrite py_sum_cons, Z.add_assoc, <- Htot.
      repeat (split; [assumption|]).
      rewrite Hms, Hmu. subst s1.
      cbn [responses set_last_activity set_conversation_history
           set_responses].
      rewrite !map_app, <- !app_assoc. split; reflexivity.
Qed.

Lemma converse_step (fm : ConversationFlowManager) (id m : string)
    (rest : list string) (w w1 w2 : World) (r : Reply.t)
    (rs : list Reply.t) :
  process_user_message fm id m w = (Ok r, w1) ->
  converse fm id rest w1 = (Ok rs, w2) ->
  converse fm id (m :: rest) w = (Ok (r :: rs), w2).
Proof.
  intros H1 H2. cbn [converse]. unfold bind. rewrite H1, H2. reflexivity.
Qed.

(** X14. A whole conversation of a new session: any first message, a consent, a
    mood that routes to a tool, and one scored answer per question of that
    tool. The replies are the welcome, the mood prompt, and the questions of
    the tool in order, one per message; the reply to the last answer closes
    with the sum of the scores and its severity. The session ends in
    RESULTS, completed, holding exactly the answers given with their
    scores. *)
Theorem conversation_reaches_results (fm : ConversationFlowManager)
    (id hello yes mood name first_q : string) (more_qs answers : list string)
    (scores : list Z) (w : World) (s : SessionData) :
  dict_get id (sessions w) = Some s ->
  live_at w (clock w (ticks w)) s ->
  calm w (11 * length answers + 30) ->
  crisis_detected s = false ->
  current_phase s = GREETING ->
  conversation_history s = [] ->
  responses s = [] ->
  (forall m, In m [hello; yes; mood] ->
     detector_level (safety_monitor fm) (PyStr m) w <> Some CRITICAL) ->
  any_in (strip (lower yes)) (yesKeywords (intro (config fm))) = true ->
  first_route (lower mood) (routing (moodSelection (config fm))) name ->
  name <> "" ->
  questions (questionnaire_of (config fm) (tool_name_of (routed_tool name)))
  = first_q :: more_qs ->
  length answers = S (length more_qs) ->
  answers_scored fm (routed_tool name) w 0 answers scores ->
  exists asked final w' s',
    converse fm id (hello :: yes :: mood :: answers) w
    = (Ok (Reply.with_next_action "wait_for_intro_response"
             (Reply.basic (welcome (intro (config fm))) GREETING false)
           :: Reply.with_next_action "get_mood"
                (Reply.basic (prompt (moodSelection (config fm)))
                   TRIAGE false)
           :: Reply.with_question_number 1
                (Reply.with_selected_tool (tool_name_of (routed_tool name))
                   (Reply.basic (triage_transition_prefix ++ first_q)
                      SCREENING false))
           :: asked ++ [final])%list, w')
    /\ map Reply.ai_response asked = map Some more_qs
    /\ Reply.error final = None
    /\ Reply.current_phase final = Some "RESULTS"
    /\ Reply.completed final = Some true
    /\ Reply.total_score final = Some (py_sum scores)
    /\ Reply.severity_level final
       = Some (severity_reported (config fm) (py_sum scores)
                 (thresholds (questionnaire_of (config fm)
                                (tool_name_of (routed_tool name)))))
    /\ dict_get id (sessions w') = Some s'
    /\ current_phase s' = RESULTS
    /\ completed s' = true
    /\ selected_tool s' = Some (routed_tool name)
    /\ map mapped_score (responses s') = scores
    /\ map user_text (responses s') = answers.
Proof.
  intros Hget Hlive Hcalm Hflag Hphase Hhist Hresp Hlv Hyes Hroute Hname Hqs
         Hlen Hsc.
  set (N := length answers) in *.
  (* the first message *)
  assert (T1 : ordinary_turn fm id hello w s 7).
  { repeat split; try assumption.
    - eapply calm_weaken with (k := 0%nat); [exact Hcalm | | | |];
        try reflexivity; lia.
    - apply Hlv. cbn. tauto. }
  pose proof (@greeting_first_run fm id hello w s T1 Hphase Hhist) as R1.
  match type of R1 with
  | _ = (_, world_at w (dict_set id ?e _) _) => set (s1 := e) in *
  end.
  set (w1 := world_at w (dict_set id s1 (sessions w)) (7 + ticks w)) in *.
  (* the consent *)
  assert (T2 : ordinary_turn fm id yes w1 s1 10).
  { apply (@ordinary_turn_next fm id yes w s1 (sessions w)
             (11 * N + 30) 6 10); try assumption; try reflexivity; try lia.
    apply Hlv. cbn. tauto. }
  assert (C1 : calm w1 (11 * N + 23)).
  { eapply calm_weaken with (k := 7%nat); [exact Hcalm | | | |];
      try reflexivity; lia. }
  pose proof (@greeting_consent_run fm id yes w1 s1 T2) as R2.
  specialize (R2 Hphase).
  assert (H1 : conversation_history s1 <> []) by discriminate.
  specialize (R2 H1 Hyes). clear H1.
  match type of R2 with
  | _ = (_, world_at w1 (dict_set id ?e _) _) => set (s2 := e) in *
  end.
  set (w2 := world_at w1 (dict_set id s2 (sessions w1)) (10 + ticks w1)) in *.
  (* the mood *)
  assert (T3 : ordinary_turn fm id mood w2 s2 10).
  { apply (@ordinary_turn_next fm id mood w1 s2 (sessions w1)
             (11 * N + 23) 9 10); try assumption; try reflexivity; try lia.
    apply detector_level_world with (w0 := w). apply Hlv. cbn. tauto. }
  assert (C2 : calm w2 (11 * N + 13)).
  { eapply calm_weaken with (k := 10%nat); [exact C1 | | | |];
      try reflexivity; lia. }
  assert (Hq0 : nth_error
                  (questions
                     (questionnaire_of (config fm)
                        (tool_name_of (routed_tool name)))) 0
                = Some first_q) by now rewrite Hqs.
  pose proof (@triage_select_run fm id mood name first_q w2 s2 T3 eq_refl
                Hroute Hname Hq0) as R3.
  match type of R3 with
  | _ = (_, world_at w2 (dict_set id ?e _) _) => set (s3 := e) in *
  end.
  set (w3 := world_at w2 (dict_set id s3 (sessions w2)) (10 + ticks w2)) in *.
  (* the answers *)
  assert (T4 : ordinary_turn fm id mood w3 s3 (11 * N + 3)).
  { apply (@ordinary_turn_next fm id mood w2 s3 (sessions w2)
             (11 * N + 13) 9 (11 * N + 3));
      try assumption; try reflexivity; try lia.
    apply detector_level_world with (w0 := w). apply Hlv. cbn. tauto. }
  destruct T4 as (G4 & L4 & C4 & _ & F4).
  assert (Hr3 : responses s3 = []) by exact Hresp.
  destruct (@screening_answers_run fm id (routed_tool name) answers scores
              w3 s3)
    as (asked & final & w' & s' & Hconv & Hget' & Hasked & He & Hrp & Hrc
        & Hrt & Hrs & Hp & Hd & Ht & Hms & Hmu).
  - intros ->. cbn in Hlen. discriminate.
  - rewrite Hr3. now apply answers_scored_world with (w0 := w).
  - exact G4.
  - exact L4.
  - exact C4.
  - exact F4.
  - reflexivity.
  - reflexivity.
  - rewrite Hr3, Hqs. cbn [length]. fold N. lia.
  - assert (Htot : get_total_score s3 = 0)
      by (unfold get_total_score; rewrite Hr3; reflexivity).
    rewrite Htot, Z.add_0_l in Hrt, Hrs.
    rewrite Hr3, Hqs in Hasked. cbn [length skipn] in Hasked.
    rewrite Hr3 in Hms, Hmu. cbn [map app] in Hms, Hmu.
    exists asked, final, w', s'.
    split.
    { eapply converse_step; [exact R1|].
      eapply converse_step; [exact R2|].
      eapply converse_step; [exact R3|].
      exact Hconv. }
    repeat (split; [assumption|]). assumption.
Qed.

Lemma conversation_reaches_results_witness :
  exists asked final w' s',
    converse demo_flow "id0"
      ["hello"; "yes"; "I feel anxious"; "often"; "always"]
      (demo_world_with new_session)
    = (Ok (Reply.with_next_action "wait_for_intro_response"
             (Reply.basic "Welcome. Shall we begin?" GREETING false)
           :: Reply.with_next_action "get_mood"
                (Reply.basic "How have you been feeling?" TRIAGE false)
           :: Reply.with_question_number 1
                (Reply.with_selected_tool "GAD7"
                   (Reply.basic
                      (triage_transition_prefix ++ "Feeling nervous?")
                      SCREENING false))
           :: asked ++ [final])%list, w')
    /\ map Reply.ai_response asked = [Some "Unable to stop worrying?"]
    /\ Reply.total_score final = Some 5
    /\ Reply.severity_level final = Some "moderate"
    /\ dict_get "id0" (sessions w') = Some s'
    /\ current_phase s' = RESULTS
    /\ map mapped_score (responses s') = [2; 3].
Proof.
  destruct (@conversation_reaches_results demo_flow "id0" "hello" "yes"
              "I feel anxious" "GAD7" "Feeling nervous?"
              ["Unable to stop worrying?"] ["often"; "always"] [2; 3]
              (demo_world_with new_session) new_session)
    as (asked & final & w' & s' & Hconv & Hasked & _ & _ & _ & Htot & Hsev
        & Hget & Hphase & _ & _ & Hms & _).
  - reflexivity.
  - vm_compute. discriminate.
  - apply demo_calm. cbn. lia.
  - reflexivity.
  - reflexivity.
  - reflexivity.
  - reflexivity.
  - intros m Hm. cbn in Hm.
    repeat (destruct Hm as [<- | Hm]; [vm_compute; discriminate|]).
    destruct Hm.
  - vm_compute. reflexivity.
  - exists [("PHQ9", ["sad"; "down"])]. eexists. eexists.
    split; [reflexivity|].
    split; [|vm_compute; reflexivity].
    intros n k [[= <- <-] | []]. vm_compute. reflexivity.
  - discriminate.
  - reflexivity.
  - reflexivity.
  - cbn [answers_scored].
    repeat split; try (vm_compute; congruence);
      intros (Ht & _); discriminate.
  - exists asked, final, w', s'.
    split; [exact Hconv|].
    split; [exact Hasked|].
    split; [exact Htot|].
    split; [exact Hsev|].
    split; [exact Hget|].
    split; [exact Hphase | exact Hms].
Defined.

(* ===================================================================== *)
(** * Further properties of the session store *)
(* ===================================================================== *)

(** ** Statistics *)

Lemma count_if_length (flag : SessionData -> bool)
    (values : list SessionData) :
  count_if flag values = Z.of_nat (length (filter flag values)).
Proof.
  unfold count_if.
  induction (filter flag values) as [|x l IH]; [reflexivity|].
  cbn [map length]. rewrite py_sum_cons, IH. lia.
Qed.

Lemma filter_length_le (A : Type) (f : A -> bool) (l : list A) :
  (length (filter f l) <= length l)%nat.
Proof.
  induction l as [|x l IH]; cbn; [lia|]. destruct (f x); cbn; lia.
Qed.

(** One step of the counting loop adds one to the sum of the counts, and
    one to the count of the phase of the session. *)
Lemma dict_values_sum_incr (k : string) (d : dict Z) :
  py_sum (map snd (dict_set k (or_default (dict_get k d) 0 + 1) d))
  = py_sum (map snd d) + 1.
Proof.
  induction d as [|[k0 v0] d IH]; cbn [dict_set dict_get map snd].
  - reflexivity.
  - destruct (String.eqb k k0) eqn:E; cbn [map snd or_default].
    + rewrite !py_sum_cons. lia.
    + rewrite !py_sum_cons, IH. lia.
Qed.

Lemma count_phases_from (values : list SessionData) :
  forall acc : dict Z,
    let phases :=
      fold_left
        (fun phases session =>
           let phase := phase_value (current_phase session) in
           dict_set phase (or_default (dict_get phase phases) 0 + 1) phases)
        values acc in
    py_sum (map snd phases)
    = py_sum (map snd acc) + Z.of_nat (length values)
    /\ forall ph,
         or_default (dict_get (phase_value ph) phases) 0
         = or_default (dict_get (phase_value ph) acc) 0 + in_phase ph values.
Proof.
  induction values as [|s values IH]; intros acc; cbn zeta.
  - cbn [fold_left length]. split; [lia|].
    intros ph. unfold in_phase. cbn [filter length]. lia.
  - cbn [fold_left].
    destruct (IH (dict_set (phase_value (current_phase s))
                    (or_default (dict_get (phase_value (current_phase s)) acc)
                                0 + 1) acc)) as [Hsum Hph].
    cbn zeta in Hsum, Hph.
    split.
    + rewrite Hsum, dict_values_sum_incr. cbn [length]. lia.
    + intros ph. rewrite Hph. unfold in_phase. cbn [filter].
      destruct (String.eqb (phase_value (current_phase s)) (phase_value ph))
        eqn:E.
      * apply String.eqb_eq in E. rewrite <- E, dict_get_set_same.
        cbn [or_default length]. lia.
      * apply String.eqb_neq in E.
        rewrite dict_get_set_other by congruence. lia.
Qed.

Lemma count_phases_positive (values : list SessionData) :
  forall acc : dict Z,
    (forall k v, dict_get k acc = Some v -> 1 <= v) ->
    forall k v,
      dict_get k
        (fold_left
           (fun phases session =>
              let phase := phase_value (current_phase session) in
              dict_set phase (or_default (dict_get phase phases) 0 + 1)
                       phases)
           values acc) = Some v ->
      1 <= v.
Proof.
  induction values as [|s values IH]; intros acc Hacc k v; cbn [fold_left].
  - apply Hacc.
  - apply IH. clear k v. intros k v.
    destruct (string_dec k (phase_value (current_phase s))) as [-> | Hne].
    + rewrite dict_get_set_same. intros [= <-].
      destruct (dict_get (phase_value (current_phase s)) acc) as [n|] eqn:E;
        cbn [or_default]; [specialize (Hacc _ _ E)|]; lia.
    + rewrite dict_get_set_other by assumption. apply Hacc.
Qed.

(** X15. [get_session_stats] is a read: the world is left as it is (no session
    is touched or removed, no clock is read). The counts by phase add up to
    the number of stored sessions, each phase is counted exactly, a phase
    without a session has no key, and the completed and crisis counts are
    the numbers of sessions with the flag, never more than the total. *)
Theorem session_stats_are_consistent (w : World) :
  exists st,
    get_session_stats w = (Ok st, w)
    /\ total_active_sessions st = Z.of_nat (length (sessions w))
    /\ py_sum (map snd (sessions_by_phase st)) = total_active_sessions st
    /\ (forall ph,
          dict_get (phase_value ph) (sessions_by_phase st)
          = if in_phase ph (map snd (sessions w)) =? 0 then None
            else Some (in_phase ph (map snd (sessions w))))
    /\ completed_sessions st
       = Z.of_nat (length (filter completed (map snd (sessions w))))
    /\ crisis_sessions st
       = Z.of_nat (length (filter crisis_detected (map snd (sessions w))))
    /\ 0 <= completed_sessions st <= total_active_sessions st
    /\ 0 <= crisis_sessions st <= total_active_sessions st
    /\ stats_timeout_minutes st = timeout_minutes w
    /\ stats_max_sessions st = max_sessions w.
Proof.
  eexists. split; [reflexivity|].
  cbn [total_active_sessions completed_sessions crisis_sessions
       sessions_by_phase stats_timeout_minutes stats_max_sessions].
  destruct (count_phases_from (map snd (sessions w)) []) as [Hsum Hph].
  pose proof (@count_phases_positive (map snd (sessions w)) []) as Hpos.
  cbn zeta in Hsum, Hph. fold (count_phases (map snd (sessions w))) in *.
  rewrite !count_if_length.
  pose proof (filter_length_le completed (map snd (sessions w))) as Hc.
  pose proof (filter_length_le crisis_detected (map snd (sessions w))) as Hx.
  rewrite length_map in Hsum, Hc, Hx.
  split; [reflexivity|].
  split; [rewrite Hsum; cbn; lia|].
  split.
  { intros ph. specialize (Hph ph). cbn [dict_get or_default] in Hph.
    rewrite Z.add_0_l in Hph.
    destruct (dict_get (phase_value ph)
                (count_phases (map snd (sessions w)))) as [n|] eqn:E;
      cbn [or_default] in Hph.
    - assert (1 <= n) by (eapply Hpos; [discriminate | exact E]).
      rewrite <- Hph.
      destruct (n =? 0) eqn:E0; [apply Z.eqb_eq in E0; lia | reflexivity].
    - rewrite <- Hph. reflexivity. }
  repeat split; try reflexivity; lia.
Qed.

(** ** Updates *)

Lemma same_record_refl (s : SessionData) : same_record s s.
Proof. repeat split. Qed.

Lemma same_record_trans (s1 s2 s3 : SessionData) :
  same_record s1 s2 -> same_record s2 s3 -> same_record s1 s3.
Proof.
  unfold same_record. intros (A1 & A2 & A3 & A4) (B1 & B2 & B3 & B4).
  repeat split; congruence.
Qed.

Lemma setattr_same_record (s s' : SessionData) (field : string)
    (value : PyVal) :
  setattr s field value = Ok s' -> same_record s s'.
Proof.
  unfold setattr.
  repeat match goal with
         | |- context [if ?b then _ else _] => destruct b
         end;
    destruct value; intros [= <-]; repeat split.
Qed.

Lemma updates_partial_same_record (u : dict PyVal) :
  forall s, same_record s (updates_partial u s).
Proof.
  induction u as [|[field value] u IH]; intros s; cbn [updates_partial].
  - apply same_record_refl.
  - destruct (str_mem field allowed_fields); [|apply IH].
    destruct (coerce_update field value) as [v| |];
      try apply same_record_refl.
    destruct (setattr s field v) as [s'| |] eqn:E;
      try apply same_record_refl.
    eapply same_record_trans; [eapply setattr_same_record; exact E | apply IH].
Qed.

Lemma updates_result_partial (u : dict PyVal) :
  forall s s', updates_result u s = Ok s' -> updates_partial u s = s'.
Proof.
  induction u as [|[field value] u IH]; intros s s';
    cbn [updates_result updates_partial].
  - now intros [= ->].
  - destruct (str_mem field allowed_fields); [|apply IH].
    destruct (coerce_update field value) as [v| |]; try discriminate.
    destruct (setattr s field v) as [s1| |]; try discriminate. apply IH.
Qed.

(** The loop of [update_session] on a stored session: its outcome is that
    of [updates_result], and the table holds the object as far as it was
    written. *)
Lemma apply_updates_cases (id : string) (u : dict PyVal) :
  forall (w : World) (s : SessionData),
    dict_get id (sessions w) = Some s ->
    apply_updates id u s w
    = (updates_result u s,
       world_at w (dict_set id (updates_partial u s) (sessions w)) (ticks w)).
Proof.
  induction u as [|[field value] u IH]; intros w s Hget.
  - cbn. rewrite dict_set_present by assumption. now destruct w.
  - cbn [updates_result updates_partial apply_updates].
    destruct (str_mem field allowed_fields); [|now apply IH].
    unfold bind at 1 2 3, lift_res, store.
    destruct (coerce_update field value) as [v|e|];
      try (rewrite dict_set_present by assumption; now destruct w).
    destruct (setattr s field v) as [s1|e|];
      try (rewrite dict_set_present by assumption; now destruct w).
    cbn. rewrite IH with (s := s1); cbn.
    + now rewrite dict_set_set.
    + apply dict_get_set_same.
Qed.

(** [update_session] on a live session, whatever the keywords: *)
Lemma update_session_cases (id : string) (u : dict PyVal) (w : World)
    (s : SessionData) :
  dict_get id (sessions w) = Some s ->
  live_at w (clock w (ticks w)) s ->
  let s1 := set_last_activity (clock w (1 + ticks w)) s in
  update_session id u w
  = match updates_result u s1 with
    | Ok s' =>
        (Ok true,
         world_at w
           (dict_set id (set_last_activity (clock w (2 + ticks w)) s')
                     (sessions w))
           (3 + ticks w))
    | Raise e =>
        (Raise e,
         world_at w (dict_set id (updates_partial u s1) (sessions w))
                  (2 + ticks w))
    | NoReturn =>
        (NoReturn,
         world_at w (dict_set id (updates_partial u s1) (sessions w))
                  (2 + ticks w))
    end.
Proof.
  intros Hget Hlive s1.
  destruct (updates_result u s1) as [s'|e|] eqn:E.
  - now apply update_session_live with (s := s).
  - unfold update_session, bind.
    rewrite get_session_live with (s := s) by assumption.
    rewrite apply_updates_cases with (s := s1)
      by (cbn; apply dict_get_set_same).
    fold s1. rewrite E. cbn. now rewrite dict_set_set.
  - unfold update_session, bind.
    rewrite get_session_live with (s := s) by assumption.
    rewrite apply_updates_cases with (s := s1)
      by (cbn; apply dict_get_set_same).
    fold s1. rewrite E. cbn. now rewrite dict_set_set.
Qed.

Lemma updates_result_returns_or_raises (u : dict PyVal) :
  forall s, updates_result u s <> NoReturn.
Proof.
  induction u as [|[field value] u IH]; intros s; cbn [updates_result];
    [discriminate|].
  destruct (str_mem field allowed_fields); [|apply IH].
  assert (Hc : coerce_update field value <> NoReturn).
  { unfold coerce_update. destruct value; try discriminate.
    repeat match goal with
           | |- context [if ?b then _ else _] => destruct b
           | |- context [match ?o with Some _ => _ | None => _ end] =>
               destruct o
           end; discriminate. }
  destruct (coerce_update field value) as [v|e|]; [|discriminate|congruence].
  assert (Hs : setattr s field v <> NoReturn).
  { unfold setattr.
    repeat match goal with
           | |- context [if ?b then _ else _] => destruct b
           end; destruct v; discriminate. }
  destruct (setattr s field v) as [s1|e|]; [apply IH|discriminate|congruence].
Qed.

(** X16. Whatever keywords [update_session] is given, it returns [True] or
    raises, and either way the stored session keeps its identifier, start
    time, responses and history, it is still stored, and no other session
    changes: only whitelisted fields and the activity stamp can be
    written. *)
Theorem update_session_keeps_record (id : string) (u : dict PyVal)
    (w : World) (s : SessionData) :
  dict_get id (sessions w) = Some s ->
  live_at w (clock w (ticks w)) s ->
  exists s',
    dict_get id (sessions (snd (update_session id u w))) = Some s'
    /\ same_record s s'
    /\ (forall k, k <> id ->
          dict_get k (sessions (snd (update_session id u w)))
          = dict_get k (sessions w))
    /\ (fst (update_session id u w) = Ok true
        \/ exists e, fst (update_session id u w) = Raise e).
Proof.
  intros Hget Hlive.
  rewrite (@update_session_cases id u w s Hget Hlive). cbv zeta.
  set (s1 := set_last_activity (clock w (1 + ticks w)) s).
  assert (H1 : same_record s s1) by (repeat split).
  pose proof (updates_partial_same_record u s1) as Hp.
  pose proof (updates_result_returns_or_raises u s1) as Hn.
  destruct (updates_result u s1) as [s'|e|] eqn:E; [| |congruence];
    cbn [fst snd sessions world_at].
  - rewrite <- (updates_result_partial _ _ E).
    eexists. split; [apply dict_get_set_same|].
    split; [|split; [intros k Hk; now apply dict_get_set_other | now left]].
    eapply same_record_trans; [exact H1|].
    eapply same_record_trans; [exact Hp | repeat split].
  - eexists. split; [apply dict_get_set_same|].
    split; [exact (same_record_trans H1 Hp)|].
    split; [intros k Hk; now apply dict_get_set_other|].
    right. eauto.
Qed.

Lemma update_session_keeps_record_witness :
  exists s',
    dict_get "id0"
      (sessions
         (snd (update_session "id0"
                 [("responses", PyEmptyDict); ("completed", PyBool true)]
                 (demo_world_with mid_screening)))) = Some s'
    /\ responses s' = responses mid_screening.
Proof.
  destruct (@update_session_keeps_record "id0"
              [("responses", PyEmptyDict); ("completed", PyBool true)]
              (demo_world_with mid_screening) mid_screening)
    as (s' & Hget & (_ & _ & Hresp & _) & _).
  - reflexivity.
  - vm_compute. discriminate.
  - exists s'. split; assumption.
Defined.



(* ===================================================================== *)
(** * Further properties of keyword matching *)
(* ===================================================================== *)

Lemma lower_char_idempotent (c : ascii) :
  lower_char (lower_char c) = lower_char c.
Proof.
  destruct c as [[] [] [] [] [] [] [] []]; vm_compute; reflexivity.
Qed.

Lemma lower_idempotent (s : string) : lower (lower s) = lower s.
Proof.
  induction s as [|c s IH]; cbn; [reflexivity|].
  now rewrite lower_char_idempotent, IH.
Qed.

Lemma lower_app (a b : string) : lower (a ++ b) = lower a ++ lower b.
Proof. induction a as [|c a IH]; cbn; [reflexivity | now rewrite IH]. Qed.

Lemma lower_length (s : string) : String.length (lower s) = String.length s.
Proof. induction s as [|c s IH]; cbn; [reflexivity | now rewrite IH]. Qed.

Lemma str_app_inj (a a' b b' : string) :
  String.length a = String.length a' ->
  a ++ b = a' ++ b' -> a = a' /\ b = b'.
Proof.
  revert a'. induction a as [|c a IH]; intros [|c' a']; cbn;
    try discriminate.
  - auto.
  - intros [= Hl] [= -> H]. destruct (IH a' Hl H) as [-> ->]. auto.
Qed.

(** A part of a lowercased text is in lower case. *)
Lemma part_of_lowered_is_lower (k pre post m : string) :
  lower m = pre ++ k ++ post -> lower k = k.
Proof.
  intros H.
  assert (H2 : lower pre ++ lower k ++ lower post = pre ++ k ++ post).
  { rewrite <- !lower_app, <- H. apply lower_idempotent. }
  apply str_app_inj in H2; [|apply lower_length].
  destruct H2 as [_ H2].
  apply str_app_inj in H2; [|apply lower_length]. tauto.
Qed.

Lemma strip_part (s : string) : exists l r, s = l ++ strip s ++ r.
Proof.
  unfold strip.
  destruct (lstrip_suffix s) as [l Hl].
  destruct (rstrip_prefix (lstrip s)) as [r Hr].
  exists l, r. now rewrite <- Hr.
Qed.

Lemma str_in_lowered (k m : string) :
  str_in k (lower m) = true -> is_lower k = true.
Proof.
  rewrite str_in_spec. intros (pre & post & H).
  unfold is_lower. apply String.eqb_eq.
  eapply part_of_lowered_is_lower; exact H.
Qed.

Lemma str_in_stripped_lowered (k m : string) :
  str_in k (strip (lower m)) = true -> is_lower k = true.
Proof.
  rewrite str_in_spec. intros (pre & post & H).
  destruct (strip_part (lower m)) as (l & r & Hs).
  rewrite H in Hs.
  unfold is_lower. apply String.eqb_eq.
  apply part_of_lowered_is_lower with (pre := l ++ pre) (post := post ++ r)
                                      (m := m).
  rewrite Hs. now rewrite !str_app_assoc.
Qed.

Lemma any_in_filter (text : string) (keep : string -> bool)
    (keywords : list string) :
  (forall k, str_in k text = true -> keep k = true) ->
  any_in text keywords = any_in text (filter keep keywords).
Proof.
  intros H. unfold any_in.
  induction keywords as [|k keywords IH]; cbn; [reflexivity|].
  destruct (str_in k text) eqn:E.
  - rewrite (H k E). cbn. now rewrite E.
  - destruct (keep k); cbn; [rewrite E|]; exact IH.
Qed.

(** X18. The handlers compare configured keywords, as they are written, with
    the lowercased message: a keyword that is not in lower case can never
    match. Consent, routing and answer keywords with a capital letter are
    dead entries of the configuration, for every message. *)
Theorem keywords_with_capitals_never_match (msg : string)
    (keywords : list string) :
  any_in (lower msg) keywords = any_in (lower msg) (filter is_lower keywords)
  /\ any_in (strip (lower msg)) keywords
     = any_in (strip (lower msg)) (filter is_lower keywords)
  /\ forall k, is_lower k = false ->
       any_in (lower msg) [k] = false
       /\ any_in (strip (lower msg)) [k] = false.
Proof.
  split; [apply any_in_filter; intros k; apply str_in_lowered|].
  split; [apply any_in_filter; intros k; apply str_in_stripped_lowered|].
  intros k Hk. unfold any_in. cbn [existsb]. rewrite !orb_false_r.
  split.
  - destruct (str_in k (lower msg)) eqn:E; [|reflexivity].
    apply str_in_lowered in E. congruence.
  - destruct (str_in k (strip (lower msg))) eqn:E; [|reflexivity].
    apply str_in_stripped_lowered in E. congruence.
Qed.

(** ** The answer scale *)

Lemma first_score_range (text : string) (scale : dict (list string)) :
  let v := first_score text scale [("3", 3); ("2", 2); ("1", 1); ("0", 0)] in
  -1 <= v <= 3
  /\ (v = -1 <->
      forall level, In level ["3"; "2"; "1"; "0"] ->
        any_in text (level_keywords scale level) = false)
  /\ (any_in text (level_keywords scale "3") = true -> v = 3)
  /\ (0 <= v ->
      exists level,
        In (level, v) [("3", 3); ("2", 2); ("1", 1); ("0", 0)]
        /\ any_in text (level_keywords scale level) = true).
Proof.
  cbv zeta. cbn [first_score]. fold (level_keywords scale "3").
  fold (level_keywords scale "2"). fold (level_keywords scale "1").
  fold (level_keywords scale "0").
  destruct (any_in text (level_keywords scale "3")) eqn:E3;
    [|destruct (any_in text (level_keywords scale "2")) eqn:E2;
      [|destruct (any_in text (level_keywords scale "1")) eqn:E1;
        [|destruct (any_in text (level_keywords scale "0")) eqn:E0]]].
  all: split; [lia|].
  all: split;
    [split;
     [try discriminate
     |intros H;
      try (rewrite (H "3") in E3 by (cbn; tauto); discriminate);
      try (rewrite (H "2") in E2 by (cbn; tauto); discriminate);
      try (rewrite (H "1") in E1 by (cbn; tauto); discriminate);
      try (rewrite (H "0") in E0 by (cbn; tauto); discriminate)]|].
  5: { intros _ level Hl. cbn in Hl.
       repeat (destruct Hl as [<- | Hl]; [assumption|]). destruct Hl. }
  5: reflexivity.
  all: split; [try reflexivity; try discriminate|].
  1: intros _; exists "3"; split; [cbn; tauto | assumption].
  1: intros _; exists "2"; split; [cbn; tauto | assumption].
  1: intros _; exists "1"; split; [cbn; tauto | assumption].
  1: intros _; exists "0"; split; [cbn; tauto | assumption].
  lia.
Qed.

(** X19. [_map_response_to_score] with a configured scale returns a score from
    -1 to 3 and leaves the store alone. The score is -1 exactly when no
    keyword of the levels "3", "2", "1", "0" occurs in the lowercased
    answer; otherwise it is a level one of whose keywords occurs, and a
    keyword of level "3" wins over every other level. *)
Theorem answer_score_is_highest_level_found (fm : ConversationFlowManager)
    (msg : string) (tool : ScreeningTool) (scale : dict (list string))
    (w : World) :
  scale_of fm tool = Some scale ->
  exists v,
    _map_response_to_score fm msg (tool_name_of tool) w = (Ok v, w)
    /\ -1 <= v <= 3
    /\ (v = -1 <->
        forall level, In level ["3"; "2"; "1"; "0"] ->
          any_in (lower msg) (level_keywords scale level) = false)
    /\ (any_in (lower msg) (level_keywords scale "3") = true -> v = 3)
    /\ (0 <= v ->
        exists level,
          In (level, v) [("3", 3); ("2", 2); ("1", 1); ("0", 0)]
          /\ any_in (lower msg) (level_keywords scale level) = true).
Proof.
  intros Hscale. eexists.
  split; [rewrite map_response_to_score_scale, Hscale; reflexivity|].
  apply first_score_range.
Qed.

Lemma answer_score_is_highest_level_found_witness :
  exists v,
    _map_response_to_score demo_flow "Sometimes, but often at night" "PHQ9"
      demo_world = (Ok v, demo_world)
    /\ -1 <= v <= 3.
Proof.
  destruct (@answer_score_is_highest_level_found demo_flow
              "Sometimes, but often at night" PHQ9 demo_scale demo_world)
    as (v & Hrun & Hr & _).
  - reflexivity.
  - exists v. split; assumption.
Defined.

(** ** The sweep *)

Lemma expired_ids_sub (clk : nat -> Z) (tm : Z) (items : dict SessionData) :
  forall n,
    incl (expired_ids clk tm n items) (dict_keys items)
    /\ (NoDup (dict_keys items) -> NoDup (expired_ids clk tm n items)).
Proof.
  induction items as [|[k s] items IH]; intros n; cbn.
  - split; [intros x [] | intros _; constructor].
  - destruct (IH (S n)) as [Hincl Hnd].
    destruct (is_expired_at (clk n) tm s).
    + split.
      * intros x [<- | Hx]; [now left | right; now apply Hincl].
      * intros H. inversion H as [|? ? Hnotin Hnd']; subst.
        constructor; [|now apply Hnd].
        intros Hin. apply Hnotin. now apply Hincl.
    + split.
      * intros x Hx. right. now apply Hincl.
      * intros H. inversion H; subst. now apply Hnd.
Qed.

Lemma dict_del_all_length (V : Type) (ids : list string) :
  forall d : dict V,
    NoDup (dict_keys d) -> NoDup ids -> incl ids (dict_keys d) ->
    (length (dict_del_all ids d) + length ids = length d)%nat.
Proof.
  induction ids as [|k ids IH]; intros d Hd Hids Hincl.
  - cbn. lia.
  - inversion Hids as [|? ? Hnotin Hids']; subst.
    change (dict_del_all (k :: ids) d) with (dict_del_all ids (dict_del k d)).
    assert (Hk : In k (dict_keys d)) by (apply Hincl; now left).
    pose proof (@dict_del_length_present V k d Hd Hk) as Hlen.
    assert (IH' : (length (dict_del_all ids (dict_del k d)) + length ids
                   = length (dict_del k d))%nat).
    { apply IH.
      - now apply dict_del_NoDup.
      - exact Hids'.
      - intros x Hx. rewrite dict_keys_del. apply filter_In.
        split; [apply Hincl; now right|].
        apply negb_true_iff. apply String.eqb_neq. congruence. }
    cbn [length]. lia.
Qed.

(** X20. [cleanup_expired_sessions] returns the number of sessions it removed,
    and the sessions it keeps are stored as they were: the sweep does not
    refresh the activity of a live session, as a lookup does. *)
Theorem cleanup_returns_number_removed (w : World) :
  well_keyed w ->
  exists n w',
    cleanup_expired_sessions w = (Ok n, w')
    /\ (length (sessions w') + n = length (sessions w))%nat
    /\ (forall k s, dict_get k (sessions w') = Some s ->
          dict_get k (sessions w) = Some s)
    /\ well_keyed w'
    /\ ticks w' = (length (sessions w) + ticks w)%nat.
Proof.
  intros Hnd. rewrite cleanup_run. do 2 eexists. split; [reflexivity|].
  cbn [sessions world_at ticks].
  destruct (expired_ids_sub (clock w) (timeout_minutes w) (sessions w)
              (ticks w)) as [Hincl Hnd'].
  split; [apply dict_del_all_length; auto|].
  split.
  { intros k s. rewrite dict_get_del_all.
    destruct (str_mem k _); [discriminate | trivial]. }
  split; [|reflexivity].
  unfold well_keyed. cbn [sessions world_at]. now apply dict_del_all_NoDup.
Qed.

Lemma cleanup_returns_number_removed_witness :
  exists n w',
    cleanup_expired_sessions
      (late_world [("a", stale_session); ("b", fresh_session)]) = (Ok n, w')
    /\ (length (sessions w') + n = 2)%nat.
Proof.
  destruct (@cleanup_returns_number_removed
              (late_world [("a", stale_session); ("b", fresh_session)]))
    as (n & w' & Hrun & Hlen & _).
  - unfold well_keyed. cbn.
    repeat constructor; cbn; intuition discriminate.
  - exists n, w'. split; [exact Hrun | exact Hlen].
Defined.

(** ** Creation and lookup *)

Lemma create_session_below_limit (fuel : nat) (un co : option string)
    (w : World) :
  Z.of_nat (length (sessions w)) < max_sessions w ->
  fresh_draw_within fuel w ->
  exists sid n,
    create_session fuel un co w
    = (Ok sid,
       world_at (with_draws n w)
         (sessions w
          ++ [(sid, initial_session sid un co (clock w (ticks w))
                      (clock w (S (ticks w))))])%list
         (2 + ticks w))
    /\ dict_get sid (sessions w) = None.
Proof.
  intros Hroom [k [Hk Hfresh]].
  cbv beta iota delta [create_session bind].
  rewrite (enforce_below_limit w Hroom).
  cbv beta iota delta [new_uuid].
  pose proof (unique_session_id_cases fuel (uuid4 w (draws w))
                (with_draws (S (draws w)) w)) as Hu.
  destruct (@unique_session_id_returns fuel (uuid4 w (draws w))
              (with_draws (S (draws w)) w)) as (sid & w3 & Hrun).
  - destruct k as [|k].
    + left. rewrite Nat.add_0_r in Hfresh. exact Hfresh.
    + right. exists k. split; [lia|]. cbn.
      replace (S (draws w + k)) with (draws w + S k)%nat by lia.
      exact Hfresh.
  - rewrite Hrun in Hu |- *. destruct Hu as [Hnew [n ->]]. cbn in Hnew.
    exists sid, n.
    cbv beta iota delta
      [new_session_data bind now ret store get_sessions put_sessions].
    cbn. rewrite dict_set_absent by assumption. split; [reflexivity|].
    exact Hnew.
Qed.

(** X21. Below the limit, [create_session] returns an identifier that was not
    in use and stores under it a session in GREETING without tool,
    responses or history, carrying the name and country given. Every other
    session is left as it was, and a lookup of the new identifier within
    the timeout returns the new session, its activity refreshed. *)
Theorem create_session_then_get (fuel : nat) (un co : option string)
    (w : World) :
  Z.of_nat (length (sessions w)) < max_sessions w ->
  fresh_draw_within fuel w ->
  clock w (2 + ticks w)
  <= clock w (1 + ticks w) + timedelta_minutes (timeout_minutes w) ->
  exists sid w' w'',
    create_session fuel un co w = (Ok sid, w')
    /\ dict_get sid (sessions w) = None
    /\ (forall k, k <> sid ->
          dict_get k (sessions w') = dict_get k (sessions w))
    /\ length (sessions w') = S (length (sessions w))
    /\ get_session sid w'
       = (Ok (Some (set_last_activity (clock w (3 + ticks w))
                      (initial_session sid un co (clock w (ticks w))
                         (clock w (1 + ticks w))))), w'').
Proof.
  intros Hroom Hfresh Hclock.
  destruct (@create_session_below_limit fuel un co w Hroom Hfresh)
    as (sid & n & Hrun & Hnew).
  rewrite Hrun.
  rewrite <- dict_set_absent by assumption.
  do 3 eexists. split; [reflexivity|].
  split; [exact Hnew|].
  split; [intros k Hk; cbn; now apply dict_get_set_other|].
  split.
  { cbn [sessions world_at]. rewrite dict_set_length.
    unfold dict_mem. now rewrite Hnew. }
  erewrite get_session_live;
    [reflexivity | cbn; apply dict_get_set_same | exact Hclock].
Qed.

Lemma create_session_then_get_witness :
  exists sid w' w'' s,
    create_session 0 (Some "Ada") None demo_world = (Ok sid, w')
    /\ get_session sid w' = (Ok (Some s), w'')
    /\ current_phase s = GREETING
    /\ user_name s = Some "Ada"
    /\ responses s = [].
Proof.
  destruct (@create_session_then_get 0 (Some "Ada") None demo_world)
    as (sid & w' & w'' & Hrun & _ & _ & _ & Hget).
  - vm_compute. reflexivity.
  - exists 0%nat. split; [lia | reflexivity].
  - vm_compute. discriminate.
  - exists sid, w', w''. eexists. split; [exact Hrun|].
    split; [exact Hget|]. repeat split; reflexivity.
Defined.

(* ===================================================================== *)
(** * Properties of the score endpoint *)
(* ===================================================================== *)

Lemma add_responses_run (id : string) (items : list Api.ResponseItem) :
  forall (w : World) (s : SessionData),
    dict_get id (sessions w) = Some s ->
    live_at w (clock w (ticks w)) s ->
    calm w (4 * length items + 1) ->
    exists s',
      add_responses id items s w
      = (Ok s', world_at w (dict_set id s' (sessions w))
                  (4 * length items + ticks w))
      /\ responses s'
         = (responses s ++ item_responses (clock w) (ticks w) items)%list
      /\ live_at w (clock w (4 * length items + ticks w)) s'
      /\ current_phase s' = current_phase s
      /\ selected_tool s' = selected_tool s
      /\ completed s' = completed s
      /\ crisis_detected s' = crisis_detected s
      /\ conversation_history s' = conversation_history s.
Proof.
  induction items as [|it items IH]; intros w s Hget Hlive Hcalm.
  - exists s. cbn [add_responses length Nat.mul Nat.add item_responses].
    rewrite app_nil_r.
    split; [cbn; rewrite dict_set_present by assumption; now destruct w|].
    repeat split; try reflexivity. exact Hlive.
  - cbn [add_responses]. cbv beta iota delta [bind deref get_sessions ret].
    rewrite (@add_response_live id _ _ _ w s Hget Hlive).
    cbn [sessions world_at]. rewrite dict_get_set_same. cbn [or_default].
    match goal with
    | |- context [add_responses id items ?s1 ?w1] =>
        destruct (IH w1 s1) as (s' & Hrun & Hresp & Hl & Hp & Ht & Hc & Hx & Hh)
    end.
    + cbn. apply dict_get_set_same.
    + unfold live_at. cbn. apply Hcalm; cbn [length]; lia.
    + eapply calm_weaken with (k := 4%nat); [exact Hcalm | | | |];
        cbn [length]; try reflexivity; lia.
    + exists s'. rewrite Hrun.
      split.
      { cbn [sessions world_at ticks]. rewrite dict_set_set.
        cbn [length].
        replace (4 * S (length items) + ticks w)%nat
          with (4 * length items + S (S (S (S (ticks w)))))%nat by lia.
        reflexivity. }
      split.
      { rewrite Hresp. cbn [responses set_last_activity set_responses
                           item_responses world_at clock ticks].
        rewrite <- app_assoc. reflexivity. }
      split.
      { unfold live_at in *. cbn [world_at clock ticks timeout_minutes] in Hl.
        cbn [length].
        replace (4 * S (length items) + ticks w)%nat
          with (4 * length items + S (S (S (S (ticks w)))))%nat by lia.
        exact Hl. }
      repeat split; assumption.
Qed.

Lemma py_sum_concat (a b : list Z) : py_sum (a ++ b) = py_sum a + py_sum b.
Proof.
  unfold py_sum at 1. rewrite fold_left_app.
  fold (py_sum a). apply py_sum_from.
Qed.

Lemma item_responses_scores (clk : nat -> Z) (items : list Api.ResponseItem) :
  forall t,
    map mapped_score (item_responses clk t items)
    = map (fun it => or_default (Api.score it) 0) items.
Proof.
  induction items as [|it items IH]; intros t; cbn; [reflexivity|].
  now rewrite IH.
Qed.

(** [calculate_score] for an identifier that is not stored, or whose
    session is past its timeout, is answered with status 404; no response
    is added anywhere and the identifier is not stored afterwards. *)
Theorem calculate_score_unknown_session (id tool : string)
    (items : list Api.ResponseItem) (w : World) :
  (dict_get id (sessions w) = None
   \/ exists s, dict_get id (sessions w) = Some s
                /\ is_expired_at (clock w (ticks w)) (timeout_minutes w) s
                   = true) ->
  exists w',
    calculate_score id tool items w
    = (Ok (Api.HTTPException 404 "Session not found or expired"), w')
    /\ dict_get id (sessions w') = None
    /\ (forall k, k <> id ->
          dict_get k (sessions w') = dict_get k (sessions w)).
Proof.
  intros [Habsent | [s [Hget Hexp]]];
    cbv beta iota delta [calculate_score try_catch bind].
  - rewrite get_session_absent by assumption.
    exists w. split; [reflexivity|]. split; [assumption | reflexivity].
  - rewrite get_session_expired with (s := s) by assumption.
    eexists. split; [reflexivity|]. cbn.
    split; [apply dict_get_del_same|].
    intros k Hk. now apply dict_get_del_other.
Qed.

Lemma calculate_score_unknown_session_witness :
  exists w',
    calculate_score "id0" "PHQ9" [demo_item "phq9_1" "often" 2]
      (late_world [("id0", stale_session)])
    = (Ok (Api.HTTPException 404 "Session not found or expired"), w')
    /\ dict_get "id0" (sessions w') = None.
Proof.
  destruct (@calculate_score_unknown_session "id0" "PHQ9"
              [demo_item "phq9_1" "often" 2]
              (late_world [("id0", stale_session)]))
    as (w' & Hrun & Hgone & _).
  - right. exists stale_session. split; reflexivity.
  - exists w'. split; assumption.
Defined.



(** X23. [calculate_score] with a valid tool name: the responses of the request
    are appended to those the session already has, and the total that is
    returned is the sum over all of them, old and new, with the severity
    that the fixed cut-offs of the endpoint give to that total. The session
    is left in RESULTS, completed, with the tool selected. *)
Theorem calculate_score_totals_all_responses (id tool : string)
    (t : ScreeningTool) (items : list Api.ResponseItem) (w : World)
    (s : SessionData) :
  dict_get id (sessions w) = Some s ->
  live_at w (clock w (ticks w)) s ->
  calm w (4 * length items + 6) ->
  tool_of_value tool = Some t ->
  let total :=
    get_total_score s
    + py_sum (map (fun it => or_default (Api.score it) 0) items) in
  exists s',
    calculate_score id tool items w
    = (Ok (Api.Http200
             {| Api.session_id := id;
                Api.screening_tool := tool;
                Api.total_score := total;
                Api.severity_level := basic_severity tool total;
                Api.recommendations := score_recommendations;
                Api.timestamp := clock w (4 * length items + 5 + ticks w) |}),
       world_at w (dict_set id s' (sessions w))
         (4 * length items + 6 + ticks w))
    /\ responses s'
       = (responses s ++ item_responses (clock w) (2 + ticks w) items)%list
    /\ get_total_score s' = total
    /\ current_phase s' = RESULTS
    /\ selected_tool s' = Some t
    /\ completed s' = true.
Proof.
  intros Hget Hlive Hcalm Htool total.
  cbv beta iota delta [calculate_score try_catch bind].
  rewrite get_session_live with (s := s) by assumption.
  match goal with
  | |- context [add_responses id items ?s0 ?w0] =>
      destruct (@add_responses_run id items w0 s0)
        as (s1 & Hrun & Hresp & Hl & Hp & Ht & Hc & Hx & Hh)
  end.
  - cbn. apply dict_get_set_same.
  - unfold live_at. cbn. apply Hcalm; lia.
  - eapply calm_weaken with (k := 2%nat); [exact Hcalm | | | |];
      try reflexivity; lia.
  - rewrite Hrun.
    assert (Htot : get_total_score s1 = total).
    { unfold get_total_score, total. rewrite Hresp.
      cbn [responses set_last_activity world_at clock ticks].
      rewrite map_app, py_sum_concat, item_responses_scores. reflexivity. }
    match goal with
    | |- context [update_session id ?u ?w1] =>
        rewrite (@update_session_cases id u w1 s1)
    end.
    + cbv zeta. cbn [updates_result].
      change (str_mem "selected_tool" allowed_fields) with true.
      change (str_mem "current_phase" allowed_fields) with true.
      change (str_mem "completed" allowed_fields) with true.
      cbv beta iota. cbn [coerce_update String.eqb Ascii.eqb Bool.eqb].
      rewrite Htool.
      change (phase_of_value "RESULTS") with (Some RESULTS).
      cbv beta iota.
      cbn [setattr String.eqb Ascii.eqb Bool.eqb].
      cbv beta iota delta [deref bind get_sessions ret now].
      cbn [sessions world_at ticks clock]. rewrite !dict_set_set.
      rewrite dict_get_set_same. cbn [or_default].
      repeat match goal with
             | |- context [get_total_score ?x] =>
                 lazymatch x with
                 | s1 => fail
                 | _ => change (get_total_score x) with (get_total_score s1)
                 end
             end.
      rewrite Htot.
      replace (3 + (4 * length items + S (S (ticks w))))%nat
        with (4 * length items + 5 + ticks w)%nat by lia.
      eexists. split.
      { f_equal. cbn [with_ticks world_at ticks].
        replace (S (4 * length items + 5 + ticks w))%nat
          with (4 * length items + 6 + ticks w)%nat by lia.
        reflexivity. }
      cbn [responses current_phase selected_tool completed
           set_last_activity set_completed set_current_phase
           set_selected_tool].
      split; [exact Hresp|].
      split; [exact Htot|]. repeat split; reflexivity.
    + cbn. apply dict_get_set_same.
    + exact Hl.
Qed.

Lemma calculate_score_totals_all_responses_witness :
  exists body w' s',
    calculate_score "id0" "PHQ9"
      [demo_item "phq9_2" "often" 2; demo_item "phq9_3" "always" 3]
      (demo_world_with mid_screening) = (Ok (Api.Http200 body), w')
    /\ Api.total_score body = 6
    /\ Api.severity_level body = "mild"
    /\ dict_get "id0" (sessions w') = Some s'
    /\ current_phase s' = RESULTS.
Proof.
  destruct (@calculate_score_totals_all_responses "id0" "PHQ9" PHQ9
              [demo_item "phq9_2" "often" 2; demo_item "phq9_3" "always" 3]
              (demo_world_with mid_screening) mid_screening)
    as (s' & Hrun & _ & _ & Hphase & _).
  - reflexivity.
  - vm_compute. discriminate.
  - apply demo_calm. cbn. lia.
  - reflexivity.
  - do 2 eexists. exists s'. split; [exact Hrun|].
    split; [reflexivity|]. split; [reflexivity|].
    split; [apply dict_get_set_same | exact Hphase].
Defined.

(* ===================================================================== *)
(** * Properties of the emergency resources *)
(* ===================================================================== *)

Lemma remove_first_spec (n c : string)
    (cs : list Emergency.EmergencyContact) :
  match Emergency.remove_first n c cs with
  | Some cs' =>
      exists before x after,
        cs = (before ++ x :: after)%list
        /\ Emergency.same_entry n c x = true
        /\ Forall (fun y => Emergency.same_entry n c y = false) before
        /\ cs' = (before ++ after)%list
  | None => Forall (fun y => Emergency.same_entry n c y = false) cs
  end.
Proof.
  induction cs as [|x cs IH]; cbn [Emergency.remove_first].
  - constructor.
  - destruct (Emergency.same_entry n c x) eqn:E.
    + exists [], x, cs. repeat split; [exact E | constructor].
    + destruct (Emergency.remove_first n c cs) as [cs'|].
      * destruct IH as (before & y & after & -> & Hy & Hb & ->).
        exists (x :: before), y, after.
        repeat split; [exact Hy | now constructor].
      * now constructor.
Qed.

(** X24. [remove_contact] removes one contact at most: the first one whose name
    and country are exactly the ones given. It returns [True] exactly when
    there is such a contact; every other contact, a later duplicate
    included, stays in place and in order, and without a match the manager
    is unchanged. *)
Theorem remove_contact_removes_first_match (n c : string)
    (m : Emergency.EmergencyResourceManager) :
  let (removed, m') := Emergency.remove_contact n c m in
  Emergency.fallback_contacts m' = Emergency.fallback_contacts m
  /\ Emergency.crisis_message_config m' = Emergency.crisis_message_config m
  /\ (removed = true <->
      exists x, In x (Emergency.contacts m)
                /\ Emergency.same_entry n c x = true)
  /\ (removed = false -> m' = m)
  /\ (removed = true ->
      exists before x after,
        Emergency.contacts m = (before ++ x :: after)%list
        /\ Emergency.same_entry n c x = true
        /\ Forall (fun y => Emergency.same_entry n c y = false) before
        /\ Emergency.contacts m' = (before ++ after)%list).
Proof.
  unfold Emergency.remove_contact.
  pose proof (remove_first_spec n c (Emergency.contacts m)) as H.
  destruct (Emergency.remove_first n c (Emergency.contacts m)) as [cs|].
  - destruct H as (before & x & after & Hc & Hx & Hb & ->).
    split; [reflexivity|]. split; [reflexivity|].
    split.
    { split; [intros _|reflexivity].
      exists x. split; [|exact Hx]. rewrite Hc.
      apply in_or_app. right. now left. }
    split; [discriminate|].
    intros _. exists before, x, after. repeat split; assumption.
  - split; [reflexivity|]. split; [reflexivity|].
    split.
    { split; [discriminate|]. intros (x & Hin & Hx).
      rewrite Forall_forall in H. rewrite (H x Hin) in Hx. discriminate. }
    split; [reflexivity | discriminate].
Qed.

(** X25. Adding a contact whose name and country no stored contact has, and
    removing it again by name and country, gives back the manager as it
    was. *)
Theorem add_then_remove_contact (x : Emergency.EmergencyContact)
    (m : Emergency.EmergencyResourceManager) :
  Forall (fun y => Emergency.same_entry (Emergency.name x)
                     (Emergency.country x) y = false)
         (Emergency.contacts m) ->
  Emergency.remove_contact (Emergency.name x) (Emergency.country x)
    (Emergency.add_contact x m)
  = (true, m).
Proof.
  intros Hnew. unfold Emergency.remove_contact, Emergency.add_contact.
  cbn [Emergency.contacts Emergency.with_contacts].
  assert (H : Emergency.remove_first (Emergency.name x) (Emergency.country x)
                (Emergency.contacts m ++ [x])
              = Some (Emergency.contacts m)).
  { induction (Emergency.contacts m) as [|y cs IH];
      cbn [app Emergency.remove_first].
    - unfold Emergency.same_entry. now rewrite !String.eqb_refl.
    - inversion Hnew as [|? ? Hy Hcs]; subst. rewrite Hy.
      now rewrite (IH Hcs). }
  rewrite H. destruct m. reflexivity.
Qed.

Lemma add_then_remove_contact_witness :
  Emergency.remove_contact "Night line" "DE"
    (Emergency.add_contact (demo_contact "Night line" "DE") demo_manager)
  = (true, demo_manager).
Proof.
  apply (@add_then_remove_contact (demo_contact "Night line" "DE")
           demo_manager).
  repeat constructor.
Defined.

Lemma country_filter_In (c : string) (m : Emergency.EmergencyResourceManager)
    (x : Emergency.EmergencyContact) :
  In x (Emergency.get_contacts_by_country c m)
  <-> In x (Emergency.contacts m)
      /\ lower (Emergency.country x) = lower c.
Proof.
  unfold Emergency.get_contacts_by_country.
  rewrite filter_In, String.eqb_eq. tauto.
Qed.

(** X26. The lookup by country ignores case, the removal does not: a stored
    contact is found under any spelling of its country, but
    [remove_contact] with a spelling that no stored contact of that name
    has returns [False] and removes nothing. *)
Theorem lookup_ignores_case_removal_does_not (c : string)
    (x : Emergency.EmergencyContact)
    (m : Emergency.EmergencyResourceManager) :
  In x (Emergency.contacts m) ->
  lower (Emergency.country x) = lower c ->
  (forall y, In y (Emergency.contacts m) ->
     Emergency.name y = Emergency.name x -> Emergency.country y <> c) ->
  In x (Emergency.get_contacts_by_country c m)
  /\ Emergency.remove_contact (Emergency.name x) c m = (false, m).
Proof.
  intros Hin Hc Hother.
  split; [apply country_filter_In; auto|].
  unfold Emergency.remove_contact.
  pose proof (remove_first_spec (Emergency.name x) c (Emergency.contacts m))
    as H.
  destruct (Emergency.remove_first (Emergency.name x) c
              (Emergency.contacts m)) as [cs|]; [|reflexivity].
  destruct H as (before & y & after & Hcs & Hy & _).
  unfold Emergency.same_entry in Hy.
  apply andb_true_iff in Hy. destruct Hy as [Hn Hy].
  apply String.eqb_eq in Hn, Hy.
  exfalso. apply (Hother y); [|exact Hn | exact Hy].
  rewrite Hcs. apply in_or_app. right. now left.
Qed.

Lemma lookup_ignores_case_removal_does_not_witness :
  In (demo_contact "Line" "FR")
     (Emergency.get_contacts_by_country "fr" demo_manager)
  /\ Emergency.remove_contact "Line" "fr" demo_manager
     = (false, demo_manager).
Proof.
  apply (@lookup_ignores_case_removal_does_not "fr"
           (demo_contact "Line" "FR") demo_manager).
  - cbn. tauto.
  - reflexivity.
  - intros y Hy Hn. cbn in Hy.
    repeat (destruct Hy as [<- | Hy]; [discriminate|]). destruct Hy.
Defined.




(* ===================================================================== *)
(** * Properties of the question 9 check and the override handler *)
(* ===================================================================== *)

Lemma denied_spec (patterns : list Re.t) (n : string) :
  denied patterns n
  = existsb (fun p => Re.search p n) patterns
    && (String.length n <? 20)%nat.
Proof.
  induction patterns as [|p patterns IH]; cbn [denied existsb];
    [reflexivity|].
  destruct (Re.search p n); cbn [orb].
  - destruct (String.length n <? 20)%nat; [reflexivity|].
    rewrite IH. now rewrite andb_false_r.
  - exact IH.
Qed.

Lemma affirmed_spec (patterns : list Re.t) (n : string) :
  affirmed patterns n = existsb (fun p => Re.search p n) patterns.
Proof.
  induction patterns as [|p patterns IH]; cbn [affirmed existsb];
    [reflexivity|].
  destruct (Re.search p n); [reflexivity | exact IH].
Qed.

(** X28. [check_phq9_question9] flags an answer exactly when one of the
    positive patterns matches the normalised answer and no denial applies;
    a denial applies when a negative pattern matches and the normalised
    answer is shorter than 20 characters. So a short answer with a word of
    denial is never flagged, whatever else it says, and a denial in an
    answer of 20 characters or more is ignored. Values that are not
    strings, and the empty string, are not flagged. *)
Theorem phq9_question9_verdict (response : string) :
  let n := strip (lower response) in
  let positive := existsb (fun p => Re.search p n) phq9_q9_positive_patterns in
  let negative := existsb (fun p => Re.search p n) phq9_q9_negative_patterns in
  (check_phq9_question9 (PyStr response) = true <->
   response <> "" /\ positive = true
   /\ (negative = false \/ (20 <= String.length n)%nat))
  /\ (negative = true -> (String.length n < 20)%nat ->
      check_phq9_question9 (PyStr response) = false)
  /\ ((20 <= String.length n)%nat -> response <> "" ->
      check_phq9_question9 (PyStr response) = positive)
  /\ (forall v, (forall s, v <> PyStr s) -> check_phq9_question9 v = false).
Proof.
  cbv zeta. unfold check_phq9_question9.
  rewrite denied_spec, affirmed_spec.
  set (n := strip (lower response)).
  set (pos := existsb (fun p => Re.search p n) phq9_q9_positive_patterns).
  set (neg := existsb (fun p => Re.search p n) phq9_q9_negative_patterns).
  destruct response as [|c response]; cbn [truthy is_empty negb].
  - split; [split; [discriminate | intros [H _]; congruence]|].
    split; [reflexivity|]. split; [congruence|].
    intros v Hv. destruct v; try reflexivity. now destruct (Hv s).
  - destruct (String.length n <? 20)%nat eqn:El.
    + apply Nat.ltb_lt in El. rewrite andb_true_r.
      split.
      { destruct neg; split; try discriminate.
        - intros (_ & _ & [H | H]); [discriminate | lia].
        - intros H. repeat split; [discriminate | exact H | now left].
        - intros (_ & H & _). exact H. }
      split; [intros ->; reflexivity|].
      split; [lia|].
      intros v Hv. destruct v; try reflexivity. now destruct (Hv s).
    + apply Nat.ltb_ge in El. rewrite andb_false_r.
      split.
      { split.
        - intros H. repeat split; [discriminate | exact H | now right].
        - intros (_ & H & _). exact H. }
      split; [lia|].
      split; [reflexivity|].
      intros v Hv. destruct v; try reflexivity. now destruct (Hv s).
Qed.

(** A denial that is followed by an admission, in fewer than 20
    characters: not flagged. The same admission after a longer denial is
    flagged. *)
Example short_denial_hides_admission :
  check_phq9_question9 (PyStr "No, but sometimes") = false
  /\ check_phq9_question9 (PyStr "sometimes") = true
  /\ check_phq9_question9 (PyStr "No, not really, but sometimes") = true.
Proof. vm_compute. repeat split. Qed.

(** A word that only contains a pattern word is not a match. *)
Example pattern_words_need_boundaries :
  check_phq9_question9 (PyStr "yesterday") = false
  /\ check_phq9_question9 (PyStr "Yes.") = true.
Proof. vm_compute. split; reflexivity. Qed.

Lemma check_for_crisis_level (sm : SafetyMonitor) (text : string)
    (w : World) :
  exists r,
    check_for_crisis sm (PyStr text) w
    = (Ok r, world_at w (sessions w) (S (ticks w)))
    /\ level r = (if triggers_matched sm text then CRITICAL else NONE)
    /\ (triggers_matched sm text = true ->
        message r = crisis_response_message sm)
    /\ level r <> WARNING.
Proof.
  destruct (check_for_crisis_run sm (PyStr text) w) as (r & Hrun & _ & H).
  exists r. split; [exact Hrun|].
  unfold triggers_matched.
  destruct text as [|c text]; cbn [is_empty negb andb].
  - destruct H as (Hl & _). rewrite Hl.
    repeat split; [discriminate | discriminate].
  - destruct (matched_triggers sm (strip (lower (String c text)))).
    + destruct H as (Hl & _). rewrite Hl.
      repeat split; [discriminate | discriminate].
    + destruct H as (Hl & _ & Hm & _). rewrite Hl.
      repeat split; [intros _; exact Hm | discriminate].
Qed.

Lemma process_user_input_run (sm : SafetyMonitor) (text : string)
    (q9 : option bool) (h : Override.t) (w : World) :
  process_user_input sm text q9 h w
  = if overrides sm (text, q9) then
      (Ok ((true,
            Some (crisis_response_message sm)),
           {| Override.crisis_detected := true;
              Override.crisis_timestamp := Some (clock w (S (ticks w))) |}),
       world_at w (sessions w) (2 + ticks w))
    else (Ok ((false, None), h), world_at w (sessions w) (1 + ticks w)).
Proof.
  unfold process_user_input, overrides, bind. cbn [fst snd].
  destruct (check_for_crisis_level sm text w) as (r & Hrun & Hl & Hm & Hw).
  rewrite Hrun.
  destruct (or_default q9 false && check_phq9_question9 (PyStr text));
    cbn [orb]; [reflexivity|].
  destruct (triggers_matched sm text); rewrite Hl.
  - cbn. now rewrite Hm.
  - reflexivity.
Qed.

(** X29. The handler answers each input on its own: it overrides exactly when
    the input is marked as an answer to question 9 and
    [check_phq9_question9] flags it, or a trigger phrase occurs in it. Its
    flag is a latch over all inputs it has seen: after any sequence of
    inputs it is set if it was set before or some input was overridden,
    and no input clears it. *)
Theorem override_flag_is_a_latch (sm : SafetyMonitor)
    (inputs : list (string * option bool)) :
  forall (h : Override.t) (w : World),
  exists verdicts h' w',
    process_inputs sm inputs h w = (Ok (verdicts, h'), w')
    /\ map fst verdicts = map (overrides sm) inputs
    /\ is_crisis_active h'
       = is_crisis_active h || existsb (overrides sm) inputs
    /\ (forall v, In v verdicts ->
          snd v = if fst v then Some (crisis_response_message sm) else None)
    /\ is_crisis_active (reset_crisis_state h') = false.
Proof.
  induction inputs as [|[text q9] inputs IH]; intros h w.
  - exists [], h, w. cbn. rewrite orb_false_r.
    repeat split; try reflexivity. intros v [].
  - cbn [process_inputs]. unfold bind at 1.
    rewrite process_user_input_run.
    destruct (overrides sm (text, q9)) eqn:E;
      cbv beta iota delta [bind].
    + match goal with
      | |- context [process_inputs sm inputs ?h1 ?w1] =>
          destruct (IH h1 w1) as (vs & h' & w' & Hrun & Hv & Hf & Hm & Hr)
      end.
      rewrite Hrun.
      do 3 eexists. split; [reflexivity|].
      cbn [map fst existsb]. rewrite Hv, E, Hf.
      cbn [is_crisis_active Override.crisis_detected orb].
      rewrite orb_true_r.
      repeat split; try reflexivity.
      intros v [<- | Hin]; [reflexivity | now apply Hm].
    + match goal with
      | |- context [process_inputs sm inputs ?h1 ?w1] =>
          destruct (IH h1 w1) as (vs & h' & w' & Hrun & Hv & Hf & Hm & Hr)
      end.
      rewrite Hrun.
      do 3 eexists. split; [reflexivity|].
      cbn [map fst existsb]. rewrite Hv, E, Hf. cbn [orb].
      repeat split; try reflexivity.
      intros v [<- | Hin]; [reflexivity | now apply Hm].
Qed.

(** X30. POST /api/crisis/check overrides exactly as the handler does and sets
    its flag accordingly. The level it reports comes from the trigger
    phrases alone, so an override by the question 9 check is reported with
    level NONE; [triggered_by] is "PHQ9_Q9" whenever the request is marked
    as an answer to question 9 and is overridden, also when a trigger
    phrase caused the override. The message of an override is the one of
    the emergency manager, for the country of the request if it names one;
    the crisis message configured for the monitor is never returned. *)
Theorem crisis_check_reports (sm : SafetyMonitor)
    (em : Emergency.EmergencyResourceManager) (text : string)
    (q9 : option bool) (c : option string) (h : Override.t) (w : World) :
  exists resp h' w',
    api_check_for_crisis sm em text q9 c h w = (Ok (resp, h'), w')
    /\ CrisisCheck.should_override resp = overrides sm (text, q9)
    /\ CrisisCheck.level resp
       = (if triggers_matched sm text then "CRITICAL" else "NONE")
    /\ CrisisCheck.message resp
       = (if overrides sm (text, q9)
          then Some (Emergency.generate_crisis_message
                       (if Emergency.nonempty c then c else None) em)
          else None)
    /\ CrisisCheck.triggered_by resp
       = (if overrides sm (text, q9)
          then Some (if or_default q9 false then "PHQ9_Q9"
                     else "TRIGGER_WORDS")
          else None)
    /\ is_crisis_active h' = is_crisis_active h || overrides sm (text, q9)
    /\ sessions w' = sessions w.
Proof.
  unfold api_check_for_crisis, bind.
  rewrite process_user_input_run.
  destruct (overrides sm (text, q9)) eqn:E; cbv beta iota.
  - match goal with
    | |- context [check_for_crisis sm (PyStr text) ?w1] =>
        destruct (check_for_crisis_level sm text w1) as (r & Hrun & Hl & _)
    end.
    rewrite Hrun. do 3 eexists. split; [reflexivity|].
    cbn [CrisisCheck.should_override CrisisCheck.level CrisisCheck.message
         CrisisCheck.triggered_by andb is_crisis_active
         Override.crisis_detected].
    rewrite Hl, orb_true_r, andb_true_r.
    split; [reflexivity|].
    split; [now destruct (triggers_matched sm text)|].
    split; [now destruct (Emergency.nonempty c)|].
    split; [now destruct (or_default q9 false)|].
    split; reflexivity.
  - match goal with
    | |- context [check_for_crisis sm (PyStr text) ?w1] =>
        destruct (check_for_crisis_level sm text w1) as (r & Hrun & Hl & _)
    end.
    rewrite Hrun. do 3 eexists. split; [reflexivity|].
    cbn [CrisisCheck.should_override CrisisCheck.level CrisisCheck.message
         CrisisCheck.triggered_by andb].
    rewrite Hl, orb_false_r, andb_false_r.
    split; [reflexivity|].
    split; [now destruct (triggers_matched sm text)|].
    repeat split; reflexivity.
Qed.

(** An answer to question 9 that the patterns flag, without a trigger
    phrase: overridden, at level NONE. A trigger phrase in a request marked
    as an answer to question 9 that the patterns do not flag: labelled
    PHQ9_Q9. *)
Example crisis_check_samples :
  (let '(resp, _) :=
     res_or no_response
       (fst (api_check_for_crisis demo_monitor demo_manager "sometimes"
               (Some true) None CrisisOverrideHandler_init demo_world)) in
   (CrisisCheck.should_override resp, CrisisCheck.level resp,
    CrisisCheck.triggered_by resp))
  = (true, "NONE", Some "PHQ9_Q9")
  /\ (let '(resp, _) :=
        res_or no_response
          (fst (api_check_for_crisis demo_monitor demo_manager
                  "suicide" (Some true) None CrisisOverrideHandler_init
                  demo_world)) in
      (check_phq9_question9 (PyStr "suicide"),
       CrisisCheck.triggered_by resp))
     = (false, Some "PHQ9_Q9").
Proof. vm_compute. split; reflexivity. Qed.
